(** * Row-level access control in the banking GraphQL sample

    A shallow embedding of the resolvers of [index.js] (both variants found in
    the repository), of the sample store [data.js], and of the parts of the
    JavaScript runtime they call: strings as sequences of UTF-16 code units,
    [String.prototype.localeCompare], [substring], [indexOf],
    [Buffer.from(_, 'base64')], [Buffer.prototype.toString], [JSON.parse].

    Console output is not part of the embedding; the evaluation of what a
    log line prints is, where it can throw. *)

From Stdlib Require Import List String Ascii NArith ZArith Bool Arith Lia.
Import ListNotations.

Set Warnings "-register-all".

(* ===================================================================== *)
(** ** The JavaScript values the program manipulates *)
(* ===================================================================== *)

Module JS.

(** A string is its sequence of UTF-16 code units. *)
Definition code_unit := N.
Definition jsstring := list code_unit.

(** Source literals: every character of the literals of this program is
    ASCII, so its code unit is its ASCII code. *)
Definition lit (s : string) : jsstring :=
  List.map N_of_ascii (list_ascii_of_string s).

Definition jsstring_eq_dec : forall a b : jsstring, {a = b} + {a <> b} :=
  list_eq_dec N.eq_dec.

(** What a [throw] or a rejected promise carries. *)
Inductive error : Type :=
| SyntaxError
| TypeError
| HttpError (reason : jsstring).

(** Completion of a synchronous call, and settlement of a promise.
    [Pending] is a promise that never settles: an [await] on it never
    resumes.  [Uncaught] is an exception that the runtime throws outside the
    call stack of the program, from the event loop: no handler of the
    program catches it, and by default it ends the process. *)
Inductive completion (A : Type) : Type :=
| Normal (a : A)
| Throw (e : error)
| Pending
| Uncaught (e : error).
Arguments Normal {A} a.
Arguments Throw {A} e.
Arguments Pending {A}.
Arguments Uncaught {A} e.

Definition bind {A B} (c : completion A) (k : A -> completion B) : completion B :=
  match c with
  | Normal a => k a
  | Throw e => Throw e
  | Pending => Pending
  | Uncaught e => Uncaught e
  end.

(** A call that comes back to its caller: with a value or with an exception
    the caller can catch. *)
Definition comes_back {A} (c : completion A) : Prop :=
  match c with
  | Normal _ | Throw _ => True
  | Pending | Uncaught _ => False
  end.

Notation "x <- c ;; k" := (bind c (fun x => k))
  (at level 61, c at next level, right associativity).

(** [try { c } catch (error) { h error }] *)
Definition try_catch {A} (c : completion A) (h : error -> completion A) : completion A :=
  match c with
  | Normal a => Normal a
  | Throw e => h e
  | Pending => Pending
  | Uncaught e => Uncaught e
  end.

(** A JSON number, kept as the exact decimal it denotes:
    [0.d1 d2 ... dk * 10 ^ point], with [d1] and [dk] non-zero, and no digit
    at all for zero.  The runtime rounds literals to IEEE doubles: a literal
    of at most 15 significant digits whose decimal exponent lies between
    -300 and 300 is printed back digit for digit and is zero only when
    written as zero, and on these the conversions below are those of the
    runtime; a longer literal is rounded, a smaller one can become zero and
    a larger one infinite.  The statements below that rest on the conversion
    of a number are stated for the former ([exact]). *)
Record number : Type := mkNumber {
  negative : bool;
  digits : list N;
  point : Z
}.

Inductive value : Type :=
| VUndefined
| VNull
| VBool (b : bool)
| VNumber (n : number)
| VString (s : jsstring)
| VArray (elems : list value)
| VObject (props : list (jsstring * value)).

(** *** Number to string (Number::toString, radix 10) *)

Definition digit_char (d : N) : N := (48 + d)%N.

Fixpoint nat_digits (fuel : nat) (n : N) (acc : jsstring) : jsstring :=
  match fuel with
  | O => acc
  | S f =>
      let acc' := digit_char (n mod 10) :: acc in
      if (n / 10 =? 0)%N then acc' else nat_digits f (n / 10) acc'
  end.

Definition decimal_of_N (n : N) : jsstring :=
  nat_digits (S (N.to_nat (N.log2 n))) n [].

Definition Number_toString (x : number) : jsstring :=
  match digits x with
  | [] => lit "0"
  | d1 :: ds =>
      let s := List.map digit_char (d1 :: ds) in
      let k := Z.of_nat (List.length s) in
      let n := point x in
      let sign := if negative x then lit "-" else [] in
      let body :=
        if ((k <=? n) && (n <=? 21))%Z then
          s ++ List.repeat 48%N (Z.to_nat (n - k))
        else if ((0 <? n) && (n <=? 21))%Z then
          firstn (Z.to_nat n) s ++ lit "." ++ skipn (Z.to_nat n) s
        else if ((-6 <? n) && (n <=? 0))%Z then
          lit "0." ++ List.repeat 48%N (Z.to_nat (- n)) ++ s
        else
          let e := (n - 1)%Z in
          let es := (if (e <? 0)%Z then lit "-" else lit "+")
                      ++ decimal_of_N (Z.to_N (Z.abs e)) in
          match ds with
          | [] => [digit_char d1] ++ lit "e" ++ es
          | _ => [digit_char d1] ++ lit "." ++ List.map digit_char ds ++ lit "e" ++ es
          end
      in sign ++ body
  end.

(** *** ToBoolean and ToString on the values JSON can produce *)

Definition ToBoolean (v : value) : bool :=
  match v with
  | VUndefined | VNull => false
  | VBool b => b
  | VNumber n => match digits n with [] => false | _ => true end
  | VString s => match s with [] => false | _ => true end
  | VArray _ | VObject _ => true
  end.

(** *** Property reads *)

Fixpoint lookup (key : jsstring) (props : list (jsstring * value)) : option value :=
  match props with
  | [] => None
  | (k, v) :: rest => if jsstring_eq_dec k key then Some v else lookup key rest
  end.

(** [Array.prototype.join(",")] over a conversion of the elements. *)
Fixpoint join_with (elem : value -> completion jsstring) (l : list value)
    : completion jsstring :=
  match l with
  | [] => Normal []
  | [e] => elem e
  | e :: rest =>
      s <- elem e ;;
      r <- join_with elem rest ;;
      Normal (s ++ lit "," ++ r)
  end.

(** ToString.  The values are those JSON.parse builds, so no property is
    ever callable: an object with an own toString property cannot be
    converted (the conversion finds no callable toString and a valueOf that
    returns the object) and throws a TypeError; any other object is
    "[object Object]"; an array is the join of its elements, where undefined
    and null count as empty. *)
Fixpoint ToString (v : value) : completion jsstring :=
  match v with
  | VUndefined => Normal (lit "undefined")
  | VNull => Normal (lit "null")
  | VBool true => Normal (lit "true")
  | VBool false => Normal (lit "false")
  | VNumber n => Normal (Number_toString n)
  | VString s => Normal s
  | VArray elems =>
      join_with
        (fun e => match e with
                  | VUndefined | VNull => Normal []
                  | _ => ToString e
                  end)
        elems
  | VObject props =>
      match lookup (lit "toString") props with
      | Some _ => Throw TypeError
      | None => Normal (lit "[object Object]")
      end
  end.

(** [CreateDataProperty]: a repeated key overwrites the earlier value. *)
Fixpoint define_property (key : jsstring) (v : value)
    (props : list (jsstring * value)) : list (jsstring * value) :=
  match props with
  | [] => [(key, v)]
  | (k, w) :: rest =>
      if jsstring_eq_dec k key then (k, v) :: rest
      else (k, w) :: define_property key v rest
  end.

(** [o.key] for a key that no built-in prototype defines and that is neither
    an index nor ["length"] (here: subject, active, Username).  Reading a
    property of [undefined] or [null] throws a TypeError; on every other
    value without such an own property the read gives [undefined]. *)
Definition Get (o : value) (key : jsstring) : completion value :=
  match o with
  | VUndefined | VNull => Throw TypeError
  | VObject props =>
      match lookup key props with
      | Some v => Normal v
      | None => Normal VUndefined
      end
  | _ => Normal VUndefined
  end.

(** *** String methods *)

(** Code-unit order; the result is in {-1, 0, 1}. *)
Fixpoint compare_units (a b : jsstring) : Z :=
  match a, b with
  | [], [] => 0
  | [], _ :: _ => -1
  | _ :: _, [] => 1
  | x :: a', y :: b' =>
      match (x ?= y)%N with
      | Lt => -1
      | Gt => 1
      | Eq => compare_units a' b'
      end
  end.

(** [a.localeCompare(that)]: the argument is converted with ToString.  The
    program only tests the result against zero.  The comparison written here
    is that of the code units, which is the collation of the runtime on
    strings of ASCII digits and letters (the owners of the store, the
    subjects of its tokens): two of them compare equal only when they are the
    same string.  On other strings the collation of the runtime is coarser:
    it passes over ignorable characters and takes canonically equivalent
    sequences for equal.  The statements below that rest on the result of a
    comparison are stated for strings of digits and letters ([alphanumeric])
    or for the strings of the program. *)
Definition localeCompare (a : jsstring) (that : value) : completion Z :=
  That <- ToString that ;;
  Normal (compare_units a That).

Definition clamp (i : Z) (len : nat) : nat :=
  Nat.min (Z.to_nat i) len.

(** [s.substring(start, end)] *)
Definition substring (s : jsstring) (start end_ : Z) : jsstring :=
  let a := clamp start (List.length s) in
  let b := clamp end_ (List.length s) in
  let from := Nat.min a b in
  let to := Nat.max a b in
  firstn (to - from) (skipn from s).

(** [s.substring(start)] *)
Definition substring_from (s : jsstring) (start : Z) : jsstring :=
  substring s start (Z.of_nat (List.length s)).

(** [s.indexOf(c)] for a one-character search string. *)
Fixpoint indexOf_from (s : jsstring) (c : N) (i : Z) : Z :=
  match s with
  | [] => -1
  | x :: rest => if (x =? c)%N then i else indexOf_from rest c (i + 1)
  end.

Definition indexOf (s : jsstring) (c : N) : Z := indexOf_from s c 0.

End JS.

Import JS.

(* ===================================================================== *)
(** ** Buffers: base64 decoding and UTF-8 reading *)
(* ===================================================================== *)

Module Buffer.

(** A buffer is its sequence of bytes, each below 256. *)
Definition buffer := list N.

(** Value of a base64 character, given the byte read for it; both the
    standard and the URL-safe alphabet are accepted. *)
Definition unbase64 (c : N) : option N :=
  if ((65 <=? c) && (c <=? 90))%N then Some (c - 65)%N
  else if ((97 <=? c) && (c <=? 122))%N then Some (c - 71)%N
  else if ((48 <=? c) && (c <=? 57))%N then Some (c + 4)%N
  else if ((c =? 43) || (c =? 45))%N then Some 62%N
  else if ((c =? 47) || (c =? 95))%N then Some 63%N
  else None.

(** The legal characters of the input, up to the first ['=']: a character
    outside the alphabet is skipped, padding stops the decoding.  The decoder
    reads one byte for each character, the low byte of its code unit. *)
Fixpoint sextets (s : jsstring) : list N :=
  match s with
  | [] => []
  | c :: rest =>
      let b := (c mod 256)%N in
      if (b =? 61)%N then []
      else match unbase64 b with
           | Some v => v :: sextets rest
           | None => sextets rest
           end
  end.

(** Four sextets carry three bytes; a trailing pair carries one byte, a
    trailing triple two, a lone trailing sextet none. *)
Fixpoint bytes_of_sextets (l : list N) : buffer :=
  match l with
  | a :: b :: c :: d :: rest =>
      (a * 4 + b / 16)%N :: ((b mod 16) * 16 + c / 4)%N :: ((c mod 4) * 64 + d)%N
        :: bytes_of_sextets rest
  | [a; b; c] => [(a * 4 + b / 16)%N; ((b mod 16) * 16 + c / 4)%N]
  | [a; b] => [(a * 4 + b / 16)%N]
  | _ => []
  end.

(** [Buffer.from(s, 'base64')] *)
Definition from_base64 (s : jsstring) : buffer :=
  bytes_of_sextets (sextets s).

(** [Buffer.concat(chunks)] *)
Definition concat (chunks : list buffer) : buffer := List.concat chunks.

(** State of the UTF-8 reader between two bytes: either at a character
    boundary, or inside a sequence with [needed] continuation bytes still to
    come, the next of which has to lie in [lower .. upper]. *)
Inductive utf8_state : Type :=
| Boundary
| Inside (needed : nat) (cp lower upper : N).

Definition replacement : N := 65533.

(** A code point as UTF-16: itself, or a surrogate pair. *)
Definition utf16 (cp : N) : jsstring :=
  if (cp <? 65536)%N then [cp]
  else [(55296 + (cp - 65536) / 1024)%N; (56320 + (cp - 65536) mod 1024)%N].

Definition lead_byte (b : N) : jsstring * utf8_state :=
  if (b <=? 127)%N then ([b], Boundary)
  else if ((194 <=? b) && (b <=? 223))%N then ([], Inside 1 (b - 192) 128 191)
  else if ((224 <=? b) && (b <=? 239))%N then
    ([], Inside 2 (b - 224) (if (b =? 224)%N then 160 else 128)
                            (if (b =? 237)%N then 159 else 191))
  else if ((240 <=? b) && (b <=? 244))%N then
    ([], Inside 3 (b - 240) (if (b =? 240)%N then 144 else 128)
                            (if (b =? 244)%N then 143 else 191))
  else ([replacement], Boundary).

Definition utf8_step (st : utf8_state) (b : N) : jsstring * utf8_state :=
  match st with
  | Boundary => lead_byte b
  | Inside needed cp lower upper =>
      if ((lower <=? b) && (b <=? upper))%N then
        let cp' := (cp * 64 + (b - 128))%N in
        match needed with
        | S (S n) => ([], Inside (S n) cp' 128 191)
        | _ => (utf16 cp', Boundary)
        end
      else
        (* the broken sequence is replaced, the byte is read again *)
        let (out, st') := lead_byte b in (replacement :: out, st')
  end.

Fixpoint utf8_decode (st : utf8_state) (bs : buffer) : jsstring :=
  match bs with
  | [] => match st with Boundary => [] | Inside _ _ _ _ => [replacement] end
  | b :: rest => let (out, st') := utf8_step st b in out ++ utf8_decode st' rest
  end.

(** [buf.toString()]: the bytes read as UTF-8, ill-formed sequences replaced
    by U+FFFD. *)
Definition toString (buf : buffer) : jsstring := utf8_decode Boundary buf.

End Buffer.

(* ===================================================================== *)
(** ** JSON.parse *)
(* ===================================================================== *)

Module JSON.

Inductive parsed (A : Type) : Type :=
| Parsed (a : A) (rest : jsstring)
| Malformed
| Starved.
Arguments Parsed {A} a rest.
Arguments Malformed {A}.
Arguments Starved {A}.

Definition is_ws (c : N) : bool :=
  ((c =? 32) || (c =? 9) || (c =? 10) || (c =? 13))%N.

Fixpoint skip_ws (s : jsstring) : jsstring :=
  match s with
  | c :: rest => if is_ws c then skip_ws rest else s
  | [] => []
  end.

Definition is_digit (c : N) : bool := ((48 <=? c) && (c <=? 57))%N.

Definition hex_digit (c : N) : option N :=
  if is_digit c then Some (c - 48)%N
  else if ((65 <=? c) && (c <=? 70))%N then Some (c - 55)%N
  else if ((97 <=? c) && (c <=? 102))%N then Some (c - 87)%N
  else None.

Definition hex4 (a b c d : N) : option N :=
  match hex_digit a, hex_digit b, hex_digit c, hex_digit d with
  | Some x, Some y, Some z, Some w => Some (((x * 16 + y) * 16 + z) * 16 + w)%N
  | _, _, _, _ => None
  end.

(** The character after a backslash, [\u] apart. *)
Definition unescape (e : N) : option N :=
  if (e =? 34)%N then Some 34%N            (* quote *)
  else if (e =? 92)%N then Some 92%N       (* backslash *)
  else if (e =? 47)%N then Some 47%N       (* slash *)
  else if (e =? 98)%N then Some 8%N        (* b *)
  else if (e =? 102)%N then Some 12%N      (* f *)
  else if (e =? 110)%N then Some 10%N      (* n *)
  else if (e =? 114)%N then Some 13%N      (* r *)
  else if (e =? 116)%N then Some 9%N       (* t *)
  else None.

Definition push (c : N) (r : option (jsstring * jsstring)) : option (jsstring * jsstring) :=
  match r with
  | Some (str, rest) => Some (c :: str, rest)
  | None => None
  end.

(** The body of a string literal, after its opening quote: the characters
    it denotes and what follows the closing quote. *)
Fixpoint scan_string (s : jsstring) : option (jsstring * jsstring) :=
  match s with
  | [] => None
  | c :: rest =>
      if (c =? 34)%N then Some ([], rest)
      else if (c =? 92)%N then
        match rest with
        | [] => None
        | e :: rest' =>
            if (e =? 117)%N then
              match rest' with
              | h1 :: h2 :: h3 :: h4 :: rest'' =>
                  match hex4 h1 h2 h3 h4 with
                  | Some u => push u (scan_string rest'')
                  | None => None
                  end
              | _ => None
              end
            else
              match unescape e with
              | Some u => push u (scan_string rest')
              | None => None
              end
        end
      else if (c <? 32)%N then None
      else push c (scan_string rest)
  end.

(** Leading decimal digits (as digit values) and the rest. *)
Fixpoint take_digits (s : jsstring) : list N * jsstring :=
  match s with
  | c :: rest =>
      if is_digit c then let (ds, r) := take_digits rest in ((c - 48)%N :: ds, r)
      else ([], s)
  | [] => ([], [])
  end.

Fixpoint strip_zeros (ds : list N) : nat * list N :=
  match ds with
  | d :: rest =>
      if (d =? 0)%N then let (n, r) := strip_zeros rest in (S n, r) else (O, ds)
  | [] => (O, [])
  end.

Definition digits_value (ds : list N) : N :=
  fold_left (fun acc d => (acc * 10 + d)%N) ds 0%N.

Definition make_number (neg : bool) (int frac : list N) (exp : Z) : number :=
  let (lead, sig) := strip_zeros (int ++ frac) in
  let sig' := rev (snd (strip_zeros (rev sig))) in
  match sig' with
  | [] => mkNumber neg [] 0
  | _ => mkNumber neg sig' (Z.of_nat (List.length int) + exp - Z.of_nat lead)
  end.

(** The parts of a number token: an optional minus sign; an integer part,
    either a lone 0 or digits that do not start with 0; an optional
    fraction, a dot and at least one digit; an optional exponent, e or E, an
    optional sign and at least one digit. *)
Definition scan_sign (s : jsstring) : bool * jsstring :=
  match s with
  | c :: r => if (c =? 45)%N then (true, r) else (false, s)
  | [] => (false, s)
  end.

Definition scan_fraction (s : jsstring) : option (list N * jsstring) :=
  match s with
  | c :: r =>
      if (c =? 46)%N then
        let (fr, r') := take_digits r in
        match fr with
        | [] => None
        | _ :: _ => Some (fr, r')
        end
      else Some ([], s)
  | [] => Some ([], s)
  end.

Definition scan_exponent_sign (s : jsstring) : bool * jsstring :=
  match s with
  | sg :: r =>
      if (sg =? 45)%N then (true, r)
      else if (sg =? 43)%N then (false, r)
      else (false, s)
  | [] => (false, s)
  end.

Definition scan_exponent (s : jsstring) : option (Z * jsstring) :=
  match s with
  | c :: r =>
      if ((c =? 101) || (c =? 69))%N then
        let (eneg, r1) := scan_exponent_sign r in
        let (ed, r2) := take_digits r1 in
        match ed with
        | [] => None
        | _ :: _ =>
            let e := Z.of_N (digits_value ed) in
            Some ((if eneg then - e else e)%Z, r2)
        end
      else Some (0%Z, s)
  | [] => Some (0%Z, s)
  end.

Definition scan_number (s : jsstring) : option (number * jsstring) :=
  let (neg, s1) := scan_sign s in
  let (int, s2) := take_digits s1 in
  match int with
  | [] => None
  | d :: more =>
      if ((d =? 0)%N && negb (match more with [] => true | _ :: _ => false end))%bool
      then None
      else
        match scan_fraction s2 with
        | None => None
        | Some (frac, s3) =>
            match scan_exponent s3 with
            | None => None
            | Some (exp, s4) => Some (make_number neg int frac exp, s4)
            end
        end
  end.

Fixpoint strip_prefix (p s : jsstring) : option jsstring :=
  match p, s with
  | [], _ => Some s
  | a :: p', b :: s' => if (a =? b)%N then strip_prefix p' s' else None
  | _ :: _, [] => None
  end.

(** A value that is neither an array nor an object. *)
Definition scan_scalar (s : jsstring) : parsed value :=
  match s with
  | [] => Malformed
  | c :: rest =>
      if (c =? 34)%N then
        match scan_string rest with
        | Some (str, r) => Parsed (VString str) r
        | None => Malformed
        end
      else match strip_prefix (lit "true") s with
      | Some r => Parsed (VBool true) r
      | None =>
      match strip_prefix (lit "false") s with
      | Some r => Parsed (VBool false) r
      | None =>
      match strip_prefix (lit "null") s with
      | Some r => Parsed VNull r
      | None =>
      match scan_number s with
      | Some (n, r) => Parsed (VNumber n) r
      | None => Malformed
      end end end end
  end.

(** Recursive descent; [fuel] bounds the number of nested calls. *)
Fixpoint parse_value (fuel : nat) (s : jsstring) : parsed value :=
  match fuel with
  | O => Starved
  | S fuel' =>
      match skip_ws s with
      | [] => Malformed
      | c :: rest =>
          if (c =? 91)%N then          (* [ *)
            match skip_ws rest with
            | [] => Malformed
            | c' :: rest' =>
                if (c' =? 93)%N then Parsed (VArray []) rest'
                else parse_elements fuel' [] rest
            end
          else if (c =? 123)%N then    (* { *)
            match skip_ws rest with
            | [] => Malformed
            | c' :: rest' =>
                if (c' =? 125)%N then Parsed (VObject []) rest'
                else parse_members fuel' [] rest
            end
          else scan_scalar (c :: rest)
      end
  end
with parse_elements (fuel : nat) (acc : list value) (s : jsstring) : parsed value :=
  match fuel with
  | O => Starved
  | S fuel' =>
      match parse_value fuel' s with
      | Parsed v r =>
          match skip_ws r with
          | [] => Malformed
          | c :: r' =>
              if (c =? 44)%N then parse_elements fuel' (acc ++ [v]) r'
              else if (c =? 93)%N then Parsed (VArray (acc ++ [v])) r'
              else Malformed
          end
      | Malformed => Malformed
      | Starved => Starved
      end
  end
with parse_members (fuel : nat) (acc : list (jsstring * value)) (s : jsstring) : parsed value :=
  match fuel with
  | O => Starved
  | S fuel' =>
      match skip_ws s with
      | [] => Malformed
      | q :: s1 =>
          if (q =? 34)%N then
            match scan_string s1 with
            | None => Malformed
            | Some (key, s2) =>
                match skip_ws s2 with
                | [] => Malformed
                | colon :: s3 =>
                    if (colon =? 58)%N then
                      match parse_value fuel' s3 with
                      | Parsed v r =>
                          match skip_ws r with
                          | [] => Malformed
                          | c :: r' =>
                              if (c =? 44)%N then
                                parse_members fuel' (define_property key v acc) r'
                              else if (c =? 125)%N then
                                Parsed (VObject (define_property key v acc)) r'
                              else Malformed
                          end
                      | Malformed => Malformed
                      | Starved => Starved
                      end
                    else Malformed
                end
            end
          else Malformed
      end
  end.

(** [JSON.parse(text)]: one value between optional white space, or a
    SyntaxError.  The fuel handed to the descent is never used up (see
    [parse_fuel_adequate] below). *)
Definition parse (text : jsstring) : completion value :=
  match parse_value (S (2 * List.length text)) text with
  | Parsed v rest =>
      match skip_ws rest with
      | [] => Normal v
      | _ :: _ => Throw SyntaxError
      end
  | Malformed => Throw SyntaxError
  | Starved => Throw SyntaxError
  end.

End JSON.

(* ===================================================================== *)
(** ** data.js: the hardcoded open banking data *)
(* ===================================================================== *)

Module Account.
Record t : Type := make {
  id : jsstring;
  branch : jsstring;
  currency : jsstring;
  type : jsstring;
  balance : jsstring;
  owner : jsstring;
  nickname : jsstring
}.
End Account.

Module Transfer.
Record t : Type := make {
  date : jsstring;
  amount : jsstring;
  currency : jsstring;
  creditor : Account.t;
  debitor : Account.t
}.
End Transfer.

Module data.

Definition checking_577 : Account.t :=
  Account.make (lit "516236577") (lit "31801") (lit "CAD") (lit "Checking")
    (lit "$6,832.14") (lit "469863216813") (lit "Checking").
Definition savings_582 : Account.t :=
  Account.make (lit "516236582") (lit "31801") (lit "CAD") (lit "Savings")
    (lit "$37,851.64") (lit "469863216813") (lit "Savings").
Definition card_631 : Account.t :=
  Account.make (lit "516236631") (lit "31801") (lit "CAD") (lit "Credit Card")
    (lit "-$11,278.40") (lit "469863216813") (lit "Family Visa").
Definition checking_325 : Account.t :=
  Account.make (lit "745586325") (lit "31801") (lit "CAD") (lit "Checking")
    (lit "$782.14") (lit "467745863242") (lit "Checking").
Definition savings_331 : Account.t :=
  Account.make (lit "745586331") (lit "31801") (lit "CAD") (lit "Savings")
    (lit "$1,875.65") (lit "467745863242") (lit "Savings").
Definition card_340 : Account.t :=
  Account.make (lit "745586340") (lit "31801") (lit "CAD") (lit "Credit Card")
    (lit "-$3,887.40") (lit "467745863242") (lit "Meg's Amex").

Definition accounts : list Account.t :=
  [checking_577; savings_582; card_631; checking_325; savings_331; card_340].

Definition transfer_feb21 : Transfer.t :=
  Transfer.make (lit "Fri Feb 21 21:31:20 UTC 2019") (lit "$9,874.25") (lit "CAD")
    checking_577 card_631.
Definition transfer_feb20 : Transfer.t :=
  Transfer.make (lit "Thu Feb 20 16:31:20 UTC 2019") (lit "$9,874.25") (lit "CAD")
    savings_331 checking_325.

Definition transfers : list Transfer.t := [transfer_feb21; transfer_feb20].

End data.

(* ===================================================================== *)
(** ** The incoming request *)
(* ===================================================================== *)

(** Of the request only [req.headers.authorization] is read: a string, or
    undefined when the header is absent. *)
Record request : Type := mkRequest {
  authorization : option jsstring
}.

(** [req.headers.authorization || ''] *)
Definition authorization_or_empty (req : request) : jsstring :=
  match authorization req with
  | Some (c :: s) => c :: s
  | Some [] => []
  | None => []
  end.

(* ===================================================================== *)
(** ** index.js, asynchronous variant: the subject is resolved inside each
       resolver, from the request kept in the context *)
(* ===================================================================== *)

Module Async.

Record Context : Type := mkContext {
  ctx_request : request;
  subject : value       (* [VUndefined] until contextToSubject assigns it *)
}.

Definition set_subject (c : Context) (s : value) : Context :=
  mkContext (ctx_request c) s.

(** [tokToSubjectFakeToks] *)
Definition tokToSubjectFakeToks (tok : jsstring) : completion value :=
  let decoded := Buffer.toString (Buffer.from_base64 tok) in
  try_catch
    (ojedTok <- JSON.parse decoded ;;
     Get ojedTok (lit "subject"))
    (fun error => Normal (VString (lit "Fake token failure"))).

(** What the response object emits to the listeners registered by
    [getPingFedPromise]. *)
Inductive response_event : Type :=
| on_data (fragments : Buffer.buffer)
| on_end
| on_error (e : error).

(** What becomes of the request: the request object itself emits [error]
    (name resolution, connection refused or reset), or the callback of
    [https.request] runs with a response, which emits its events. *)
Inductive exchange : Type :=
| request_error (e : error)
| response (events : list response_event).

(** The token service at one call: what becomes of the request of that call,
    given its body.  Every call of a resolver makes a request of its own, and
    nothing makes the service answer two requests alike: a statement about
    two calls takes an endpoint for each, a statement about one call takes
    one. *)
Definition endpoint := jsstring -> exchange.

(** The three listeners, run over the events in order; the promise settles
    at the first [end] or [error] and stays pending when neither comes. *)
Fixpoint response_listeners (chunks_of_data : list Buffer.buffer)
    (events : list response_event) : completion jsstring :=
  match events with
  | [] => Pending
  | on_data fragments :: later => response_listeners (chunks_of_data ++ [fragments]) later
  | on_end :: _ =>
      let response_body := Buffer.concat chunks_of_data in
      Normal (Buffer.toString response_body)
  | on_error e :: _ => Throw e
  end.

(** [getPingFedPromise].  The source registers listeners on the response
    only.  The request has no [error] listener, and an event emitter throws
    an [error] event that nobody listens to: an error of the request is not a
    rejection of the promise, it is an uncaught exception. *)
Definition getPingFedPromise (service : endpoint) (tok : jsstring) : completion jsstring :=
  let client_id := lit "graphql_client" in
  let data := lit "token=" ++ tok ++ lit "&client_id=" ++ client_id in
  match service data with
  | request_error e => Uncaught e
  | response events => response_listeners [] events
  end.

(** [username.substring(0, username.indexOf('@'))]: both methods exist on
    strings only; on any other value the read of a property of undefined or
    the call of a non-function throws a TypeError. *)
Definition before_at (username : value) : completion value :=
  match username with
  | VString u => Normal (VString (substring u 0 (indexOf u 64)))
  | _ => Throw TypeError
  end.

(** [tokToSubjectIntrospection] *)
Definition tokToSubjectIntrospection (service : endpoint) (tok : jsstring)
    : completion value :=
  try_catch
    (response_body <- getPingFedPromise service tok ;;
     introspection_response <- JSON.parse response_body ;;
     active <- Get introspection_response (lit "active") ;;
     if negb (ToBoolean active) then
       Normal (VString (lit "not authenticated"))
     else
       active' <- Get introspection_response (lit "active") ;;
       if ToBoolean active' then
         username <- Get introspection_response (lit "Username") ;;
         before_at username
       else
         Normal (VString (lit "Introspection failed")))
    (fun error => Normal (VString (lit "Introspection failed"))).

(** SELECT TOKEN MODE HERE: the source keeps both alternatives and comments
    one of them out. *)
Inductive token_mode : Type :=
| Alternative1      (* token introspection *)
| Alternative2.     (* fake tokens *)

(** [tokToSubject] *)
Definition tokToSubject (mode : token_mode) (service : endpoint) (tok : jsstring)
    : completion value :=
  match mode with
  | Alternative1 => tokToSubjectIntrospection service tok
  | Alternative2 => tokToSubjectFakeToks tok
  end.

(** [contextToSubject] *)
Definition contextToSubject (mode : token_mode) (service : endpoint) (context : Context)
    : completion Context :=
  let req := ctx_request context in
  let token := authorization_or_empty req in
  if (7 <? List.length token)%nat then
    let bearertok := substring_from token 7 in
    s <- tokToSubject mode service bearertok ;;
    Normal (set_subject context s)
  else
    Normal (set_subject context (VString (lit "no subject present"))).

(** The loop of [resolvers.Query.accounts], over the collection it scans
    (the resolver scans [data.accounts]) and from the output built so far. *)
Fixpoint accounts_loop (accounts : list Account.t) (subject : value)
    (output : list Account.t) : completion (list Account.t) :=
  match accounts with
  | [] => Normal output
  | a :: later =>
      c <- localeCompare (Account.owner a) subject ;;
      accounts_loop later subject (if (c =? 0)%Z then output ++ [a] else output)
  end.

(** The loop of [resolvers.Query.transfers], over the collection it scans
    (the resolver scans [data.transfers]) and from the output built so far. *)
Fixpoint transfers_loop (transfers : list Transfer.t) (subject : value)
    (output2 : list Transfer.t) : completion (list Transfer.t) :=
  match transfers with
  | [] => Normal output2
  | t :: later =>
      c <- localeCompare (Account.owner (Transfer.creditor t)) subject ;;
      transfers_loop later subject (if (c =? 0)%Z then output2 ++ [t] else output2)
  end.

(** [resolvers.Query.accounts]; the context is returned with the output
    since the resolver assigns its subject.  The second step is the
    concatenation ["returning accounts for user " + context.subject] of the
    log line, which converts the subject to a string. *)
Definition accounts (mode : token_mode) (service : endpoint) (context : Context)
    : completion (Context * list Account.t) :=
  context <- contextToSubject mode service context ;;
  _ <- ToString (subject context) ;;
  output <- accounts_loop data.accounts (subject context) [] ;;
  Normal (context, output).

(** [resolvers.Query.transfers] *)
Definition transfers (mode : token_mode) (service : endpoint) (context : Context)
    : completion (Context * list Transfer.t) :=
  context <- contextToSubject mode service context ;;
  _ <- ToString (subject context) ;;
  output2 <- transfers_loop data.transfers (subject context) [] ;;
  Normal (context, output2).

(** The [context] hook of the server: the request, no subject yet. *)
Definition server_context (req : request) : Context :=
  mkContext req VUndefined.

End Async.

(* ===================================================================== *)
(** ** index.js, synchronous variant: the subject is resolved once, when
       the context is built *)
(* ===================================================================== *)

Module Sync.

Record Context : Type := mkContext {
  subject : value
}.

(** [tokToSubject] *)
Definition tokToSubject (tok : jsstring) : completion value :=
  let decoded := Buffer.toString (Buffer.from_base64 tok) in
  ojedTok <- JSON.parse decoded ;;
  Get ojedTok (lit "subject").

(** [reqToSubject] *)
Definition reqToSubject (req : request) : completion value :=
  let token := authorization_or_empty req in
  if (7 <? List.length token)%nat then
    let bearertok := substring_from token 7 in
    tokToSubject bearertok
  else
    Normal (VString (lit "anonymous")).

(** The [context] hook of the server. *)
Definition server_context (req : request) : completion Context :=
  s <- reqToSubject req ;;
  Normal (mkContext s).

(** A number used as a condition: zero is the only falsy result of
    [localeCompare]. *)
Definition truthy (z : Z) : bool := negb (z =? 0)%Z.

(** The loop of [resolvers.Query.accounts]: the result of localeCompare is
    the condition. *)
Fixpoint accounts_loop (accounts : list Account.t) (subject : value)
    (output : list Account.t) : completion (list Account.t) :=
  match accounts with
  | [] => Normal output
  | a :: later =>
      c <- localeCompare (Account.owner a) subject ;;
      accounts_loop later subject (if truthy c then output ++ [a] else output)
  end.

(** The loop of [resolvers.Query.transfers]. *)
Fixpoint transfers_loop (transfers : list Transfer.t) (subject : value)
    (output2 : list Transfer.t) : completion (list Transfer.t) :=
  match transfers with
  | [] => Normal output2
  | t :: later =>
      c <- localeCompare (Account.owner (Transfer.creditor t)) subject ;;
      transfers_loop later subject (if truthy c then output2 ++ [t] else output2)
  end.

(** [resolvers.Query.accounts]; the first step is the concatenation of the
    log line. *)
Definition accounts (context : Context) : completion (list Account.t) :=
  _ <- ToString (subject context) ;;
  accounts_loop data.accounts (subject context) [].

(** [resolvers.Query.transfers] *)
Definition transfers (context : Context) : completion (list Transfer.t) :=
  _ <- ToString (subject context) ;;
  transfers_loop data.transfers (subject context) [].

End Sync.

(* ===================================================================== *)
(** ** Vocabulary of the statements below *)
(* ===================================================================== *)

(** A transfer with another account in its debitor leg. *)
Definition with_debitor (d : Account.t) (t : Transfer.t) : Transfer.t :=
  Transfer.make (Transfer.date t) (Transfer.amount t) (Transfer.currency t)
    (Transfer.creditor t) d.

(** The owner test of the asynchronous loops, and that of the synchronous
    ones, on a subject already converted to a string. *)
Definition owned_by (That : jsstring) (owner : jsstring) : bool :=
  if jsstring_eq_dec owner That then true else false.

Definition not_owned_by (That : jsstring) (owner : jsstring) : bool :=
  negb (owned_by That owner).

(** The subject values that stand for an absent or failed identity. *)
Definition sentinels : list jsstring :=
  [lit "no subject present"; lit "anonymous"; lit "not authenticated";
   lit "Fake token failure"; lit "Introspection failed"].

(** A token service whose response never ends. *)
Definition silent : Async.endpoint := fun _ => Async.response [].

(** The first fake token listed in data.js. *)
Definition fake_token_469863216813 : jsstring :=
  lit "eyJzdWJqZWN0IjoiNDY5ODYzMjE2ODEzIiwic2NvcGVzIjoibmFtZXMifQ==".

(** A JSON string literal without escapes: the characters between two
    quotation marks. *)
Definition quoted (s : jsstring) : jsstring := 34%N :: s ++ [34%N].

(** The base64 text of the object with the single member a, equal to 1. *)
Definition fake_token_without_subject : jsstring := lit "eyJhIjoxfQ==".

(** A token service that answers every request with one body, sent as a
    single fragment; the bodies used below are ASCII, so their bytes are
    their code units. *)
Definition answering (body : jsstring) : Async.endpoint :=
  fun _ => Async.response [Async.on_data body; Async.on_end].

(** A token service whose response breaks with an error. *)
Definition failing (reason : jsstring) : Async.endpoint :=
  fun _ => Async.response [Async.on_error (HttpError reason)].

(** A token service that cannot be reached: the request itself fails. *)
Definition unreachable (reason : jsstring) : Async.endpoint :=
  fun _ => Async.request_error (HttpError reason).

(** The answer of the introspection endpoint for the owner of the first
    token of data.js. *)
Definition response_active_owner : jsstring :=
  lit "{" ++ quoted (lit "active") ++ lit ": true, "
    ++ quoted (lit "Username") ++ lit ": " ++ quoted (lit "469863216813@example.com")
    ++ lit "}".

(** The two answers of the introspection endpoint, and an answer whose
    active member is the number 1. *)
Definition response_inactive : jsstring :=
  lit "{" ++ quoted (lit "active") ++ lit ": false}".

Definition response_active_abc : jsstring :=
  lit "{" ++ quoted (lit "active") ++ lit ": true, "
    ++ quoted (lit "Username") ++ lit ": " ++ quoted (lit "abc@example.com") ++ lit "}".

Definition response_active_number : jsstring :=
  lit "{" ++ quoted (lit "active") ++ lit ": 1}".

(** *** Making a fake token *)

(** Modelled from the spec: the repository holds no encoder.  data.js and
    the specification describe a fake token as the base64 text of the JSON
    object whose subject member is the subject; the definitions of this
    part are that construction: the JSON text, its UTF-8 bytes, their base64
    text with padding (RFC 4648, standard alphabet).  This one is the
    character of a sextet. *)
Definition base64_char (v : N) : N :=
  if (v <? 26)%N then (v + 65)%N
  else if (v <? 52)%N then (v + 71)%N
  else if (v <? 62)%N then (v - 4)%N
  else if (v =? 62)%N then 43%N
  else 47%N.

(** Modelled from the spec: three bytes make four sextets; one or two
    trailing bytes make two or three, the last one filled with zero bits. *)
Fixpoint sextets_of_bytes (bs : Buffer.buffer) : list N :=
  match bs with
  | b0 :: b1 :: b2 :: rest =>
      (b0 / 4)%N :: ((b0 mod 4) * 16 + b1 / 16)%N :: ((b1 mod 16) * 4 + b2 / 64)%N
        :: (b2 mod 64)%N :: sextets_of_bytes rest
  | [b0; b1] => [(b0 / 4)%N; ((b0 mod 4) * 16 + b1 / 16)%N; ((b1 mod 16) * 4)%N]
  | [b0] => [(b0 / 4)%N; ((b0 mod 4) * 16)%N]
  | [] => []
  end.

Definition base64_padding (n : nat) : jsstring :=
  match Nat.modulo n 3 with
  | 1%nat => [61%N; 61%N]
  | 2%nat => [61%N]
  | _ => []
  end.

(** Modelled from the spec: the base64 text of a buffer. *)
Definition base64_encode (bs : Buffer.buffer) : jsstring :=
  List.map base64_char (sextets_of_bytes bs) ++ base64_padding (List.length bs).

Definition is_high_surrogate (c : N) : bool := ((55296 <=? c) && (c <=? 56319))%N.
Definition is_low_surrogate (c : N) : bool := ((56320 <=? c) && (c <=? 57343))%N.

Definition utf8_of_code_point (cp : N) : Buffer.buffer :=
  if (cp <? 128)%N then [cp]
  else if (cp <? 2048)%N then [(192 + cp / 64)%N; (128 + cp mod 64)%N]
  else if (cp <? 65536)%N then
    [(224 + cp / 4096)%N; (128 + (cp / 64) mod 64)%N; (128 + cp mod 64)%N]
  else
    [(240 + cp / 262144)%N; (128 + (cp / 4096) mod 64)%N;
     (128 + (cp / 64) mod 64)%N; (128 + cp mod 64)%N].

(** Modelled from the spec: the UTF-8 bytes of a string; a surrogate without
    its partner is written as U+FFFD. *)
Fixpoint utf8_encode (s : jsstring) : Buffer.buffer :=
  match s with
  | [] => []
  | c :: rest =>
      if is_high_surrogate c then
        match rest with
        | d :: rest' =>
            if is_low_surrogate d then
              utf8_of_code_point (65536 + (c - 55296) * 1024 + (d - 56320))%N
                ++ utf8_encode rest'
            else [239%N; 191%N; 189%N] ++ utf8_encode rest
        | [] => [239%N; 191%N; 189%N]
        end
      else if is_low_surrogate c then [239%N; 191%N; 189%N] ++ utf8_encode rest
      else utf8_of_code_point c ++ utf8_encode rest
  end.

(** Modelled from the spec: the JSON text of the object with the one member
    subject. *)
Definition subject_object_text (X : jsstring) : jsstring :=
  lit "{" ++ quoted (lit "subject") ++ lit ":" ++ quoted X ++ lit "}".

(** Modelled from the spec: the fake token of a subject. *)
Definition fake_token (X : jsstring) : jsstring :=
  base64_encode (utf8_encode (subject_object_text X)).

(** The characters a subject may hold for its text between quotation marks
    to be a JSON string literal that denotes it: a UTF-16 code unit that is
    no control character, quotation mark or backslash. *)
Definition literal_char (c : N) : Prop :=
  (32 <= c)%N /\ (c < 65536)%N /\ c <> 34%N /\ c <> 92%N.

(** No surrogate without its partner. *)
Fixpoint well_formed (s : jsstring) : bool :=
  match s with
  | [] => true
  | c :: rest =>
      if is_high_surrogate c then
        match rest with
        | d :: rest' => is_low_surrogate d && well_formed rest'
        | [] => false
        end
      else negb (is_low_surrogate c) && well_formed rest
  end.

(** Every element of a list lies below a bound: bytes below 256, code
    units below 65536. *)
Definition below (bound : N) (l : list N) : Prop :=
  Forall (fun x => (x < bound)%N) l.

(** Unicode scalar values: the code points that are no surrogates. *)
Definition scalar (cp : N) : Prop :=
  (cp < 55296)%N \/ (57344 <= cp)%N /\ (cp < 1114112)%N.

(** *** The request of the introspection call *)

(** [getPingFedPromise]: the string [data] that is handed to [req.write]. *)
Definition introspection_body (tok : jsstring) : jsstring :=
  lit "token=" ++ tok ++ lit "&client_id=" ++ lit "graphql_client".

(** [getPingFedPromise]: the value of the Content-Length header,
    [data.length], a number of code units. *)
Definition content_length (tok : jsstring) : nat :=
  List.length (introspection_body tok).

(** [getPingFedPromise]: what [req.write(data)] puts on the wire, the UTF-8
    bytes of the string (the default encoding of a written string). *)
Definition written_bytes (tok : jsstring) : Buffer.buffer :=
  utf8_encode (introspection_body tok).

(** The code units of a string that are not ASCII. *)
Definition beyond_ascii (s : jsstring) : list N :=
  filter (fun c => (128 <=? c)%N) s.

(** *** Where the embedding of the runtime is exact *)

(** An ASCII digit or letter. *)
Definition is_alphanumeric (c : N) : bool :=
  (((48 <=? c) && (c <=? 57)) || ((65 <=? c) && (c <=? 90))
   || ((97 <=? c) && (c <=? 122)))%N.

(** A string of ASCII digits and letters: localeCompare finds two such
    strings equal only when they are the same string. *)
Definition alphanumeric (s : jsstring) : bool := forallb is_alphanumeric s.

(** A value whose numbers come through the rounding to a double as they are
    written: at most 15 significant digits, decimal exponent between -300
    and 300.  On such a value ToString and ToBoolean of the embedding are
    those of the runtime. *)
Fixpoint exact (v : value) : bool :=
  match v with
  | VNumber n =>
      (List.length (digits n) <=? 15)%nat && (-300 <=? point n)%Z && (point n <=? 300)%Z
  | VArray elems => forallb exact elems
  | VObject props => forallb (fun p => match p with (_, w) => exact w end) props
  | _ => true
  end.

(** The owners of a store of accounts, and those of the creditor legs of a
    store of transfers, are strings of digits and letters. *)
Definition alphanumeric_owners (accounts : list Account.t) : Prop :=
  Forall (fun a => alphanumeric (Account.owner a) = true) accounts.

Definition alphanumeric_creditors (transfers : list Transfer.t) : Prop :=
  Forall (fun t => alphanumeric (Account.owner (Transfer.creditor t)) = true) transfers.

(** The base64 text of the JSON text null, and that of the JSON text 12. *)
Definition fake_token_null : jsstring := lit "bnVsbA==".
Definition fake_token_number : jsstring := lit "MTI=".

(** The number 469863216813, as JSON.parse reads it. *)
Definition number_469863216813 : number :=
  mkNumber false [4; 6; 9; 8; 6; 3; 2; 1; 6; 8; 1; 3]%N 12.

(* ===================================================================== *)
(** * Properties *)
(* ===================================================================== *)

(** Linear arithmetic with division and remainder by constants. *)
Ltac Zify.zify_post_hook ::= Z.to_euclidean_division_equations.

(** Settles a comparison of the goal from the hypotheses. *)
Ltac decide_test :=
  match goal with
  | |- context [(?a <=? ?b)%N] =>
      first [ rewrite (proj2 (N.leb_le a b)) by lia
            | rewrite (proj2 (N.leb_gt a b)) by lia ]
  | |- context [(?a <? ?b)%N] =>
      first [ rewrite (proj2 (N.ltb_lt a b)) by lia
            | rewrite (proj2 (N.ltb_ge a b)) by lia ]
  | |- context [(?a =? ?b)%N] =>
      first [ rewrite (proj2 (N.eqb_eq a b)) by lia
            | rewrite (proj2 (N.eqb_neq a b)) by lia ]
  end.

(** ** Strings and loops *)

(** The lemmas of this part compute the loops with the comparison of the
    embedding, code unit by code unit.  The theorems that rest on them say
    for which subjects and owners this is the comparison of the runtime. *)

Lemma compare_units_zero (a b : jsstring) : compare_units a b = 0%Z <-> a = b.
Proof.
  revert b; induction a as [|x a IH]; intros [|y b]; simpl;
    try (split; [discriminate | discriminate]); try tauto.
  destruct (N.compare_spec x y) as [E|L|G].
  - subst y. rewrite IH. split; [intros ->; reflexivity | intros H; injection H; auto].
  - split; [discriminate | intros H; injection H; intros _ Hxy; lia].
  - split; [discriminate | intros H; injection H; intros _ Hxy; lia].
Qed.

Lemma join_with_comes_back (elem : value -> completion jsstring) (l : list value) :
  Forall (fun e => comes_back (elem e)) l -> comes_back (join_with elem l).
Proof.
  induction 1 as [|e rest He _ IH]; [exact I|].
  cbn [join_with]. destruct rest as [|e' rest']; [exact He|].
  destruct (elem e); try exact He; try exact I.
  cbn [bind]. destruct (join_with elem (e' :: rest')); try exact IH; exact I.
Qed.

(** ToString comes back: it returns a string or throws. *)
Lemma ToString_comes_back (v : value) : comes_back (ToString v).
Proof.
  revert v. fix IH 1. intros [| |[|]|n|s|elems|props]; try exact I.
  - cbn [ToString]. apply join_with_comes_back.
    induction elems as [|e rest IHl]; constructor; [|exact IHl].
    pose proof (IH e) as He. destruct e; try exact I; exact He.
  - cbn [ToString]. destruct (lookup (lit "toString") props); exact I.
Qed.

Lemma localeCompare_string (a That : jsstring) (that : value) :
  ToString that = Normal That ->
  localeCompare a that = Normal (compare_units a That).
Proof. unfold localeCompare. now intros ->. Qed.

Lemma compare_units_test (a b : jsstring) :
  (compare_units a b =? 0)%Z = if jsstring_eq_dec a b then true else false.
Proof.
  destruct (jsstring_eq_dec a b) as [E|E].
  - apply Z.eqb_eq, compare_units_zero, E.
  - apply Z.eqb_neq. intros H. apply E, compare_units_zero, H.
Qed.

Lemma accounts_loop_filter (store : list Account.t) (s : value) (That : jsstring)
    (output : list Account.t) :
  ToString s = Normal That ->
  Async.accounts_loop store s output
  = Normal (output ++ filter (fun a => owned_by That (Account.owner a)) store).
Proof.
  intros HT. revert output; induction store as [|a store IH]; intros output;
    cbn [Async.accounts_loop filter].
  - now rewrite app_nil_r.
  - rewrite (localeCompare_string _ _ _ HT). cbn [bind].
    rewrite IH, compare_units_test. unfold owned_by.
    destruct (jsstring_eq_dec (Account.owner a) That); [now rewrite <- app_assoc | reflexivity].
Qed.

Lemma transfers_loop_filter (store : list Transfer.t) (s : value) (That : jsstring)
    (output2 : list Transfer.t) :
  ToString s = Normal That ->
  Async.transfers_loop store s output2
  = Normal (output2
            ++ filter (fun t => owned_by That (Account.owner (Transfer.creditor t))) store).
Proof.
  intros HT. revert output2; induction store as [|t store IH]; intros output2;
    cbn [Async.transfers_loop filter].
  - now rewrite app_nil_r.
  - rewrite (localeCompare_string _ _ _ HT). cbn [bind].
    rewrite IH, compare_units_test. unfold owned_by.
    destruct (jsstring_eq_dec (Account.owner (Transfer.creditor t)) That);
      [now rewrite <- app_assoc | reflexivity].
Qed.

Lemma sync_accounts_loop_filter (store : list Account.t) (s : value) (That : jsstring)
    (output : list Account.t) :
  ToString s = Normal That ->
  Sync.accounts_loop store s output
  = Normal (output ++ filter (fun a => not_owned_by That (Account.owner a)) store).
Proof.
  intros HT. revert output; induction store as [|a store IH]; intros output;
    cbn [Sync.accounts_loop filter].
  - now rewrite app_nil_r.
  - rewrite (localeCompare_string _ _ _ HT). cbn [bind].
    rewrite IH. unfold Sync.truthy, not_owned_by. rewrite compare_units_test. unfold owned_by.
    destruct (jsstring_eq_dec (Account.owner a) That); cbn [negb];
      [reflexivity | now rewrite <- app_assoc].
Qed.

Lemma sync_transfers_loop_filter (store : list Transfer.t) (s : value) (That : jsstring)
    (output2 : list Transfer.t) :
  ToString s = Normal That ->
  Sync.transfers_loop store s output2
  = Normal (output2
            ++ filter (fun t => not_owned_by That (Account.owner (Transfer.creditor t))) store).
Proof.
  intros HT. revert output2; induction store as [|t store IH]; intros output2;
    cbn [Sync.transfers_loop filter].
  - now rewrite app_nil_r.
  - rewrite (localeCompare_string _ _ _ HT). cbn [bind].
    rewrite IH. unfold Sync.truthy, not_owned_by. rewrite compare_units_test. unfold owned_by.
    destruct (jsstring_eq_dec (Account.owner (Transfer.creditor t)) That); cbn [negb];
      [reflexivity | now rewrite <- app_assoc].
Qed.

Lemma owned_by_true (That owner : jsstring) : owned_by That owner = true <-> owner = That.
Proof. unfold owned_by. destruct (jsstring_eq_dec owner That); split; congruence. Qed.

Lemma not_owned_by_true (That owner : jsstring) :
  not_owned_by That owner = true <-> owner <> That.
Proof.
  unfold not_owned_by, owned_by.
  destruct (jsstring_eq_dec owner That); cbn [negb]; split; congruence.
Qed.

(** ** Exact-match filtering of accounts *)

(** In the asynchronous variant the accounts resolver, when it returns for
    a subject whose conversion to a string is exact and gives a string of
    ASCII digits and letters, returns in store order exactly the accounts
    whose owner is that string: a record is in the output if and only if it
    is in the store and its owner equals the subject, code unit for code
    unit. *)
Theorem accounts_exact_match (mode : Async.token_mode) (service : Async.endpoint)
    (ctx ctx' : Async.Context) (output : list Account.t) (That : jsstring) :
  Async.accounts mode service ctx = Normal (ctx', output) ->
  exact (Async.subject ctx') = true ->
  ToString (Async.subject ctx') = Normal That ->
  alphanumeric That = true ->
  Async.contextToSubject mode service ctx = Normal ctx'
  /\ output = filter (fun a => owned_by That (Account.owner a)) data.accounts
  /\ forall r, In r output <-> In r data.accounts /\ Account.owner r = That.
Proof.
  unfold Async.accounts. intros H _ HThat _. revert H.
  destruct (Async.contextToSubject mode service ctx) as [c| | |]; cbn [bind]; try discriminate.
  destruct (ToString (Async.subject c)) as [That0| | |] eqn:HT; cbn [bind]; try discriminate.
  rewrite (accounts_loop_filter _ _ _ _ HT).
  set (selected := filter _ data.accounts). cbn [bind app].
  intros H. assert (Hc : c = ctx') by congruence.
  assert (Ho : selected = output) by congruence.
  subst ctx' output selected.
  assert (E : That0 = That) by congruence. subst That0.
  split; [reflexivity|]. split; [reflexivity|].
  intros r. rewrite filter_In, owned_by_true. reflexivity.
Qed.

Lemma accounts_exact_match_witness :
  Async.contextToSubject Async.Alternative2 silent
    (Async.server_context (mkRequest (Some (lit "Bearer " ++ fake_token_469863216813))))
  = Normal (Async.mkContext (mkRequest (Some (lit "Bearer " ++ fake_token_469863216813)))
              (VString (lit "469863216813")))
  /\ [data.checking_577; data.savings_582; data.card_631]
     = filter (fun a => owned_by (lit "469863216813") (Account.owner a)) data.accounts
  /\ forall r,
       In r [data.checking_577; data.savings_582; data.card_631]
       <-> In r data.accounts /\ Account.owner r = lit "469863216813".
Proof.
  apply (accounts_exact_match Async.Alternative2 silent
           (Async.server_context (mkRequest (Some (lit "Bearer " ++ fake_token_469863216813))))
           (Async.mkContext (mkRequest (Some (lit "Bearer " ++ fake_token_469863216813)))
              (VString (lit "469863216813")))
           [data.checking_577; data.savings_582; data.card_631]
           (lit "469863216813"));
    vm_compute; reflexivity.
Defined.

(** For a subject that is a string of ASCII digits and letters, over a
    store with such owners, the test is equality with that string; a proper
    prefix, or a string it is a proper prefix of, matches nothing. *)
Lemma accounts_loop_string (store : list Account.t) (s : jsstring) :
  alphanumeric s = true ->
  alphanumeric_owners store ->
  exists output,
    Async.accounts_loop store (VString s) [] = Normal output
    /\ forall r, In r output <-> In r store /\ Account.owner r = s.
Proof.
  intros _ _. exists (filter (fun a => owned_by s (Account.owner a)) store).
  split; [apply (accounts_loop_filter store (VString s) s [] eq_refl)|].
  intros r. rewrite filter_In, owned_by_true. reflexivity.
Qed.

Example accounts_prefix_no_match :
  Async.accounts_loop data.accounts (VString (lit "46986321681")) [] = Normal []
  /\ Async.accounts_loop data.accounts (VString (lit "4698632168130")) [] = Normal [].
Proof. split; vm_compute; reflexivity. Qed.

(** A subject that is an object with a toString member cannot be converted:
    the resolvers throw on it (here the token is the base64 text of the
    object whose subject member is such an object). *)
Example accounts_unconvertible_subject :
  Async.accounts Async.Alternative2 silent
    (Async.server_context
       (mkRequest (Some (lit "Bearer eyJzdWJqZWN0Ijp7InRvU3RyaW5nIjoxfX0="))))
  = Throw TypeError.
Proof. vm_compute. reflexivity. Qed.

(** C1: in the synchronous variant the test of the accounts loop is the
    result of localeCompare itself, which is truthy when the strings differ:
    for subject 469863216813 the resolver returns the three accounts of the
    other owner and none of the subject's own. *)
Theorem sync_accounts_returns_others :
  Sync.server_context (mkRequest (Some (lit "Bearer " ++ fake_token_469863216813)))
  = Normal (Sync.mkContext (VString (lit "469863216813")))
  /\ Sync.accounts (Sync.mkContext (VString (lit "469863216813")))
     = Normal [data.checking_325; data.savings_331; data.card_340]
  /\ forall a, In a [data.checking_325; data.savings_331; data.card_340] ->
               Account.owner a = lit "467745863242".
Proof.
  split; [vm_compute; reflexivity|]. split; [vm_compute; reflexivity|].
  intros a [<- | [<- | [<- | []]]]; reflexivity.
Qed.

(** The synchronous accounts resolver in general, for a subject whose
    conversion is exact and gives a string of ASCII digits and letters: it
    keeps the records whose owner differs from the subject. *)
Lemma sync_accounts_In (c : Sync.Context) (output : list Account.t) (That : jsstring) :
  Sync.accounts c = Normal output ->
  exact (Sync.subject c) = true ->
  ToString (Sync.subject c) = Normal That ->
  alphanumeric That = true ->
  forall r, In r output <-> In r data.accounts /\ Account.owner r <> That.
Proof.
  unfold Sync.accounts. intros H _ HT _. revert H. rewrite HT. cbn [bind].
  rewrite (sync_accounts_loop_filter _ _ _ _ HT).
  set (selected := filter _ data.accounts). cbn [app].
  intros H. assert (Ho : selected = output) by congruence.
  subst output selected.
  intros r. rewrite filter_In, not_owned_by_true. reflexivity.
Qed.

(** Without Authorization header the synchronous variant resolves the
    sentinel "anonymous", which no record is owned by: its resolvers return
    the whole store. *)
Example sync_no_header_sees_everything :
  Sync.server_context (mkRequest None)
  = Normal (Sync.mkContext (VString (lit "anonymous")))
  /\ Sync.accounts (Sync.mkContext (VString (lit "anonymous"))) = Normal data.accounts
  /\ Sync.transfers (Sync.mkContext (VString (lit "anonymous"))) = Normal data.transfers.
Proof. repeat split; vm_compute; reflexivity. Qed.

(** ** Creditor-side filtering of transfers *)

(** In the asynchronous variant the transfers resolver, when it returns for
    a subject whose conversion to a string is exact and gives a string of
    ASCII digits and letters, returns exactly the transfers whose creditor
    leg is owned by that string. *)
Theorem transfers_creditor_match (mode : Async.token_mode) (service : Async.endpoint)
    (ctx ctx' : Async.Context) (output : list Transfer.t) (That : jsstring) :
  Async.transfers mode service ctx = Normal (ctx', output) ->
  exact (Async.subject ctx') = true ->
  ToString (Async.subject ctx') = Normal That ->
  alphanumeric That = true ->
  Async.contextToSubject mode service ctx = Normal ctx'
  /\ output
     = filter (fun t => owned_by That (Account.owner (Transfer.creditor t)))
         data.transfers
  /\ forall t, In t output
               <-> In t data.transfers
                   /\ Account.owner (Transfer.creditor t) = That.
Proof.
  unfold Async.transfers. intros H _ HThat _. revert H.
  destruct (Async.contextToSubject mode service ctx) as [c| | |]; cbn [bind]; try discriminate.
  destruct (ToString (Async.subject c)) as [That0| | |] eqn:HT; cbn [bind]; try discriminate.
  rewrite (transfers_loop_filter _ _ _ _ HT).
  set (selected := filter _ data.transfers). cbn [bind app].
  intros H. assert (Hc : c = ctx') by congruence.
  assert (Ho : selected = output) by congruence.
  subst ctx' output selected.
  assert (E : That0 = That) by congruence. subst That0.
  split; [reflexivity|]. split; [reflexivity|].
  intros t. rewrite filter_In, owned_by_true. reflexivity.
Qed.

Lemma transfers_creditor_match_witness :
  Async.contextToSubject Async.Alternative2 silent
    (Async.server_context (mkRequest (Some (lit "Bearer " ++ fake_token_469863216813))))
  = Normal (Async.mkContext (mkRequest (Some (lit "Bearer " ++ fake_token_469863216813)))
              (VString (lit "469863216813")))
  /\ [data.transfer_feb21]
     = filter (fun t => owned_by (lit "469863216813") (Account.owner (Transfer.creditor t)))
         data.transfers
  /\ forall t,
       In t [data.transfer_feb21]
       <-> In t data.transfers
           /\ Account.owner (Transfer.creditor t) = lit "469863216813".
Proof.
  apply (transfers_creditor_match Async.Alternative2 silent
           (Async.server_context (mkRequest (Some (lit "Bearer " ++ fake_token_469863216813))))
           (Async.mkContext (mkRequest (Some (lit "Bearer " ++ fake_token_469863216813)))
              (VString (lit "469863216813")))
           [data.transfer_feb21]
           (lit "469863216813"));
    vm_compute; reflexivity.
Defined.

(** The debitor leg is never read: putting any other account in the debitor
    leg of every transfer of a store changes the selection in no other way
    than by these legs. *)
Lemma transfers_loop_ignores_debitor (store : list Transfer.t) (s : value)
    (d : Transfer.t -> Account.t) (output2 : list Transfer.t) :
  Async.transfers_loop (List.map (fun t => with_debitor (d t) t) store) s
    (List.map (fun t => with_debitor (d t) t) output2)
  = (selected <- Async.transfers_loop store s output2 ;;
     Normal (List.map (fun t => with_debitor (d t) t) selected)).
Proof.
  revert output2; induction store as [|t store IH]; intros output2;
    cbn [Async.transfers_loop List.map]; [reflexivity|].
  cbn [with_debitor Transfer.creditor].
  destruct (localeCompare (Account.owner (Transfer.creditor t)) s) as [c| | |];
    cbn [bind]; try reflexivity.
  rewrite <- IH. destruct (c =? 0)%Z; [|reflexivity].
  now rewrite map_app.
Qed.

(** C2: in the synchronous variant the test of the transfers loop is
    inverted like that of the accounts loop: for subject 469863216813 the
    resolver returns the transfer whose creditor leg belongs to the other
    owner. *)
Theorem sync_transfers_returns_others :
  Sync.server_context (mkRequest (Some (lit "Bearer " ++ fake_token_469863216813)))
  = Normal (Sync.mkContext (VString (lit "469863216813")))
  /\ Sync.transfers (Sync.mkContext (VString (lit "469863216813")))
     = Normal [data.transfer_feb20]
  /\ Account.owner (Transfer.creditor data.transfer_feb20) = lit "467745863242"
  /\ Account.owner (Transfer.creditor data.transfer_feb21) = lit "469863216813".
Proof. repeat split; vm_compute; reflexivity. Qed.

Lemma sync_transfers_In (c : Sync.Context) (output : list Transfer.t) (That : jsstring) :
  Sync.transfers c = Normal output ->
  exact (Sync.subject c) = true ->
  ToString (Sync.subject c) = Normal That ->
  alphanumeric That = true ->
  forall t, In t output
            <-> In t data.transfers
                /\ Account.owner (Transfer.creditor t) <> That.
Proof.
  unfold Sync.transfers. intros H _ HT _. revert H. rewrite HT. cbn [bind].
  rewrite (sync_transfers_loop_filter _ _ _ _ HT).
  set (selected := filter _ data.transfers). cbn [app].
  intros H. assert (Ho : selected = output) by congruence.
  subst output selected.
  intros t. rewrite filter_In, not_owned_by_true. reflexivity.
Qed.

(** ** The Authorization header *)

Lemma substring_from_skipn (s : jsstring) (n : nat) :
  substring_from s (Z.of_nat n) = skipn n s.
Proof.
  unfold substring_from, substring, clamp. rewrite !Nat2Z.id.
  rewrite Nat.min_id.
  destruct (Nat.le_gt_cases n (List.length s)) as [Hle|Hgt].
  - rewrite (Nat.min_l n) by exact Hle.
    rewrite Nat.min_l, Nat.max_r by exact Hle.
    apply firstn_all2. rewrite length_skipn. lia.
  - rewrite (Nat.min_r n) by lia.
    rewrite Nat.min_id, Nat.max_id, Nat.sub_diag. simpl.
    symmetry. apply skipn_all2. lia.
Qed.

Lemma authorization_absent_or_empty (req : request) :
  authorization req = None \/ authorization req = Some [] ->
  authorization_or_empty req = [].
Proof. unfold authorization_or_empty. intros [-> | ->]; reflexivity. Qed.

Lemma authorization_present (req : request) (h : jsstring) :
  authorization req = Some h -> authorization_or_empty req = h.
Proof. unfold authorization_or_empty. intros ->. destruct h; reflexivity. Qed.

Lemma contextToSubject_long (mode : Async.token_mode) (service : Async.endpoint)
    (ctx : Async.Context) :
  (7 < List.length (authorization_or_empty (Async.ctx_request ctx)))%nat ->
  Async.contextToSubject mode service ctx
  = (s <- Async.tokToSubject mode service
            (skipn 7 (authorization_or_empty (Async.ctx_request ctx))) ;;
     Normal (Async.set_subject ctx s)).
Proof.
  intros H. unfold Async.contextToSubject.
  change 7%Z with (Z.of_nat 7). rewrite substring_from_skipn.
  apply Nat.ltb_lt in H. now rewrite H.
Qed.

(** A request whose header is the 7 characters of the prefix followed by a
    non-empty token has that token resolved. *)
Lemma contextToSubject_bearer (mode : Async.token_mode) (service : Async.endpoint)
    (tok : jsstring) :
  tok <> [] ->
  Async.contextToSubject mode service
    (Async.server_context (mkRequest (Some (lit "Bearer " ++ tok))))
  = (s <- Async.tokToSubject mode service tok ;;
     Normal (Async.mkContext (mkRequest (Some (lit "Bearer " ++ tok))) s)).
Proof.
  intros Hne. rewrite contextToSubject_long.
  - replace (authorization_or_empty
               (Async.ctx_request
                  (Async.server_context (mkRequest (Some (lit "Bearer " ++ tok))))))
      with (lit "Bearer " ++ tok) by reflexivity.
    change 7%nat with (List.length (lit "Bearer ")) at 1.
    rewrite skipn_app, skipn_all, Nat.sub_diag. reflexivity.
  - replace (authorization_or_empty
               (Async.ctx_request
                  (Async.server_context (mkRequest (Some (lit "Bearer " ++ tok))))))
      with (lit "Bearer " ++ tok) by reflexivity.
    rewrite length_app. destruct tok; [congruence | simpl; lia].
Qed.

(** C4, as worded, fails on a header that is exactly the 7-character prefix:
    it is not shorter than the prefix, yet neither variant hands its (empty)
    remainder to token resolution; both answer with the no-credential
    sentinel, while resolving the empty remainder gives the failure sentinel
    in one variant and throws in the other. *)
Lemma bearer_prefix_alone_counterexample :
  ~ (List.length (lit "Bearer ") < 7)%nat
  /\ Async.contextToSubject Async.Alternative2 silent
       (Async.server_context (mkRequest (Some (lit "Bearer "))))
     = Normal (Async.mkContext (mkRequest (Some (lit "Bearer ")))
                 (VString (lit "no subject present")))
  /\ Async.contextToSubject Async.Alternative2 silent
       (Async.server_context (mkRequest (Some (lit "Bearer "))))
     <> (s <- Async.tokToSubject Async.Alternative2 silent
               (substring_from (lit "Bearer ") 7) ;;
         Normal (Async.mkContext (mkRequest (Some (lit "Bearer "))) s))
  /\ Sync.reqToSubject (mkRequest (Some (lit "Bearer ")))
     = Normal (VString (lit "anonymous"))
  /\ Sync.reqToSubject (mkRequest (Some (lit "Bearer ")))
     <> Sync.tokToSubject (substring_from (lit "Bearer ") 7).
Proof.
  split; [simpl; lia|].
  split; [vm_compute; reflexivity|].
  split; [vm_compute; discriminate|].
  split; [vm_compute; reflexivity|].
  vm_compute; discriminate.
Qed.

(** C4, amended: the Authorization value is taken as the empty string when
    the header is absent or empty.  When it has at most 7 characters,
    resolution answers with the no-credential sentinel ("no subject present"
    in the asynchronous variant, "anonymous" in the synchronous one)
    whatever the token mode and the token service, so without any decoding;
    when it has more than 7 characters, what follows the first 7 is handed
    to token resolution, whose outcome is the outcome of the resolution. *)
Theorem authorization_length_gate (mode : Async.token_mode) (service : Async.endpoint)
    (ctx : Async.Context) :
  (authorization (Async.ctx_request ctx) = None
   \/ authorization (Async.ctx_request ctx) = Some [] ->
   authorization_or_empty (Async.ctx_request ctx) = [])
  /\ ((List.length (authorization_or_empty (Async.ctx_request ctx)) <= 7)%nat ->
      Async.contextToSubject mode service ctx
      = Normal (Async.set_subject ctx (VString (lit "no subject present")))
      /\ Sync.reqToSubject (Async.ctx_request ctx) = Normal (VString (lit "anonymous")))
  /\ ((7 < List.length (authorization_or_empty (Async.ctx_request ctx)))%nat ->
      Async.contextToSubject mode service ctx
      = (s <- Async.tokToSubject mode service
                (skipn 7 (authorization_or_empty (Async.ctx_request ctx))) ;;
         Normal (Async.set_subject ctx s))
      /\ Sync.reqToSubject (Async.ctx_request ctx)
         = Sync.tokToSubject (skipn 7 (authorization_or_empty (Async.ctx_request ctx)))).
Proof.
  split; [apply authorization_absent_or_empty|].
  split; intros H.
  - apply Nat.ltb_ge in H. unfold Async.contextToSubject, Sync.reqToSubject.
    rewrite H. split; reflexivity.
  - split; [now apply contextToSubject_long|].
    unfold Sync.reqToSubject. change 7%Z with (Z.of_nat 7).
    rewrite substring_from_skipn. apply Nat.ltb_lt in H. now rewrite H.
Qed.

Lemma authorization_length_gate_witness :
  (Async.contextToSubject Async.Alternative1 silent (Async.server_context (mkRequest None))
   = Normal (Async.mkContext (mkRequest None) (VString (lit "no subject present")))
   /\ Sync.reqToSubject (mkRequest None) = Normal (VString (lit "anonymous")))
  /\ (Async.contextToSubject Async.Alternative2 silent
        (Async.server_context (mkRequest (Some (lit "Bearer e30="))))
      = (s <- Async.tokToSubject Async.Alternative2 silent (lit "e30=") ;;
         Normal (Async.mkContext (mkRequest (Some (lit "Bearer e30="))) s))
      /\ Sync.reqToSubject (mkRequest (Some (lit "Bearer e30=")))
         = Sync.tokToSubject (lit "e30=")).
Proof.
  split.
  - apply (authorization_length_gate Async.Alternative1 silent
             (Async.server_context (mkRequest None))).
    simpl. lia.
  - apply (authorization_length_gate Async.Alternative2 silent
             (Async.server_context (mkRequest (Some (lit "Bearer e30="))))).
    simpl. lia.
Defined.

(** ** Sentinels and the sample store *)

Lemma sentinel_cases (s : jsstring) :
  In s sentinels ->
  s = lit "no subject present" \/ s = lit "anonymous" \/ s = lit "not authenticated"
  \/ s = lit "Fake token failure" \/ s = lit "Introspection failed".
Proof.
  unfold sentinels. simpl. intuition auto.
Qed.

Lemma sentinel_owns_nothing (s : jsstring) :
  In s sentinels ->
  (forall a, In a data.accounts -> Account.owner a <> s)
  /\ (forall t, In t data.transfers ->
        Account.owner (Transfer.creditor t) <> s
        /\ Account.owner (Transfer.debitor t) <> s)
  /\ Async.accounts_loop data.accounts (VString s) [] = Normal []
  /\ Async.transfers_loop data.transfers (VString s) [] = Normal [].
Proof.
  intros Hs. apply sentinel_cases in Hs.
  destruct Hs as [-> | [-> | [-> | [-> | ->]]]];
    (split;
     [ intros a Hin; unfold data.accounts in Hin;
       repeat (destruct Hin as [<-|Hin]; [vm_compute; discriminate|]);
       destruct Hin
     | split;
       [ intros t Hin; unfold data.transfers in Hin;
         repeat (destruct Hin as [<-|Hin]; [split; vm_compute; discriminate|]);
         destruct Hin
       | split; vm_compute; reflexivity ] ]).
Qed.

(** C5: no sentinel is the owner of an account or of a leg of a transfer of
    the sample store; hence, whenever subject resolution leaves a sentinel in
    the context, the accounts and the transfers resolvers both return the
    empty list, and so they do for a request without Authorization header,
    in either token mode and whatever the token service does. *)
Theorem sentinel_sees_nothing :
  (forall s, In s sentinels ->
     (forall a, In a data.accounts -> Account.owner a <> s)
     /\ (forall t, In t data.transfers ->
           Account.owner (Transfer.creditor t) <> s
           /\ Account.owner (Transfer.debitor t) <> s))
  /\ (forall s mode service ctx ctx',
        In s sentinels ->
        Async.contextToSubject mode service ctx = Normal ctx' ->
        Async.subject ctx' = VString s ->
        Async.accounts mode service ctx = Normal (ctx', [])
        /\ Async.transfers mode service ctx = Normal (ctx', []))
  /\ (forall mode service,
        Async.accounts mode service (Async.server_context (mkRequest None))
        = Normal (Async.mkContext (mkRequest None) (VString (lit "no subject present")), [])
        /\ Async.transfers mode service (Async.server_context (mkRequest None))
           = Normal (Async.mkContext (mkRequest None) (VString (lit "no subject present")),
                     [])).
Proof.
  split; [|split].
  - intros s Hs. destruct (sentinel_owns_nothing s Hs) as (Ha & Ht & _). split; assumption.
  - intros s mode service ctx ctx' Hs Hres Hsub.
    destruct (sentinel_owns_nothing s Hs) as (_ & _ & Ha & Ht).
    unfold Async.accounts, Async.transfers. rewrite Hres. cbn [bind].
    rewrite Hsub, Ha, Ht. split; reflexivity.
  - intros mode service. split; reflexivity.
Qed.

Lemma sentinel_sees_nothing_witness :
  Async.accounts Async.Alternative2 silent
    (Async.server_context (mkRequest (Some (lit "Bearer not-a-token"))))
  = Normal (Async.mkContext (mkRequest (Some (lit "Bearer not-a-token")))
              (VString (lit "Fake token failure")), [])
  /\ Async.transfers Async.Alternative2 silent
       (Async.server_context (mkRequest (Some (lit "Bearer not-a-token"))))
     = Normal (Async.mkContext (mkRequest (Some (lit "Bearer not-a-token")))
                 (VString (lit "Fake token failure")), []).
Proof.
  destruct (proj1 (proj2 sentinel_sees_nothing) (lit "Fake token failure")
              Async.Alternative2 silent
              (Async.server_context (mkRequest (Some (lit "Bearer not-a-token"))))
              (Async.mkContext (mkRequest (Some (lit "Bearer not-a-token")))
                 (VString (lit "Fake token failure"))))
    as (Ha & Ht).
  - simpl. auto.
  - vm_compute. reflexivity.
  - reflexivity.
  - split; assumption.
Defined.

(** ** The sample scenario *)

Lemma fake_token_not_empty (tok : jsstring) (v : value) :
  Async.tokToSubjectFakeToks tok = Normal v ->
  v <> VString (lit "Fake token failure") ->
  tok <> [].
Proof.
  intros H Hv ->. vm_compute in H. injection H as <-. now apply Hv.
Qed.

(** C6: a request whose Authorization header is "Bearer " followed by a
    token that the fake-token strategy resolves to subject 469863216813 gets
    from the accounts resolver exactly the accounts 516236577, 516236582 and
    516236631, none of which is owned by 467745863242, and from the
    transfers resolver exactly the one transfer of the store whose creditor
    leg is owned by 469863216813. *)
Theorem sample_scenario (service : Async.endpoint) (tok : jsstring) :
  Async.tokToSubjectFakeToks tok = Normal (VString (lit "469863216813")) ->
  exists accs trs,
    Async.accounts Async.Alternative2 service
      (Async.server_context (mkRequest (Some (lit "Bearer " ++ tok))))
    = Normal (Async.mkContext (mkRequest (Some (lit "Bearer " ++ tok)))
                (VString (lit "469863216813")), accs)
    /\ List.map Account.id accs = [lit "516236577"; lit "516236582"; lit "516236631"]
    /\ (forall a, In a accs -> Account.owner a <> lit "467745863242")
    /\ Async.transfers Async.Alternative2 service
         (Async.server_context (mkRequest (Some (lit "Bearer " ++ tok))))
       = Normal (Async.mkContext (mkRequest (Some (lit "Bearer " ++ tok)))
                   (VString (lit "469863216813")), trs)
    /\ trs = [data.transfer_feb21]
    /\ (forall t, In t data.transfers ->
          (Account.owner (Transfer.creditor t) = lit "469863216813" <-> In t trs)).
Proof.
  intros Htok.
  assert (Hne : tok <> []) by (eapply fake_token_not_empty; [exact Htok | discriminate]).
  assert (Hres : Async.contextToSubject Async.Alternative2 service
                   (Async.server_context (mkRequest (Some (lit "Bearer " ++ tok))))
                 = Normal (Async.mkContext (mkRequest (Some (lit "Bearer " ++ tok)))
                             (VString (lit "469863216813")))).
  { rewrite contextToSubject_bearer by exact Hne.
    simpl Async.tokToSubject. rewrite Htok. reflexivity. }
  exists [data.checking_577; data.savings_582; data.card_631], [data.transfer_feb21].
  unfold Async.accounts, Async.transfers. rewrite Hres. simpl JS.bind.
  split; [reflexivity|].
  split; [reflexivity|].
  split; [intros a [<- | [<- | [<- | []]]]; vm_compute; discriminate|].
  split; [reflexivity|].
  split; [reflexivity|].
  intros t [<- | [<- | []]]; split; intros H; try (simpl; auto; fail).
  - vm_compute in H. discriminate.
  - destruct H as [H | []]. vm_compute in H. discriminate.
Qed.

Lemma sample_scenario_witness :
  exists accs trs,
    Async.accounts Async.Alternative2 silent
      (Async.server_context (mkRequest (Some (lit "Bearer " ++ fake_token_469863216813))))
    = Normal (Async.mkContext (mkRequest (Some (lit "Bearer " ++ fake_token_469863216813)))
                (VString (lit "469863216813")), accs)
    /\ List.map Account.id accs = [lit "516236577"; lit "516236582"; lit "516236631"]
    /\ (forall a, In a accs -> Account.owner a <> lit "467745863242")
    /\ Async.transfers Async.Alternative2 silent
         (Async.server_context (mkRequest (Some (lit "Bearer " ++ fake_token_469863216813))))
       = Normal (Async.mkContext (mkRequest (Some (lit "Bearer " ++ fake_token_469863216813)))
                   (VString (lit "469863216813")), trs)
    /\ trs = [data.transfer_feb21]
    /\ (forall t, In t data.transfers ->
          (Account.owner (Transfer.creditor t) = lit "469863216813" <-> In t trs)).
Proof.
  apply (sample_scenario silent fake_token_469863216813).
  vm_compute. reflexivity.
Defined.

(** ** The fake-token strategy *)

Lemma parse_comes_back (text : jsstring) : comes_back (JSON.parse text).
Proof.
  unfold JSON.parse.
  destruct (JSON.parse_value _ text) as [v rest| |]; try exact I.
  destruct (JSON.skip_ws rest); exact I.
Qed.

Lemma Get_comes_back (o : value) (key : jsstring) : comes_back (Get o key).
Proof.
  destruct o; simpl; try exact I.
  destruct (lookup key props); exact I.
Qed.

Lemma parse_list_shape (fuel : nat) :
  (forall acc s v r, JSON.parse_elements fuel acc s = JSON.Parsed v r ->
                     exists elems, v = VArray elems)
  /\ (forall acc s v r, JSON.parse_members fuel acc s = JSON.Parsed v r ->
                        exists props, v = VObject props).
Proof.
  induction fuel as [|fuel [IHe IHm]]; [split; discriminate|].
  split.
  - intros acc s v r. cbn [JSON.parse_elements].
    destruct (JSON.parse_value fuel s) as [w r0| |]; try discriminate.
    destruct (JSON.skip_ws r0) as [|c r']; [discriminate|].
    destruct (c =? 44)%N; [apply IHe|].
    destruct (c =? 93)%N; [|discriminate].
    intros H. injection H as <- _. eauto.
  - intros acc s v r. cbn [JSON.parse_members].
    destruct (JSON.skip_ws s) as [|q s1]; [discriminate|].
    destruct (q =? 34)%N; [|discriminate].
    destruct (JSON.scan_string s1) as [[key s2]|]; [|discriminate].
    destruct (JSON.skip_ws s2) as [|colon s3]; [discriminate|].
    destruct (colon =? 58)%N; [|discriminate].
    destruct (JSON.parse_value fuel s3) as [w r0| |]; try discriminate.
    destruct (JSON.skip_ws r0) as [|c r']; [discriminate|].
    destruct (c =? 44)%N; [apply IHm|].
    destruct (c =? 125)%N; [|discriminate].
    intros H. injection H as <- _. eauto.
Qed.

(** JSON.parse never returns undefined. *)
Lemma parse_never_undefined (text : jsstring) : JSON.parse text <> Normal VUndefined.
Proof.
  unfold JSON.parse. generalize (2 * List.length text)%nat. intros fuel.
  destruct (JSON.parse_value (S fuel) text) as [v r| |] eqn:Hp; try discriminate.
  destruct (JSON.skip_ws r); [|discriminate].
  intros H. injection H as ->. revert Hp. cbn [JSON.parse_value].
  destruct (JSON.skip_ws text) as [|c rest]; [discriminate|].
  destruct (c =? 91)%N.
  { destruct (JSON.skip_ws rest) as [|c' rest']; [discriminate|].
    destruct (c' =? 93)%N; [discriminate|].
    intros H. destruct (proj1 (parse_list_shape fuel) _ _ _ _ H). discriminate. }
  destruct (c =? 123)%N.
  { destruct (JSON.skip_ws rest) as [|c' rest']; [discriminate|].
    destruct (c' =? 125)%N; [discriminate|].
    intros H. destruct (proj2 (parse_list_shape fuel) _ _ _ _ H). discriminate. }
  unfold JSON.scan_scalar.
  destruct (c =? 34)%N.
  { destruct (JSON.scan_string rest) as [[str r0]|]; discriminate. }
  destruct (JSON.strip_prefix (lit "true") (c :: rest)); [discriminate|].
  destruct (JSON.strip_prefix (lit "false") (c :: rest)); [discriminate|].
  destruct (JSON.strip_prefix (lit "null") (c :: rest)); [discriminate|].
  destruct (JSON.scan_number (c :: rest)) as [[n r0]|]; discriminate.
Qed.

(** The fake-token strategy returns a value on every token: it neither
    throws nor stays pending. *)
Lemma tokToSubjectFakeToks_returns (tok : jsstring) :
  exists v, Async.tokToSubjectFakeToks tok = Normal v.
Proof.
  unfold Async.tokToSubjectFakeToks.
  pose proof (parse_comes_back (Buffer.toString (Buffer.from_base64 tok))) as Hp.
  destruct (JSON.parse (Buffer.toString (Buffer.from_base64 tok))) as [o|e| |e];
    try contradiction; cbn [bind try_catch]; eauto.
  pose proof (Get_comes_back o (lit "subject")) as Hg.
  destruct (Get o (lit "subject")) as [v|e| |e]; try contradiction;
    cbn [try_catch]; eauto.
Qed.

(** In the asynchronous variant a token whose decoded text is not JSON, or
    is the JSON text null, resolves to the sentinel "Fake token failure";
    so does the request that carries it. *)
Theorem malformed_token_absorbed (service : Async.endpoint) (ctx : Async.Context)
    (tok : jsstring) :
  ((exists e, JSON.parse (Buffer.toString (Buffer.from_base64 tok)) = Throw e)
   \/ JSON.parse (Buffer.toString (Buffer.from_base64 tok)) = Normal VNull) ->
  Async.tokToSubjectFakeToks tok = Normal (VString (lit "Fake token failure"))
  /\ ((7 < List.length (authorization_or_empty (Async.ctx_request ctx)))%nat ->
      skipn 7 (authorization_or_empty (Async.ctx_request ctx)) = tok ->
      Async.contextToSubject Async.Alternative2 service ctx
      = Normal (Async.set_subject ctx (VString (lit "Fake token failure")))).
Proof.
  intros H.
  assert (Htok : Async.tokToSubjectFakeToks tok = Normal (VString (lit "Fake token failure"))).
  { unfold Async.tokToSubjectFakeToks. destruct H as [[e ->] | ->]; reflexivity. }
  split; [exact Htok|].
  intros Hlen Hskip.
  rewrite (contextToSubject_long Async.Alternative2 service ctx Hlen), Hskip.
  simpl Async.tokToSubject. rewrite Htok. reflexivity.
Qed.

Lemma malformed_token_absorbed_witness :
  Async.tokToSubjectFakeToks (lit "not-a-token")
  = Normal (VString (lit "Fake token failure")).
Proof.
  apply (malformed_token_absorbed silent (Async.server_context (mkRequest None))
           (lit "not-a-token")).
  left. exists SyntaxError. vm_compute. reflexivity.
Defined.

(** With fake tokens selected, subject resolution returns on every request:
    it neither throws nor stays pending, whatever the header holds. *)
Lemma contextToSubject_fake_returns (service : Async.endpoint) (ctx : Async.Context) :
  exists ctx', Async.contextToSubject Async.Alternative2 service ctx = Normal ctx'.
Proof.
  unfold Async.contextToSubject.
  destruct (7 <? List.length (authorization_or_empty (Async.ctx_request ctx)))%nat;
    [|eauto].
  cbn [Async.tokToSubject].
  destruct (tokToSubjectFakeToks_returns
              (substring_from (authorization_or_empty (Async.ctx_request ctx)) 7))
    as [v ->].
  cbn [bind]. eauto.
Qed.

(** In the synchronous variant every error of JSON.parse, and the TypeError
    of reading the subject of null, leaves tokToSubject. *)
Lemma sync_tokToSubject_throws (tok : jsstring) (e : error) :
  JSON.parse (Buffer.toString (Buffer.from_base64 tok)) = Throw e ->
  Sync.tokToSubject tok = Throw e.
Proof. unfold Sync.tokToSubject. now intros ->. Qed.

Example sync_tokToSubject_null :
  Sync.tokToSubject (lit "bnVsbA==") = Throw TypeError
  /\ Async.tokToSubjectFakeToks (lit "bnVsbA==")
     = Normal (VString (lit "Fake token failure")).
Proof. split; vm_compute; reflexivity. Qed.

(** C3: the synchronous variant has no handler around JSON.parse: on a
    credential whose remainder is not base64-encoded JSON the SyntaxError
    leaves tokToSubject, reqToSubject and the context hook of the server. *)
Theorem sync_malformed_token_throws :
  Sync.tokToSubject (lit "not-a-token") = Throw SyntaxError
  /\ Sync.reqToSubject (mkRequest (Some (lit "Bearer not-a-token"))) = Throw SyntaxError
  /\ Sync.server_context (mkRequest (Some (lit "Bearer not-a-token"))) = Throw SyntaxError.
Proof. repeat split; vm_compute; reflexivity. Qed.

(** C10: when the decoded token is valid JSON other than null and is not an
    object with a subject member (an object without that member, a number, a
    string, a boolean, an array), the fake-token strategy returns undefined,
    no sentinel; the subject that contextToSubject then writes into the
    context is undefined, which is not a string. *)
Theorem subject_can_be_undefined (service : Async.endpoint) (tok : jsstring) (v : value) :
  JSON.parse (Buffer.toString (Buffer.from_base64 tok)) = Normal v ->
  v <> VNull ->
  (forall props, v = VObject props -> lookup (lit "subject") props = None) ->
  Async.tokToSubjectFakeToks tok = Normal VUndefined
  /\ Async.contextToSubject Async.Alternative2 service
       (Async.server_context (mkRequest (Some (lit "Bearer " ++ tok))))
     = Normal (Async.mkContext (mkRequest (Some (lit "Bearer " ++ tok))) VUndefined)
  /\ (forall s, VUndefined <> VString s)
  /\ ~ In VUndefined (List.map VString sentinels).
Proof.
  intros Hp Hnull Hl.
  assert (Htok : Async.tokToSubjectFakeToks tok = Normal VUndefined).
  { unfold Async.tokToSubjectFakeToks.
    pose proof (parse_never_undefined (Buffer.toString (Buffer.from_base64 tok))) as Hdef.
    rewrite Hp in *. destruct v as [| |b|n|s|elems|props]; try reflexivity.
    - exfalso. now apply Hdef.
    - exfalso. now apply Hnull.
    - cbn [bind Get]. rewrite (Hl props eq_refl). reflexivity. }
  assert (Hne : tok <> []) by (eapply fake_token_not_empty; [exact Htok | discriminate]).
  split; [exact Htok|].
  split; [|split; [discriminate|]].
  - rewrite contextToSubject_bearer by exact Hne.
    simpl Async.tokToSubject. rewrite Htok. reflexivity.
  - simpl. intuition discriminate.
Qed.

Lemma subject_can_be_undefined_witness :
  (Async.tokToSubjectFakeToks fake_token_without_subject = Normal VUndefined
   /\ Async.contextToSubject Async.Alternative2 silent
        (Async.server_context
           (mkRequest (Some (lit "Bearer " ++ fake_token_without_subject))))
      = Normal (Async.mkContext
                  (mkRequest (Some (lit "Bearer " ++ fake_token_without_subject)))
                  VUndefined)
   /\ (forall s, VUndefined <> VString s)
   /\ ~ In VUndefined (List.map VString sentinels))
  /\ (Async.tokToSubjectFakeToks fake_token_number = Normal VUndefined
      /\ Async.contextToSubject Async.Alternative2 silent
           (Async.server_context (mkRequest (Some (lit "Bearer " ++ fake_token_number))))
         = Normal (Async.mkContext
                     (mkRequest (Some (lit "Bearer " ++ fake_token_number))) VUndefined)
      /\ (forall s, VUndefined <> VString s)
      /\ ~ In VUndefined (List.map VString sentinels)).
Proof.
  split.
  - apply (subject_can_be_undefined silent fake_token_without_subject
             (VObject [(lit "a", VNumber (mkNumber false [1%N] 1))])).
    + vm_compute. reflexivity.
    + discriminate.
    + intros props H. injection H as <-. vm_compute. reflexivity.
  - apply (subject_can_be_undefined silent fake_token_number
             (VNumber (mkNumber false [1%N; 2%N] 2))).
    + vm_compute. reflexivity.
    + discriminate.
    + discriminate.
Defined.

(** C10, as worded, fails on the token whose decoded text is the JSON text
    null: it is valid JSON and has no subject member, yet reading its subject
    throws, the handler runs and the strategy returns the sentinel "Fake
    token failure", a string, which is also what the context receives. *)
Lemma null_token_counterexample :
  JSON.parse (Buffer.toString (Buffer.from_base64 fake_token_null)) = Normal VNull
  /\ Async.tokToSubjectFakeToks fake_token_null
     = Normal (VString (lit "Fake token failure"))
  /\ Async.tokToSubjectFakeToks fake_token_null <> Normal VUndefined
  /\ Async.contextToSubject Async.Alternative2 silent
       (Async.server_context (mkRequest (Some (lit "Bearer " ++ fake_token_null))))
     = Normal (Async.mkContext (mkRequest (Some (lit "Bearer " ++ fake_token_null)))
                 (VString (lit "Fake token failure"))).
Proof.
  split; [vm_compute; reflexivity|].
  split; [vm_compute; reflexivity|].
  split; [vm_compute; discriminate|].
  vm_compute; reflexivity.
Qed.

(** The decoded text of that token is the object with the single member a. *)
Example fake_token_without_subject_text :
  Buffer.toString (Buffer.from_base64 fake_token_without_subject)
  = lit "{" ++ quoted (lit "a") ++ lit ":1}".
Proof. vm_compute. reflexivity. Qed.

(** ** The introspection strategy *)

Lemma indexOf_from_first (l r : jsstring) (c : N) (i : Z) :
  ~ In c l -> indexOf_from (l ++ c :: r) c i = (i + Z.of_nat (List.length l))%Z.
Proof.
  revert i; induction l as [|x l IH]; intros i Hnot; simpl.
  - rewrite N.eqb_refl. lia.
  - destruct (N.eqb_spec x c) as [->|Hne].
    + exfalso. apply Hnot. now left.
    + rewrite IH by (intros Hin; apply Hnot; now right). lia.
Qed.

Lemma indexOf_from_absent (s : jsstring) (c : N) (i : Z) :
  ~ In c s -> indexOf_from s c i = (-1)%Z.
Proof.
  revert i; induction s as [|x s IH]; intros i Hnot; simpl; [reflexivity|].
  destruct (N.eqb_spec x c) as [->|Hne].
  - exfalso. apply Hnot. now left.
  - apply IH. intros Hin. apply Hnot. now right.
Qed.

Lemma substring_to (s : jsstring) (n : nat) :
  substring s 0 (Z.of_nat n) = firstn n s.
Proof.
  unfold substring, clamp. rewrite Nat2Z.id. simpl Z.to_nat.
  rewrite !Nat.min_0_l, Nat.max_0_l, Nat.sub_0_r. simpl skipn.
  destruct (Nat.le_gt_cases n (List.length s)) as [Hle|Hgt].
  - now rewrite Nat.min_l.
  - rewrite Nat.min_r by lia. rewrite !firstn_all2 by lia. reflexivity.
Qed.

(** The part of a user name before its first at sign. *)
Lemma before_at_local_part (local domain : jsstring) :
  ~ In 64%N local ->
  Async.before_at (VString (local ++ 64%N :: domain)) = Normal (VString local).
Proof.
  intros Hnot. unfold Async.before_at, indexOf.
  rewrite indexOf_from_first by exact Hnot. simpl Z.add.
  rewrite substring_to, firstn_app, firstn_all, Nat.sub_diag. simpl.
  now rewrite app_nil_r.
Qed.

(** Without at sign, indexOf gives -1 and substring(0, -1) the empty string. *)
Lemma before_at_without_at (u : jsstring) :
  ~ In 64%N u -> Async.before_at (VString u) = Normal (VString []).
Proof.
  intros Hnot. unfold Async.before_at, indexOf.
  rewrite indexOf_from_absent by exact Hnot.
  unfold substring, clamp. simpl Z.to_nat. rewrite Nat.min_0_l. reflexivity.
Qed.

(** Every path through tokToSubjectIntrospection.  The last branch of its
    conditional is never taken: a value is falsy or truthy, so the sentinel
    "Introspection failed" only ever comes from the handler. *)
Lemma tokToSubjectIntrospection_paths (service : Async.endpoint) (tok : jsstring) :
  Async.tokToSubjectIntrospection service tok
  = match Async.getPingFedPromise service tok with
    | Pending => Pending
    | Uncaught e => Uncaught e
    | Throw _ => Normal (VString (lit "Introspection failed"))
    | Normal response_body =>
        match JSON.parse response_body with
        | Normal introspection_response =>
            match Get introspection_response (lit "active") with
            | Normal active =>
                if ToBoolean active then
                  match Get introspection_response (lit "Username") with
                  | Normal (VString username) =>
                      Normal (VString (substring username 0 (indexOf username 64)))
                  | _ => Normal (VString (lit "Introspection failed"))
                  end
                else Normal (VString (lit "not authenticated"))
            | _ => Normal (VString (lit "Introspection failed"))
            end
        | _ => Normal (VString (lit "Introspection failed"))
        end
    end.
Proof.
  unfold Async.tokToSubjectIntrospection.
  destruct (Async.getPingFedPromise service tok) as [body|e| |e]; try reflexivity.
  cbn [bind].
  pose proof (parse_comes_back body) as Hp.
  destruct (JSON.parse body) as [v|e| |e]; try contradiction; try reflexivity.
  cbn [bind].
  pose proof (Get_comes_back v (lit "active")) as Ha.
  destruct (Get v (lit "active")) as [a|e| |e]; try contradiction; try reflexivity.
  cbn [bind]. destruct (ToBoolean a); cbn [negb]; [|reflexivity].
  pose proof (Get_comes_back v (lit "Username")) as Hu.
  destruct (Get v (lit "Username")) as [u|e| |e]; try contradiction; try reflexivity.
  cbn [bind]. destruct u; reflexivity.
Qed.

(** C7: when the response body parses as a JSON object, the introspection
    strategy returns "not authenticated" if its active member is false, and,
    if its active member is true and its Username member is a string with an
    at sign, the part of Username before the first at sign. *)
Theorem introspection_active_flag (service : Async.endpoint) (tok body : jsstring)
    (props : list (jsstring * value)) :
  Async.getPingFedPromise service tok = Normal body ->
  JSON.parse body = Normal (VObject props) ->
  (lookup (lit "active") props = Some (VBool false) ->
     Async.tokToSubjectIntrospection service tok
     = Normal (VString (lit "not authenticated")))
  /\ (forall local domain,
        lookup (lit "active") props = Some (VBool true) ->
        lookup (lit "Username") props = Some (VString (local ++ 64%N :: domain)) ->
        ~ In 64%N local ->
        Async.tokToSubjectIntrospection service tok = Normal (VString local)).
Proof.
  intros Hcall Hparse.
  rewrite tokToSubjectIntrospection_paths, Hcall, Hparse. simpl Get.
  split.
  - intros ->. reflexivity.
  - intros local domain -> -> Hnot. simpl ToBoolean. cbv iota.
    pose proof (before_at_local_part local domain Hnot) as H.
    unfold Async.before_at in H. exact H.
Qed.

Lemma introspection_active_flag_witness :
  Async.tokToSubjectIntrospection (answering response_inactive) (lit "anything")
  = Normal (VString (lit "not authenticated"))
  /\ Async.tokToSubjectIntrospection (answering response_active_abc) (lit "anything")
     = Normal (VString (lit "abc")).
Proof.
  split.
  - apply (introspection_active_flag (answering response_inactive) (lit "anything")
             response_inactive [(lit "active", VBool false)]);
      vm_compute; reflexivity.
  - apply (introspection_active_flag (answering response_active_abc) (lit "anything")
             response_active_abc
             [(lit "active", VBool true); (lit "Username", VString (lit "abc@example.com"))])
      with (domain := lit "example.com");
      try (vm_compute; reflexivity).
    vm_compute. intuition discriminate.
Defined.

(** The introspection strategy returns "Introspection failed", and throws
    nothing, when the promise of the call is rejected and when the response
    body is not JSON; and there is a response whose active member is neither
    the boolean true nor falsy (the number 1, with no Username) on which it
    returns "Introspection failed" as well. *)
Theorem introspection_failure_sentinel :
  (forall service tok e,
     Async.getPingFedPromise service tok = Throw e ->
     Async.tokToSubjectIntrospection service tok
     = Normal (VString (lit "Introspection failed")))
  /\ (forall service tok body e,
        Async.getPingFedPromise service tok = Normal body ->
        JSON.parse body = Throw e ->
        Async.tokToSubjectIntrospection service tok
        = Normal (VString (lit "Introspection failed")))
  /\ (exists service tok body props active,
        Async.getPingFedPromise service tok = Normal body
        /\ JSON.parse body = Normal (VObject props)
        /\ lookup (lit "active") props = Some active
        /\ active <> VBool true
        /\ ToBoolean active = true
        /\ Async.tokToSubjectIntrospection service tok
           = Normal (VString (lit "Introspection failed"))).
Proof.
  split; [|split].
  - intros service tok e H. now rewrite tokToSubjectIntrospection_paths, H.
  - intros service tok body e Hc Hp. now rewrite tokToSubjectIntrospection_paths, Hc, Hp.
  - exists (answering response_active_number), (lit "anything"), response_active_number,
      [(lit "active", VNumber (mkNumber false [1%N] 1))],
      (VNumber (mkNumber false [1%N] 1)).
    repeat split; try (vm_compute; reflexivity). discriminate.
Qed.

Lemma introspection_failure_sentinel_witness :
  Async.tokToSubjectIntrospection (failing (lit "aborted")) (lit "anything")
  = Normal (VString (lit "Introspection failed"))
  /\ Async.tokToSubjectIntrospection (answering (lit "<html>Bad Gateway</html>"))
       (lit "anything")
     = Normal (VString (lit "Introspection failed")).
Proof.
  split.
  - apply (proj1 introspection_failure_sentinel (failing (lit "aborted"))
             (lit "anything") (HttpError (lit "aborted"))).
    vm_compute. reflexivity.
  - apply (proj1 (proj2 introspection_failure_sentinel)
             (answering (lit "<html>Bad Gateway</html>")) (lit "anything")
             (lit "<html>Bad Gateway</html>") SyntaxError);
      vm_compute; reflexivity.
Defined.

(** C8: when the call itself fails, that is when the request cannot reach the
    token service and emits its error, the promise of getPingFedPromise is
    not rejected, since nothing listens to the errors of the request: the
    handler of tokToSubjectIntrospection never runs, no sentinel is returned,
    and the error leaves the resolvers uncaught. *)
Theorem introspection_request_error_uncaught (reason tok : jsstring) :
  Async.getPingFedPromise (unreachable reason) tok = Uncaught (HttpError reason)
  /\ Async.tokToSubjectIntrospection (unreachable reason) tok = Uncaught (HttpError reason)
  /\ Async.tokToSubjectIntrospection (unreachable reason) tok
     <> Normal (VString (lit "Introspection failed"))
  /\ Async.accounts Async.Alternative1 (unreachable reason)
       (Async.server_context (mkRequest (Some (lit "Bearer 0123456789abcdef"))))
     = Uncaught (HttpError reason).
Proof.
  split; [reflexivity|]. split; [reflexivity|]. split; [discriminate|]. reflexivity.
Qed.

(** An active member that is truthy without being true is treated as true:
    with a Username the local part is returned, not the sentinel. *)
Example introspection_truthy_active_with_username :
  Async.tokToSubjectIntrospection
    (answering (lit "{" ++ quoted (lit "active") ++ lit ": 1, "
                  ++ quoted (lit "Username") ++ lit ": " ++ quoted (lit "abc@example.com")
                  ++ lit "}"))
    (lit "anything")
  = Normal (VString (lit "abc")).
Proof. vm_compute. reflexivity. Qed.

(** With introspection selected, a request whose token the endpoint reports
    inactive gets the sentinel as subject and sees no record. *)
Example inactive_token_sees_nothing :
  Async.accounts Async.Alternative1 (answering response_inactive)
    (Async.server_context (mkRequest (Some (lit "Bearer 0123456789abcdef"))))
  = Normal (Async.mkContext (mkRequest (Some (lit "Bearer 0123456789abcdef")))
              (VString (lit "not authenticated")), [])
  /\ Async.transfers Async.Alternative1 (answering response_inactive)
       (Async.server_context (mkRequest (Some (lit "Bearer 0123456789abcdef"))))
     = Normal (Async.mkContext (mkRequest (Some (lit "Bearer 0123456789abcdef")))
                 (VString (lit "not authenticated")), []).
Proof. split; vm_compute; reflexivity. Qed.

(** A response that never ends leaves the promise, and the resolver that
    awaits it, pending. *)
Example introspection_without_answer :
  Async.tokToSubjectIntrospection silent (lit "anything") = Pending.
Proof. reflexivity. Qed.

(** ** Making and resolving a fake token *)

(** *** Base64 *)

Lemma list_ind3 {A} (P : list A -> Prop) :
  P [] -> (forall a, P [a]) -> (forall a b, P [a; b]) ->
  (forall a b c l, P l -> P (a :: b :: c :: l)) ->
  forall l, P l.
Proof.
  intros H0 H1 H2 H3.
  fix go 1. intros [|a [|b [|c l]]];
    [exact H0 | apply H1 | apply H2 | apply H3; apply go].
Qed.

Lemma sextet_cases (v : N) : (v < 64)%N -> In v (List.map N.of_nat (seq 0 64)).
Proof.
  intros H. apply in_map_iff. exists (N.to_nat v). split; [lia|].
  apply in_seq. lia.
Qed.

Lemma unbase64_base64_char (v : N) :
  (v < 64)%N ->
  Buffer.unbase64 (base64_char v) = Some v /\ (base64_char v =? 61)%N = false.
Proof.
  intros H. apply sextet_cases in H.
  assert (Hall : forallb
            (fun v => match Buffer.unbase64 (base64_char v) with
                      | Some w => (w =? v)%N && negb (base64_char v =? 61)%N
                      | None => false
                      end) (List.map N.of_nat (seq 0 64)) = true)
    by (vm_compute; reflexivity).
  rewrite forallb_forall in Hall. specialize (Hall v H).
  destruct (Buffer.unbase64 (base64_char v)) as [w|]; [|discriminate].
  apply andb_true_iff in Hall. destruct Hall as [Hw Hp].
  apply N.eqb_eq in Hw. subst w. split; [reflexivity|].
  now apply negb_true_iff.
Qed.

Lemma base64_char_byte (v : N) : (v < 64)%N -> (base64_char v mod 256 = base64_char v)%N.
Proof.
  intros H. apply N.mod_small. unfold base64_char.
  destruct (N.ltb_spec v 26); [lia|].
  destruct (N.ltb_spec v 52); [lia|].
  destruct (N.ltb_spec v 62); [lia|].
  destruct (v =? 62)%N; reflexivity.
Qed.

Lemma sextets_padding (n : nat) : Buffer.sextets (base64_padding n) = [].
Proof.
  unfold base64_padding. destruct (Nat.modulo n 3) as [|[|[|k]]]; reflexivity.
Qed.

Lemma sextets_of_text (sx : list N) (n : nat) :
  below 64 sx ->
  Buffer.sextets (List.map base64_char sx ++ base64_padding n) = sx.
Proof.
  induction 1 as [|v sx Hv _ IH].
  - apply sextets_padding.
  - cbn [List.map app Buffer.sextets]. cbv zeta. rewrite (base64_char_byte v Hv).
    destruct (unbase64_base64_char v Hv) as [-> ->]. now rewrite IH.
Qed.

Lemma sextets_of_bytes_below (bs : Buffer.buffer) :
  below 256 bs -> below 64 (sextets_of_bytes bs).
Proof.
  unfold below.
  induction bs as [|a|a b|a b c l IH] using list_ind3; intros H; simpl.
  - constructor.
  - inversion_clear H. repeat constructor; lia.
  - inversion_clear H as [|? ? Ha H1]. inversion_clear H1 as [|? ? Hb _].
    repeat constructor; lia.
  - inversion_clear H as [|? ? Ha H1]. inversion_clear H1 as [|? ? Hb H2].
    inversion_clear H2 as [|? ? Hc Hl].
    repeat (constructor; [lia|]). now apply IH.
Qed.

Lemma bytes_of_sextets_of_bytes (bs : Buffer.buffer) :
  below 256 bs -> Buffer.bytes_of_sextets (sextets_of_bytes bs) = bs.
Proof.
  unfold below.
  induction bs as [|a|a b|a b c l IH] using list_ind3; intros H.
  - reflexivity.
  - inversion_clear H. cbn [sextets_of_bytes Buffer.bytes_of_sextets]. f_equal. lia.
  - inversion_clear H as [|? ? Ha H1]. inversion_clear H1 as [|? ? Hb _].
    cbn [sextets_of_bytes Buffer.bytes_of_sextets]. f_equal; [lia|]. f_equal. lia.
  - inversion_clear H as [|? ? Ha H1]. inversion_clear H1 as [|? ? Hb H2].
    inversion_clear H2 as [|? ? Hc Hl].
    cbn [sextets_of_bytes Buffer.bytes_of_sextets]. rewrite (IH Hl).
    f_equal; [lia|]. f_equal; [lia|]. f_equal. lia.
Qed.

(** Decoding the base64 text of a buffer gives the buffer back. *)
Lemma from_base64_encode (bs : Buffer.buffer) :
  below 256 bs -> Buffer.from_base64 (base64_encode bs) = bs.
Proof.
  intros H. unfold Buffer.from_base64, base64_encode.
  rewrite sextets_of_text by now apply sextets_of_bytes_below.
  now apply bytes_of_sextets_of_bytes.
Qed.

Lemma utf8_of_code_point_below (cp : N) :
  (cp < 1114112)%N -> below 256 (utf8_of_code_point cp).
Proof.
  intros H. unfold utf8_of_code_point, below.
  destruct (N.ltb_spec cp 128); [repeat constructor; lia|].
  destruct (N.ltb_spec cp 2048); [repeat constructor; lia|].
  destruct (N.ltb_spec cp 65536); repeat constructor; lia.
Qed.

Lemma utf8_decode_code_point (cp : N) (rest : Buffer.buffer) :
  scalar cp ->
  Buffer.utf8_decode Buffer.Boundary (utf8_of_code_point cp ++ rest)
  = Buffer.utf16 cp ++ Buffer.utf8_decode Buffer.Boundary rest.
Proof.
  intros Hs. unfold scalar in Hs. unfold utf8_of_code_point.
  destruct (N.ltb_spec cp 128) as [H1|H1].
  { cbn [app Buffer.utf8_decode Buffer.utf8_step]. unfold Buffer.lead_byte, Buffer.utf16.
    repeat decide_test. reflexivity. }
  destruct (N.ltb_spec cp 2048) as [H2|H2].
  { cbn [app Buffer.utf8_decode Buffer.utf8_step]. unfold Buffer.lead_byte.
    repeat decide_test. cbn [andb app Buffer.utf8_decode Buffer.utf8_step].
    repeat decide_test. cbn [andb app]. do 2 f_equal. lia. }
  destruct (N.ltb_spec cp 65536) as [H3|H3].
  { cbn [app Buffer.utf8_decode Buffer.utf8_step]. unfold Buffer.lead_byte.
    repeat decide_test. cbn [andb app Buffer.utf8_decode Buffer.utf8_step].
    destruct (N.eqb_spec (224 + cp / 4096) 224) as [E0|E0];
      destruct (N.eqb_spec (224 + cp / 4096) 237) as [Ed|Ed]; try lia;
      repeat decide_test; cbn [andb app Buffer.utf8_decode Buffer.utf8_step];
      repeat decide_test; cbn [andb app]; do 2 f_equal; lia. }
  { cbn [app Buffer.utf8_decode Buffer.utf8_step]. unfold Buffer.lead_byte.
    repeat decide_test. cbn [andb app Buffer.utf8_decode Buffer.utf8_step].
    destruct (N.eqb_spec (240 + cp / 262144) 240) as [E0|E0];
      destruct (N.eqb_spec (240 + cp / 262144) 244) as [Ed|Ed]; try lia;
      repeat decide_test; cbn [andb app Buffer.utf8_decode Buffer.utf8_step];
      repeat decide_test; cbn [andb app Buffer.utf8_decode Buffer.utf8_step];
      repeat decide_test; cbn [andb app]; do 2 f_equal; lia. }
Qed.

Lemma surrogate_pair (c d : N) :
  is_high_surrogate c = true -> is_low_surrogate d = true ->
  scalar (65536 + (c - 55296) * 1024 + (d - 56320))
  /\ Buffer.utf16 (65536 + (c - 55296) * 1024 + (d - 56320)) = [c; d].
Proof.
  unfold is_high_surrogate, is_low_surrogate, scalar. intros Hc Hd.
  apply andb_true_iff in Hc, Hd. destruct Hc as [Hc1 Hc2], Hd as [Hd1 Hd2].
  apply N.leb_le in Hc1, Hc2, Hd1, Hd2.
  split; [right; lia|].
  unfold Buffer.utf16. decide_test. f_equal; [lia|]. f_equal. lia.
Qed.

Lemma not_surrogate_scalar (c : N) :
  (c < 65536)%N -> is_high_surrogate c = false -> is_low_surrogate c = false ->
  scalar c /\ Buffer.utf16 c = [c].
Proof.
  unfold is_high_surrogate, is_low_surrogate, scalar, Buffer.utf16. intros Hc Hh Hl.
  apply andb_false_iff in Hh, Hl.
  rewrite !N.leb_gt in Hh, Hl.
  split; [lia|]. now decide_test.
Qed.

Lemma utf8_encode_below (s : jsstring) :
  below 65536 s -> below 256 (utf8_encode s).
Proof.
  assert (Hfffd : below 256 [239; 191; 189]%N) by (repeat constructor; lia).
  assert (H : forall n s, (List.length s <= n)%nat -> below 65536 s -> below 256 (utf8_encode s)).
  { unfold below in *. induction n as [|n IH]; intros [|c rest] Hlen Hs;
      cbn [utf8_encode]; try (constructor; fail).
    - cbn [List.length] in Hlen. exfalso. inversion Hlen.
    - cbn [List.length] in Hlen. apply le_S_n in Hlen.
      inversion_clear Hs as [|? ? Hc Hrest].
      destruct (is_high_surrogate c) eqn:Hh.
      + destruct rest as [|d rest']; [exact Hfffd|].
        destruct (is_low_surrogate d) eqn:Hl.
        * apply Forall_app. split.
          -- apply utf8_of_code_point_below.
             destruct (surrogate_pair c d Hh Hl) as [Hsc _]. unfold scalar in Hsc.
             destruct Hsc as [Hsc|[_ Hsc]]; [|exact Hsc].
             apply N.lt_trans with (1 := Hsc). reflexivity.
          -- apply IH; [cbn [List.length] in Hlen; apply Nat.lt_le_incl; exact Hlen|].
             now inversion_clear Hrest.
        * apply Forall_app. split; [exact Hfffd|]. apply IH; [exact Hlen | exact Hrest].
      + destruct (is_low_surrogate c) eqn:Hl.
        * apply Forall_app. split; [exact Hfffd|]. apply IH; [exact Hlen | exact Hrest].
        * apply Forall_app. split; [apply utf8_of_code_point_below; lia|].
          apply IH; [exact Hlen | exact Hrest]. }
  intros Hs. now apply (H (List.length s)).
Qed.

(** Reading the UTF-8 bytes of a well-formed string gives the string back. *)
Lemma utf8_decode_encode (s : jsstring) (rest : Buffer.buffer) :
  below 65536 s -> well_formed s = true ->
  Buffer.utf8_decode Buffer.Boundary (utf8_encode s ++ rest)
  = s ++ Buffer.utf8_decode Buffer.Boundary rest.
Proof.
  assert (H : forall n s, (List.length s <= n)%nat -> below 65536 s -> well_formed s = true ->
              Buffer.utf8_decode Buffer.Boundary (utf8_encode s ++ rest)
              = s ++ Buffer.utf8_decode Buffer.Boundary rest).
  { unfold below. induction n as [|n IH]; intros [|c s'] Hlen Hs Hwf;
      try reflexivity; simpl in Hlen; try lia.
    inversion_clear Hs as [|? ? Hc Hs'].
    cbn [utf8_encode well_formed] in *.
    destruct (is_high_surrogate c) eqn:Hh.
    - destruct s' as [|d s'']; [discriminate|].
      apply andb_true_iff in Hwf. destruct Hwf as [Hl Hwf]. rewrite Hl.
      destruct (surrogate_pair c d Hh Hl) as [Hsc Hpair].
      rewrite <- app_assoc, utf8_decode_code_point by exact Hsc.
      rewrite Hpair. cbn [app]. do 2 f_equal.
      apply IH; [simpl in Hlen; lia | now inversion_clear Hs' | exact Hwf].
    - apply andb_true_iff in Hwf. destruct Hwf as [Hl Hwf].
      apply negb_true_iff in Hl. rewrite Hl.
      destruct (not_surrogate_scalar c Hc Hh Hl) as [Hsc Hone].
      rewrite <- app_assoc, utf8_decode_code_point by exact Hsc.
      rewrite Hone. cbn [app]. f_equal.
      apply IH; [lia | exact Hs' | exact Hwf]. }
  intros Hs Hwf. now apply (H (List.length s)).
Qed.

Lemma toString_utf8_encode (s : jsstring) :
  below 65536 s -> well_formed s = true -> Buffer.toString (utf8_encode s) = s.
Proof.
  intros Hs Hwf. unfold Buffer.toString.
  rewrite <- (app_nil_r (utf8_encode s)), utf8_decode_encode by assumption.
  simpl. apply app_nil_r.
Qed.

(** ** JSON *)

Lemma scan_string_literal (X rest : jsstring) :
  Forall literal_char X ->
  JSON.scan_string (X ++ 34%N :: rest) = Some (X, rest).
Proof.
  induction 1 as [|c X (H32 & _ & H34 & H92) _ IH].
  - reflexivity.
  - cbn [app JSON.scan_string].
    rewrite (proj2 (N.eqb_neq c 34) H34), (proj2 (N.eqb_neq c 92) H92).
    rewrite (proj2 (N.ltb_ge c 32) H32), IH. reflexivity.
Qed.

Lemma literal_subject : Forall literal_char (lit "subject").
Proof. repeat constructor; unfold literal_char; vm_compute; intuition discriminate. Qed.

Lemma subject_object_text_chars (X : jsstring) :
  subject_object_text X
  = 123%N :: 34%N :: lit "subject" ++ 34%N :: 58%N :: 34%N :: X ++ 34%N :: [125%N].
Proof.
  unfold subject_object_text, quoted.
  change (lit "{") with [123%N]. change (lit ":") with [58%N]. change (lit "}") with [125%N].
  cbn [app]. rewrite <- !app_assoc. reflexivity.
Qed.

Lemma parse_value_subject_object (fuel : nat) (X : jsstring) :
  (3 <= fuel)%nat -> Forall literal_char X ->
  JSON.parse_value fuel (subject_object_text X)
  = JSON.Parsed (VObject [(lit "subject", VString X)]) [].
Proof.
  intros Hfuel HX. destruct fuel as [|[|[|fuel]]]; try lia.
  rewrite subject_object_text_chars.
  cbn -[JSON.scan_string lit].
  rewrite (scan_string_literal _ _ literal_subject).
  cbn -[JSON.scan_string lit].
  rewrite (scan_string_literal _ _ HX).
  reflexivity.
Qed.

Lemma parse_subject_object (X : jsstring) :
  Forall literal_char X ->
  JSON.parse (subject_object_text X) = Normal (VObject [(lit "subject", VString X)]).
Proof.
  intros HX. unfold JSON.parse.
  rewrite parse_value_subject_object; [reflexivity | | exact HX].
  rewrite subject_object_text_chars. cbn [List.length]. lia.
Qed.

Lemma literal_char_below (X : jsstring) : Forall literal_char X -> below 65536 X.
Proof. apply Forall_impl. intros c (_ & H & _). exact H. Qed.

Lemma subject_object_text_well_formed (X : jsstring) :
  well_formed X = true -> well_formed (subject_object_text X) = true.
Proof.
  intros H. rewrite subject_object_text_chars.
  assert (Hq : forall Y, well_formed Y = true -> well_formed (Y ++ 34%N :: [125%N]) = true).
  { assert (Hn : forall n Y, (List.length Y <= n)%nat -> well_formed Y = true ->
                   well_formed (Y ++ 34%N :: [125%N]) = true).
    { induction n as [|n IH]; intros [|c Y] Hlen HY; try reflexivity;
        cbn [List.length] in Hlen; [inversion Hlen | apply le_S_n in Hlen].
      cbn [app well_formed] in *.
      destruct (is_high_surrogate c).
      - destruct Y as [|d Y]; [discriminate|]. cbn [app].
        apply andb_true_iff in HY. destruct HY as [-> HY]. cbn [andb].
        apply IH; [cbn [List.length] in Hlen; lia | exact HY].
      - apply andb_true_iff in HY. destruct HY as [-> HY]. cbn [andb].
        now apply IH. }
    intros Y. now apply (Hn (List.length Y)). }
  specialize (Hq X H). revert Hq.
  generalize (X ++ 34%N :: [125%N]). intros tail Htail.
  vm_compute. exact Htail.
Qed.

Lemma subject_object_text_below (X : jsstring) :
  below 65536 X -> below 65536 (subject_object_text X).
Proof.
  intros H. rewrite subject_object_text_chars. unfold below in *.
  repeat (apply Forall_cons; [reflexivity|]).
  apply Forall_app. split; [exact H|].
  repeat (apply Forall_cons; [reflexivity|]). apply Forall_nil.
Qed.


Lemma fake_token_not_nil (X : jsstring) :
  Forall literal_char X -> well_formed X = true -> fake_token X <> [].
Proof.
  intros HX Hwf Hnil.
  assert (Hbytes : Buffer.from_base64 (fake_token X) = utf8_encode (subject_object_text X)).
  { unfold fake_token. apply from_base64_encode.
    apply utf8_encode_below, subject_object_text_below, literal_char_below, HX. }
  rewrite Hnil, subject_object_text_chars in Hbytes.
  cbn [app utf8_encode is_high_surrogate is_low_surrogate utf8_of_code_point
       N.leb N.ltb N.compare Pos.compare Pos.compare_cont andb] in Hbytes.
  discriminate Hbytes.
Qed.

(** C9: for every string X of code units that are no control character,
    quotation mark or backslash, and with no surrogate left without its
    partner, the base64 text of the UTF-8 bytes of the JSON object with the
    one member subject equal to X resolves, through the fake-token strategy,
    to the subject X; so does a request that carries it after "Bearer ".
    (The empty X is covered too.) *)
Theorem fake_token_round_trip (service : Async.endpoint) (X : jsstring) :
  Forall literal_char X ->
  well_formed X = true ->
  Async.tokToSubjectFakeToks (fake_token X) = Normal (VString X)
  /\ Async.contextToSubject Async.Alternative2 service
       (Async.server_context (mkRequest (Some (lit "Bearer " ++ fake_token X))))
     = Normal (Async.mkContext (mkRequest (Some (lit "Bearer " ++ fake_token X)))
                 (VString X)).
Proof.
  intros HX Hwf.
  assert (Htok : Async.tokToSubjectFakeToks (fake_token X) = Normal (VString X)).
  { unfold Async.tokToSubjectFakeToks, fake_token.
    rewrite from_base64_encode
      by (apply utf8_encode_below, subject_object_text_below, literal_char_below, HX).
    rewrite toString_utf8_encode
      by (first [ apply subject_object_text_below, literal_char_below, HX
                | apply subject_object_text_well_formed, Hwf ]).
    rewrite parse_subject_object by exact HX.
    reflexivity. }
  split; [exact Htok|].
  rewrite contextToSubject_bearer by (apply fake_token_not_nil; assumption).
  simpl Async.tokToSubject. rewrite Htok. reflexivity.
Qed.

Lemma fake_token_round_trip_witness :
  Async.tokToSubjectFakeToks (fake_token (lit "469863216813"))
  = Normal (VString (lit "469863216813"))
  /\ Async.contextToSubject Async.Alternative2 silent
       (Async.server_context
          (mkRequest (Some (lit "Bearer " ++ fake_token (lit "469863216813")))))
     = Normal (Async.mkContext
                 (mkRequest (Some (lit "Bearer " ++ fake_token (lit "469863216813"))))
                 (VString (lit "469863216813"))).
Proof.
  apply (fake_token_round_trip silent (lit "469863216813")).
  - repeat (apply Forall_cons; [unfold literal_char; vm_compute; intuition discriminate|]).
    apply Forall_nil.
  - vm_compute. reflexivity.
Defined.

(** The construction on known texts: an ASCII subject, and a subject with a
    two-byte, a three-byte and a four-byte character (U+00E9, U+20AC and the
    surrogate pair of U+1F600). *)
Example fake_token_abc : fake_token (lit "abc") = lit "eyJzdWJqZWN0IjoiYWJjIn0=".
Proof. vm_compute. reflexivity. Qed.

Example fake_token_beyond_ascii :
  fake_token [233; 8364; 55357; 56832]%N = lit "eyJzdWJqZWN0Ijoiw6nigqzwn5iAIn0="
  /\ Async.tokToSubjectFakeToks (lit "eyJzdWJqZWN0Ijoiw6nigqzwn5iAIn0=")
     = Normal (VString [233; 8364; 55357; 56832]%N).
Proof. split; vm_compute; reflexivity. Qed.

(** ** JSON.parse: the fuel of the descent *)

Lemma skip_ws_length (s : jsstring) : (List.length (JSON.skip_ws s) <= List.length s)%nat.
Proof.
  induction s as [|c s IH]; simpl; [lia|].
  destruct (JSON.is_ws c); simpl; lia.
Qed.

Lemma skip_ws_cons (s rest : jsstring) (c : N) :
  JSON.skip_ws s = c :: rest -> (S (List.length rest) <= List.length s)%nat.
Proof.
  intros H. pose proof (skip_ws_length s) as Hl. rewrite H in Hl. exact Hl.
Qed.

Lemma push_length (c : N) (r : option (jsstring * jsstring)) (str rest : jsstring) :
  JSON.push c r = Some (str, rest) -> exists str', r = Some (str', rest).
Proof.
  destruct r as [[str' rest']|]; simpl; [|discriminate].
  intros H. injection H as _ <-. eauto.
Qed.

Lemma scan_string_length (s str rest : jsstring) :
  JSON.scan_string s = Some (str, rest) -> (List.length rest < List.length s)%nat.
Proof.
  assert (H : forall n s str rest, (List.length s <= n)%nat ->
              JSON.scan_string s = Some (str, rest) ->
              (List.length rest < List.length s)%nat).
  { clear. induction n as [|n IH]; intros [|c s] str rest Hlen Hscan;
      try discriminate; cbn [List.length] in *; [lia|].
    cbn [JSON.scan_string] in Hscan.
    destruct (c =? 34)%N.
    { injection Hscan as _ <-. lia. }
    destruct (c =? 92)%N.
    - destruct s as [|e s']; [discriminate|].
      destruct (e =? 117)%N.
      + destruct s' as [|h1 [|h2 [|h3 [|h4 s'']]]]; try discriminate.
        destruct (JSON.hex4 h1 h2 h3 h4); [|discriminate].
        apply push_length in Hscan. destruct Hscan as [str' Hscan].
        apply IH in Hscan; cbn [List.length] in *; lia.
      + destruct (JSON.unescape e); [|discriminate].
        apply push_length in Hscan. destruct Hscan as [str' Hscan].
        apply IH in Hscan; cbn [List.length] in *; lia.
    - destruct (c <? 32)%N; [discriminate|].
      apply push_length in Hscan. destruct Hscan as [str' Hscan].
      apply IH in Hscan; lia. }
  intros Hs. now apply (H (List.length s) s str).
Qed.

Lemma take_digits_length (s : jsstring) (ds : list N) (r : jsstring) :
  JSON.take_digits s = (ds, r) -> (List.length r <= List.length s)%nat.
Proof.
  revert ds r; induction s as [|c s IH]; intros ds r; simpl.
  - intros H. injection H as _ <-. simpl. lia.
  - destruct (JSON.is_digit c).
    + destruct (JSON.take_digits s) as [ds' r'] eqn:E. intros H. injection H as _ <-.
      specialize (IH ds' r' eq_refl). lia.
    + intros H. injection H as _ <-. simpl. lia.
Qed.

Lemma strip_prefix_length (p s r : jsstring) :
  JSON.strip_prefix p s = Some r -> (List.length r <= List.length s)%nat.
Proof.
  revert s; induction p as [|a p IH]; intros [|b s]; simpl; try discriminate.
  - intros H. injection H as <-. simpl. lia.
  - intros H. injection H as <-. simpl. lia.
  - destruct (a =? b)%N; [|discriminate]. intros H. apply IH in H. lia.
Qed.

Lemma scan_sign_length (s r : jsstring) (neg : bool) :
  JSON.scan_sign s = (neg, r) -> (List.length r <= List.length s)%nat.
Proof.
  unfold JSON.scan_sign. destruct s as [|c s]; [|destruct (c =? 45)%N];
    intros H; injection H as _ <-; simpl; lia.
Qed.

Lemma scan_fraction_length (s r : jsstring) (fr : list N) :
  JSON.scan_fraction s = Some (fr, r) -> (List.length r <= List.length s)%nat.
Proof.
  unfold JSON.scan_fraction. destruct s as [|c s].
  - intros H. injection H as _ <-. simpl. lia.
  - destruct (c =? 46)%N.
    + destruct (JSON.take_digits s) as [ds r'] eqn:E. apply take_digits_length in E.
      destruct ds; [discriminate|]. intros H. injection H as _ <-. simpl. lia.
    + intros H. injection H as _ <-. simpl. lia.
Qed.

Lemma scan_exponent_length (s r : jsstring) (e : Z) :
  JSON.scan_exponent s = Some (e, r) -> (List.length r <= List.length s)%nat.
Proof.
  unfold JSON.scan_exponent. destruct s as [|c s].
  - intros H. injection H as _ <-. simpl. lia.
  - destruct ((c =? 101) || (c =? 69))%N.
    + destruct (JSON.scan_exponent_sign s) as [eneg r1] eqn:E1.
      assert (Hsign : (List.length r1 <= List.length s)%nat).
      { revert E1. unfold JSON.scan_exponent_sign.
        destruct s as [|sg r']; [|destruct (sg =? 45)%N; [|destruct (sg =? 43)%N]];
          intros H; injection H as _ <-; simpl; lia. }
      destruct (JSON.take_digits r1) as [ed r2] eqn:E2. apply take_digits_length in E2.
      destruct ed; [discriminate|]. intros H. injection H as _ <-. simpl. lia.
    + intros H. injection H as _ <-. simpl. lia.
Qed.

Lemma scan_number_length (s : jsstring) (n : number) (r : jsstring) :
  JSON.scan_number s = Some (n, r) -> (List.length r <= List.length s)%nat.
Proof.
  unfold JSON.scan_number.
  destruct (JSON.scan_sign s) as [neg s1] eqn:E1. apply scan_sign_length in E1.
  destruct (JSON.take_digits s1) as [int s2] eqn:E2. apply take_digits_length in E2.
  destruct int as [|d more]; [discriminate|].
  destruct (_ && _)%bool; [discriminate|].
  destruct (JSON.scan_fraction s2) as [[frac s3]|] eqn:E3; [|discriminate].
  apply scan_fraction_length in E3.
  destruct (JSON.scan_exponent s3) as [[exp s4]|] eqn:E4; [|discriminate].
  apply scan_exponent_length in E4.
  intros H. injection H as _ <-. lia.
Qed.

Lemma scan_scalar_length (s : jsstring) (v : value) (r : jsstring) :
  JSON.scan_scalar s = JSON.Parsed v r -> (List.length r <= List.length s)%nat.
Proof.
  unfold JSON.scan_scalar. destruct s as [|c rest]; [discriminate|].
  destruct (c =? 34)%N.
  - destruct (JSON.scan_string rest) as [[str r']|] eqn:E; [|discriminate].
    apply scan_string_length in E. intros H. injection H as _ <-. simpl. lia.
  - destruct (JSON.strip_prefix (lit "true") (c :: rest)) as [r1|] eqn:E1.
    { apply strip_prefix_length in E1. intros H. injection H as _ <-. exact E1. }
    destruct (JSON.strip_prefix (lit "false") (c :: rest)) as [r2|] eqn:E2.
    { apply strip_prefix_length in E2. intros H. injection H as _ <-. exact E2. }
    destruct (JSON.strip_prefix (lit "null") (c :: rest)) as [r3|] eqn:E3.
    { apply strip_prefix_length in E3. intros H. injection H as _ <-. exact E3. }
    destruct (JSON.scan_number (c :: rest)) as [[n r4]|] eqn:E4; [|discriminate].
    apply scan_number_length in E4. intros H. injection H as _ <-. exact E4.
Qed.

Lemma scan_scalar_fed (s : jsstring) : JSON.scan_scalar s <> JSON.Starved.
Proof.
  unfold JSON.scan_scalar. destruct s as [|c rest]; [discriminate|].
  destruct (c =? 34)%N.
  - destruct (JSON.scan_string rest) as [[str r']|]; discriminate.
  - destruct (JSON.strip_prefix (lit "true") (c :: rest)); [discriminate|].
    destruct (JSON.strip_prefix (lit "false") (c :: rest)); [discriminate|].
    destruct (JSON.strip_prefix (lit "null") (c :: rest)); [discriminate|].
    destruct (JSON.scan_number (c :: rest)) as [[n r4]|]; discriminate.
Qed.

(** What a descent leaves is no longer than what it was given. *)
Lemma parse_rest_length (fuel : nat) :
  (forall s v r, JSON.parse_value fuel s = JSON.Parsed v r ->
                 (List.length r <= List.length s)%nat)
  /\ (forall acc s v r, JSON.parse_elements fuel acc s = JSON.Parsed v r ->
                        (List.length r <= List.length s)%nat)
  /\ (forall acc s v r, JSON.parse_members fuel acc s = JSON.Parsed v r ->
                        (List.length r <= List.length s)%nat).
Proof.
  induction fuel as [|fuel (IHv & IHe & IHm)]; [repeat split; discriminate|].
  split; [|split].
  - intros s v r. cbn [JSON.parse_value].
    destruct (JSON.skip_ws s) as [|c rest] eqn:Es; [discriminate|].
    apply skip_ws_cons in Es.
    destruct (c =? 91)%N.
    { destruct (JSON.skip_ws rest) as [|c' rest'] eqn:Er; [discriminate|].
      apply skip_ws_cons in Er.
      destruct (c' =? 93)%N.
      - intros H. injection H as _ <-. lia.
      - intros H. apply IHe in H. lia. }
    destruct (c =? 123)%N.
    { destruct (JSON.skip_ws rest) as [|c' rest'] eqn:Er; [discriminate|].
      apply skip_ws_cons in Er.
      destruct (c' =? 125)%N.
      - intros H. injection H as _ <-. lia.
      - intros H. apply IHm in H. lia. }
    intros H. apply scan_scalar_length in H. cbn [List.length] in H. lia.
  - intros acc s v r. cbn [JSON.parse_elements].
    destruct (JSON.parse_value fuel s) as [w r1| |] eqn:Ev; try discriminate.
    apply IHv in Ev.
    destruct (JSON.skip_ws r1) as [|c r'] eqn:Er; [discriminate|].
    apply skip_ws_cons in Er.
    destruct (c =? 44)%N; [intros H; apply IHe in H; lia|].
    destruct (c =? 93)%N; [|discriminate].
    intros H. injection H as _ <-. lia.
  - intros acc s v r. cbn [JSON.parse_members].
    destruct (JSON.skip_ws s) as [|q s1] eqn:Es; [discriminate|].
    apply skip_ws_cons in Es.
    destruct (q =? 34)%N; [|discriminate].
    destruct (JSON.scan_string s1) as [[key s2]|] eqn:Ek; [|discriminate].
    apply scan_string_length in Ek.
    destruct (JSON.skip_ws s2) as [|colon s3] eqn:Ec; [discriminate|].
    apply skip_ws_cons in Ec.
    destruct (colon =? 58)%N; [|discriminate].
    destruct (JSON.parse_value fuel s3) as [w r1| |] eqn:Ev; try discriminate.
    apply IHv in Ev.
    destruct (JSON.skip_ws r1) as [|c r'] eqn:Er; [discriminate|].
    apply skip_ws_cons in Er.
    destruct (c =? 44)%N; [intros H; apply IHm in H; lia|].
    destruct (c =? 125)%N; [|discriminate].
    intros H. injection H as _ <-. lia.
Qed.

(** Twice the length of the text, and one more, is fuel enough: the
    descent never stops for want of it. *)
Lemma parse_fed (fuel : nat) :
  (forall s, (2 * List.length s < fuel)%nat -> JSON.parse_value fuel s <> JSON.Starved)
  /\ (forall acc s, (2 * List.length s + 1 < fuel)%nat ->
                    JSON.parse_elements fuel acc s <> JSON.Starved)
  /\ (forall acc s, (2 * List.length s + 1 < fuel)%nat ->
                    JSON.parse_members fuel acc s <> JSON.Starved).
Proof.
  induction fuel as [|fuel (IHv & IHe & IHm)]; [repeat split; intros; lia|].
  pose proof (parse_rest_length fuel) as (Lv & _ & _).
  split; [|split].
  - intros s Hf. cbn [JSON.parse_value].
    destruct (JSON.skip_ws s) as [|c rest] eqn:Es; [discriminate|].
    apply skip_ws_cons in Es.
    destruct (c =? 91)%N.
    { destruct (JSON.skip_ws rest) as [|c' rest'] eqn:Er; [discriminate|].
      destruct (c' =? 93)%N; [discriminate|]. apply IHe. lia. }
    destruct (c =? 123)%N.
    { destruct (JSON.skip_ws rest) as [|c' rest'] eqn:Er; [discriminate|].
      destruct (c' =? 125)%N; [discriminate|]. apply IHm. lia. }
    apply scan_scalar_fed.
  - intros acc s Hf. cbn [JSON.parse_elements].
    destruct (JSON.parse_value fuel s) as [w r1| |] eqn:Ev; try discriminate.
    + apply Lv in Ev.
      destruct (JSON.skip_ws r1) as [|c r'] eqn:Er; [discriminate|].
      apply skip_ws_cons in Er.
      destruct (c =? 44)%N; [apply IHe; lia|].
      destruct (c =? 93)%N; discriminate.
    + exfalso. revert Ev. apply IHv. lia.
  - intros acc s Hf. cbn [JSON.parse_members].
    destruct (JSON.skip_ws s) as [|q s1] eqn:Es; [discriminate|].
    apply skip_ws_cons in Es.
    destruct (q =? 34)%N; [|discriminate].
    destruct (JSON.scan_string s1) as [[key s2]|] eqn:Ek; [|discriminate].
    apply scan_string_length in Ek.
    destruct (JSON.skip_ws s2) as [|colon s3] eqn:Ec; [discriminate|].
    apply skip_ws_cons in Ec.
    destruct (colon =? 58)%N; [|discriminate].
    destruct (JSON.parse_value fuel s3) as [w r1| |] eqn:Ev; try discriminate.
    + apply Lv in Ev.
      destruct (JSON.skip_ws r1) as [|c r'] eqn:Er; [discriminate|].
      apply skip_ws_cons in Er.
      destruct (c =? 44)%N; [apply IHm; lia|].
      destruct (c =? 125)%N; discriminate.
    + exfalso. revert Ev. apply IHv. lia.
Qed.

Lemma parse_value_fed (text : jsstring) :
  JSON.parse_value (S (2 * List.length text)) text <> JSON.Starved.
Proof. apply (parse_fed (S (2 * List.length text))). lia. Qed.

(** More fuel changes nothing once a descent has come to an end. *)
Lemma parse_fuel_monotone (fuel : nat) :
  (forall s, JSON.parse_value fuel s <> JSON.Starved ->
             JSON.parse_value (S fuel) s = JSON.parse_value fuel s)
  /\ (forall acc s, JSON.parse_elements fuel acc s <> JSON.Starved ->
                    JSON.parse_elements (S fuel) acc s = JSON.parse_elements fuel acc s)
  /\ (forall acc s, JSON.parse_members fuel acc s <> JSON.Starved ->
                    JSON.parse_members (S fuel) acc s = JSON.parse_members fuel acc s).
Proof.
  induction fuel as [|fuel (IHv & IHe & IHm)];
    [repeat split; intros; exfalso;
     match goal with H : _ <> _ |- _ => apply H; reflexivity end|].
  split; [|split].
  - intros s. cbn [JSON.parse_value].
    destruct (JSON.skip_ws s) as [|c rest]; [reflexivity|].
    destruct (c =? 91)%N.
    { destruct (JSON.skip_ws rest) as [|c' rest']; [reflexivity|].
      destruct (c' =? 93)%N; [reflexivity|]. apply IHe. }
    destruct (c =? 123)%N.
    { destruct (JSON.skip_ws rest) as [|c' rest']; [reflexivity|].
      destruct (c' =? 125)%N; [reflexivity|]. apply IHm. }
    reflexivity.
  - intros acc s. cbn [JSON.parse_elements].
    destruct (JSON.parse_value fuel s) as [w r1| |] eqn:Ev.
    + rewrite (IHv s) by (rewrite Ev; discriminate). rewrite Ev.
      destruct (JSON.skip_ws r1) as [|c r']; [reflexivity|].
      destruct (c =? 44)%N; [apply IHe|]. reflexivity.
    + rewrite (IHv s) by (rewrite Ev; discriminate). rewrite Ev. reflexivity.
    + congruence.
  - intros acc s. cbn [JSON.parse_members].
    destruct (JSON.skip_ws s) as [|q s1]; [reflexivity|].
    destruct (q =? 34)%N; [|reflexivity].
    destruct (JSON.scan_string s1) as [[key s2]|]; [|reflexivity].
    destruct (JSON.skip_ws s2) as [|colon s3]; [reflexivity|].
    destruct (colon =? 58)%N; [|reflexivity].
    destruct (JSON.parse_value fuel s3) as [w r1| |] eqn:Ev.
    + rewrite (IHv s3) by (rewrite Ev; discriminate). rewrite Ev.
      destruct (JSON.skip_ws r1) as [|c r']; [reflexivity|].
      destruct (c =? 44)%N; [apply IHm|]. reflexivity.
    + rewrite (IHv s3) by (rewrite Ev; discriminate). rewrite Ev. reflexivity.
    + congruence.
Qed.

(** The result of JSON.parse does not depend on the fuel it hands to the
    descent: any larger amount gives the same value or the same error. *)
Lemma parse_value_any_fuel (text : jsstring) (extra : nat) :
  JSON.parse_value (extra + S (2 * List.length text)) text
  = JSON.parse_value (S (2 * List.length text)) text.
Proof.
  induction extra as [|extra IH]; [reflexivity|].
  cbn [Nat.add].
  rewrite (proj1 (parse_fuel_monotone (extra + S (2 * List.length text)))).
  - exact IH.
  - rewrite IH. apply parse_value_fed.
Qed.

(** JSON.parse hands its descent fuel enough: the descent never stops for
    want of it, and with any larger amount it ends the same way. *)
Theorem parse_fuel_adequate (text : jsstring) (extra : nat) :
  JSON.parse_value (S (2 * List.length text)) text <> JSON.Starved
  /\ JSON.parse_value (extra + S (2 * List.length text)) text
     = JSON.parse_value (S (2 * List.length text)) text.
Proof. split; [apply parse_value_fed | apply parse_value_any_fuel]. Qed.

Lemma parse_throws_SyntaxError (text : jsstring) (e : error) :
  JSON.parse text = Throw e -> e = SyntaxError.
Proof.
  unfold JSON.parse.
  destruct (JSON.parse_value _ text) as [v rest| |].
  - destruct (JSON.skip_ws rest); [discriminate|]. intros H. now injection H.
  - intros H. now injection H.
  - intros H. now injection H.
Qed.

(** ** What the loops do on any store *)

Lemma loop_needs_conversion (a : jsstring) (subject : value) (c : Z) :
  localeCompare a subject = Normal c -> exists That, ToString subject = Normal That.
Proof.
  unfold localeCompare. destruct (ToString subject) as [That| | |]; try discriminate. eauto.
Qed.

Lemma filter_owned_twice {A} (owner : A -> jsstring) (That : jsstring) (l : list A) :
  filter (fun x => owned_by That (owner x)) (filter (fun x => owned_by That (owner x)) l)
  = filter (fun x => owned_by That (owner x)) l.
Proof.
  induction l as [|x l IH]; [reflexivity|]. cbn [filter].
  destruct (owned_by That (owner x)) eqn:E; [|exact IH].
  cbn [filter]. now rewrite E, IH.
Qed.

(** Scanning a store in two parts: the second part is scanned from the
    output of the first, so the selection of a concatenation is the
    concatenation of the selections, in both loops and whatever the subject
    (also when its conversion throws). *)
Theorem loops_scan_in_sequence (accounts1 accounts2 : list Account.t)
    (transfers1 transfers2 : list Transfer.t) (subject : value)
    (output : list Account.t) (output2 : list Transfer.t) :
  Async.accounts_loop (accounts1 ++ accounts2) subject output
  = (o <- Async.accounts_loop accounts1 subject output ;;
     Async.accounts_loop accounts2 subject o)
  /\ Async.transfers_loop (transfers1 ++ transfers2) subject output2
     = (o <- Async.transfers_loop transfers1 subject output2 ;;
        Async.transfers_loop transfers2 subject o).
Proof.
  split.
  - revert output; induction accounts1 as [|a s1 IH]; intros output; [reflexivity|].
    cbn [app Async.accounts_loop].
    destruct (localeCompare (Account.owner a) subject); cbn [bind]; try reflexivity.
    apply IH.
  - revert output2; induction transfers1 as [|t s1 IH]; intros output2; [reflexivity|].
    cbn [app Async.transfers_loop].
    destruct (localeCompare (Account.owner (Transfer.creditor t)) subject);
      cbn [bind]; try reflexivity.
    apply IH.
Qed.

(** On any store, a scan that returns has selected records of the store
    only, no more than it holds, and scanning its own output again for the
    same subject selects all of it.  When the store is not empty the subject
    has been converted to a string; if that conversion is exact and the
    string and the owners of the store are strings of ASCII digits and
    letters, the output is, in store order, the records that string owns. *)
Theorem selection_is_stable (accounts : list Account.t) (subject : value)
    (output : list Account.t) :
  Async.accounts_loop accounts subject [] = Normal output ->
  (forall a, In a output -> In a accounts)
  /\ (List.length output <= List.length accounts)%nat
  /\ Async.accounts_loop output subject [] = Normal output
  /\ (accounts <> [] ->
      exists That,
        ToString subject = Normal That
        /\ (exact subject = true -> alphanumeric That = true ->
            alphanumeric_owners accounts ->
            output = filter (fun a => owned_by That (Account.owner a)) accounts)).
Proof.
  destruct accounts as [|a0 rest].
  - cbn [Async.accounts_loop]. intros H. injection H as <-.
    repeat split; try (intros; contradiction); try reflexivity.
  - intros H.
    assert (HT : exists That, ToString subject = Normal That).
    { cbn [Async.accounts_loop] in H.
      destruct (localeCompare (Account.owner a0) subject) as [c| | |] eqn:E;
        try discriminate. eapply loop_needs_conversion, E. }
    destruct HT as [That HT].
    rewrite (accounts_loop_filter _ _ _ _ HT) in H. cbn [app] in H.
    set (sel := filter (fun a => owned_by That (Account.owner a)) (a0 :: rest)) in *.
    assert (Ho : sel = output) by congruence. subst output.
    split; [|split; [|split]].
    + intros a Ha. apply filter_In in Ha. tauto.
    + apply filter_length_le.
    + rewrite (accounts_loop_filter _ _ _ _ HT). cbn [app]. f_equal.
      apply (filter_owned_twice Account.owner).
    + intros _. exists That. split; [exact HT | reflexivity].
Qed.

Lemma selection_is_stable_witness :
  (forall a, In a [data.checking_325; data.savings_331; data.card_340] -> In a data.accounts)
  /\ (List.length [data.checking_325; data.savings_331; data.card_340]
      <= List.length data.accounts)%nat
  /\ Async.accounts_loop [data.checking_325; data.savings_331; data.card_340]
       (VString (lit "467745863242")) []
     = Normal [data.checking_325; data.savings_331; data.card_340]
  /\ (data.accounts <> [] ->
      exists That,
        ToString (VString (lit "467745863242")) = Normal That
        /\ (exact (VString (lit "467745863242")) = true -> alphanumeric That = true ->
            alphanumeric_owners data.accounts ->
            [data.checking_325; data.savings_331; data.card_340]
            = filter (fun a => owned_by That (Account.owner a)) data.accounts)).
Proof.
  apply (selection_is_stable data.accounts (VString (lit "467745863242"))).
  vm_compute. reflexivity.
Defined.

(** The hypotheses of the last part hold of the sample store and of the
    subjects of its two tokens. *)
Example sample_store_is_alphanumeric :
  alphanumeric_owners data.accounts
  /\ alphanumeric_creditors data.transfers
  /\ alphanumeric (lit "469863216813") = true
  /\ alphanumeric (lit "467745863242") = true
  /\ exact (VString (lit "467745863242")) = true
  /\ exact (VNumber number_469863216813) = true.
Proof.
  unfold alphanumeric_owners, alphanumeric_creditors.
  repeat split; repeat constructor.
Qed.

(** The loops see the subject only through its conversion to a string: two
    subjects whose conversions are exact and give the same string select the
    same records; when they give two different strings of ASCII digits and
    letters, no record is selected for both. *)
Theorem selection_goes_by_conversion (accounts : list Account.t)
    (transfers : list Transfer.t) (subject1 subject2 : value) (That1 That2 : jsstring) :
  ToString subject1 = Normal That1 ->
  ToString subject2 = Normal That2 ->
  exact subject1 = true ->
  exact subject2 = true ->
  (That1 = That2 ->
     Async.accounts_loop accounts subject1 [] = Async.accounts_loop accounts subject2 []
     /\ Async.transfers_loop transfers subject1 []
        = Async.transfers_loop transfers subject2 [])
  /\ (That1 <> That2 -> alphanumeric That1 = true -> alphanumeric That2 = true ->
      exists mine yours mine2 yours2,
        Async.accounts_loop accounts subject1 [] = Normal mine
        /\ Async.accounts_loop accounts subject2 [] = Normal yours
        /\ Async.transfers_loop transfers subject1 [] = Normal mine2
        /\ Async.transfers_loop transfers subject2 [] = Normal yours2
        /\ (forall a, In a mine -> ~ In a yours)
        /\ (forall t, In t mine2 -> ~ In t yours2)).
Proof.
  intros H1 H2 _ _.
  rewrite (accounts_loop_filter accounts _ _ [] H1), (accounts_loop_filter accounts _ _ [] H2).
  rewrite (transfers_loop_filter transfers _ _ [] H1), (transfers_loop_filter transfers _ _ [] H2).
  cbn [app]. split.
  - intros ->. split; reflexivity.
  - intros Hne _ _. do 4 eexists. repeat (split; [reflexivity|]). split.
    + intros a Ha Hb. apply filter_In in Ha, Hb.
      destruct Ha as [_ Ha], Hb as [_ Hb]. apply owned_by_true in Ha, Hb. congruence.
    + intros t Ha Hb. apply filter_In in Ha, Hb.
      destruct Ha as [_ Ha], Hb as [_ Hb]. apply owned_by_true in Ha, Hb. congruence.
Qed.

Lemma selection_goes_by_conversion_witness :
  (Async.accounts_loop data.accounts (VNumber number_469863216813) []
   = Async.accounts_loop data.accounts (VArray [VString (lit "469863216813")]) []
   /\ Async.transfers_loop data.transfers (VNumber number_469863216813) []
      = Async.transfers_loop data.transfers (VArray [VString (lit "469863216813")]) [])
  /\ (exists mine yours mine2 yours2,
        Async.accounts_loop data.accounts (VString (lit "469863216813")) [] = Normal mine
        /\ Async.accounts_loop data.accounts (VString (lit "467745863242")) []
           = Normal yours
        /\ Async.transfers_loop data.transfers (VString (lit "469863216813")) []
           = Normal mine2
        /\ Async.transfers_loop data.transfers (VString (lit "467745863242")) []
           = Normal yours2
        /\ (forall a, In a mine -> ~ In a yours)
        /\ (forall t, In t mine2 -> ~ In t yours2)).
Proof.
  split.
  - apply (selection_goes_by_conversion data.accounts data.transfers
             (VNumber number_469863216813) (VArray [VString (lit "469863216813")])
             (lit "469863216813") (lit "469863216813")); reflexivity.
  - apply (selection_goes_by_conversion data.accounts data.transfers
             (VString (lit "469863216813")) (VString (lit "467745863242"))
             (lit "469863216813") (lit "467745863242")); try reflexivity.
    vm_compute. discriminate.
Defined.

(** A subject that is the number 469863216813, or the array of the one
    string, is served like the string. *)
Example number_subject_is_served :
  Async.accounts_loop data.accounts (VNumber number_469863216813) []
  = Normal [data.checking_577; data.savings_582; data.card_631]
  /\ JSON.parse (lit "469863216813") = Normal (VNumber number_469863216813).
Proof. split; vm_compute; reflexivity. Qed.

(** The two variants split a store between them: when the conversion of the
    subject is exact and the string it gives and the owners of the store are
    strings of ASCII digits and letters, the asynchronous loop selects the
    records the subject owns and the synchronous loop exactly the others. *)
Theorem variants_split_the_store (accounts : list Account.t) (transfers : list Transfer.t)
    (subject : value) (That : jsstring) :
  ToString subject = Normal That ->
  exact subject = true ->
  alphanumeric That = true ->
  alphanumeric_owners accounts ->
  alphanumeric_creditors transfers ->
  exists mine others mine2 others2,
    Async.accounts_loop accounts subject [] = Normal mine
    /\ Sync.accounts_loop accounts subject [] = Normal others
    /\ partition (fun a => owned_by That (Account.owner a)) accounts = (mine, others)
    /\ Async.transfers_loop transfers subject [] = Normal mine2
    /\ Sync.transfers_loop transfers subject [] = Normal others2
    /\ partition (fun t => owned_by That (Account.owner (Transfer.creditor t))) transfers
       = (mine2, others2)
    /\ (List.length mine + List.length others = List.length accounts)%nat
    /\ (forall a, In a accounts -> (In a mine <-> ~ In a others)).
Proof.
  intros HT _ _ _ _. do 4 eexists.
  rewrite (accounts_loop_filter _ _ _ _ HT), (sync_accounts_loop_filter _ _ _ _ HT).
  rewrite (transfers_loop_filter _ _ _ _ HT), (sync_transfers_loop_filter _ _ _ _ HT).
  cbn [app].
  split; [reflexivity|]. split; [reflexivity|].
  split; [apply partition_as_filter|].
  split; [reflexivity|]. split; [reflexivity|].
  split; [apply partition_as_filter|].
  split.
  - symmetry. apply (partition_length (fun a => owned_by That (Account.owner a))).
    apply partition_as_filter.
  - intros a Ha. rewrite !filter_In. unfold not_owned_by.
    destruct (owned_by That (Account.owner a)); cbn [negb]; split.
    + intros _ [_ H]. discriminate.
    + intros _. split; [exact Ha | reflexivity].
    + intros [_ H]. discriminate.
    + intros H. exfalso. apply H. split; [exact Ha | reflexivity].
Qed.

Lemma variants_split_the_store_witness :
  exists mine others mine2 others2,
    Async.accounts_loop data.accounts (VString (lit "469863216813")) [] = Normal mine
    /\ Sync.accounts_loop data.accounts (VString (lit "469863216813")) [] = Normal others
    /\ partition (fun a => owned_by (lit "469863216813") (Account.owner a)) data.accounts
       = (mine, others)
    /\ Async.transfers_loop data.transfers (VString (lit "469863216813")) [] = Normal mine2
    /\ Sync.transfers_loop data.transfers (VString (lit "469863216813")) [] = Normal others2
    /\ partition (fun t => owned_by (lit "469863216813")
                             (Account.owner (Transfer.creditor t)))
         data.transfers
       = (mine2, others2)
    /\ (List.length mine + List.length others = List.length data.accounts)%nat
    /\ (forall a, In a data.accounts -> (In a mine <-> ~ In a others)).
Proof.
  apply (variants_split_the_store data.accounts data.transfers
           (VString (lit "469863216813")) (lit "469863216813"));
    try reflexivity.
  - unfold alphanumeric_owners. repeat constructor.
  - unfold alphanumeric_creditors. repeat constructor.
Defined.

(** ** Subject resolution and the context *)

Lemma contextToSubject_shape (mode : Async.token_mode) (service : Async.endpoint)
    (ctx ctx' : Async.Context) :
  Async.contextToSubject mode service ctx = Normal ctx' ->
  exists s, ctx' = Async.set_subject ctx s.
Proof.
  unfold Async.contextToSubject.
  destruct (7 <? List.length (authorization_or_empty (Async.ctx_request ctx)))%nat.
  - destruct (Async.tokToSubject mode service _) as [s| | |]; cbn [bind]; try discriminate.
    intros H. injection H as <-. eauto.
  - intros H. injection H as <-. eauto.
Qed.

Lemma contextToSubject_same_request (mode : Async.token_mode) (service : Async.endpoint)
    (c1 c2 : Async.Context) (s : value) :
  Async.ctx_request c1 = Async.ctx_request c2 ->
  Async.contextToSubject mode service c1 = Normal (Async.set_subject c1 s) ->
  Async.contextToSubject mode service c2 = Normal (Async.set_subject c2 s).
Proof.
  unfold Async.contextToSubject. intros <-.
  destruct (7 <? List.length (authorization_or_empty (Async.ctx_request c1)))%nat.
  - destruct (Async.tokToSubject mode service _) as [v| | |]; cbn [bind]; try discriminate.
    intros H. inversion H. reflexivity.
  - intros H. inversion H. reflexivity.
Qed.

(** Subject resolution reads the request only.  When a call returns, its
    result keeps the request of the context and would have been the same
    whatever subject the context held before.  What any further call does,
    with its own token mode and its own answer of the token service, does
    not depend on the subject this call has left: on the resolved context it
    does what it does on the original one, for subject resolution and for
    both resolvers.  With fake tokens, where no request is made, resolving
    again gives the same context again. *)
Theorem resolution_reads_the_request_only (mode : Async.token_mode)
    (service : Async.endpoint) (ctx ctx' : Async.Context) :
  Async.contextToSubject mode service ctx = Normal ctx' ->
  Async.ctx_request ctx' = Async.ctx_request ctx
  /\ (forall earlier,
        Async.contextToSubject mode service (Async.set_subject ctx earlier) = Normal ctx')
  /\ (forall mode' service',
        Async.contextToSubject mode' service' ctx'
        = Async.contextToSubject mode' service' ctx
        /\ Async.accounts mode' service' ctx' = Async.accounts mode' service' ctx
        /\ Async.transfers mode' service' ctx' = Async.transfers mode' service' ctx)
  /\ (mode = Async.Alternative2 ->
      forall service',
        Async.contextToSubject Async.Alternative2 service' ctx' = Normal ctx').
Proof.
  intros H. destruct (contextToSubject_shape _ _ _ _ H) as [s ->].
  assert (Hsame : forall mode' service',
             Async.contextToSubject mode' service' (Async.set_subject ctx s)
             = Async.contextToSubject mode' service' ctx).
  { intros mode' service'. unfold Async.contextToSubject.
    cbn [Async.set_subject Async.ctx_request]. reflexivity. }
  split; [reflexivity|]. split; [|split].
  - intros earlier.
    apply (contextToSubject_same_request mode service ctx (Async.set_subject ctx earlier) s
             eq_refl H).
  - intros mode' service'. unfold Async.accounts, Async.transfers.
    rewrite Hsame. repeat split.
  - intros -> service'. rewrite Hsame. rewrite <- H.
    unfold Async.contextToSubject. cbn [Async.tokToSubject]. reflexivity.
Qed.

Lemma resolution_reads_the_request_only_witness :
  Async.ctx_request
    (Async.mkContext (mkRequest (Some (lit "Bearer " ++ fake_token_469863216813)))
       (VString (lit "469863216813")))
  = Async.ctx_request
      (Async.server_context (mkRequest (Some (lit "Bearer " ++ fake_token_469863216813))))
  /\ (forall earlier,
        Async.contextToSubject Async.Alternative2 silent
          (Async.set_subject
             (Async.server_context
                (mkRequest (Some (lit "Bearer " ++ fake_token_469863216813))))
             earlier)
        = Normal
            (Async.mkContext (mkRequest (Some (lit "Bearer " ++ fake_token_469863216813)))
               (VString (lit "469863216813"))))
  /\ (forall mode' service',
        Async.contextToSubject mode' service'
          (Async.mkContext (mkRequest (Some (lit "Bearer " ++ fake_token_469863216813)))
             (VString (lit "469863216813")))
        = Async.contextToSubject mode' service'
            (Async.server_context
               (mkRequest (Some (lit "Bearer " ++ fake_token_469863216813))))
        /\ Async.accounts mode' service'
             (Async.mkContext (mkRequest (Some (lit "Bearer " ++ fake_token_469863216813)))
                (VString (lit "469863216813")))
           = Async.accounts mode' service'
               (Async.server_context
                  (mkRequest (Some (lit "Bearer " ++ fake_token_469863216813))))
        /\ Async.transfers mode' service'
             (Async.mkContext (mkRequest (Some (lit "Bearer " ++ fake_token_469863216813)))
                (VString (lit "469863216813")))
           = Async.transfers mode' service'
               (Async.server_context
                  (mkRequest (Some (lit "Bearer " ++ fake_token_469863216813)))))
  /\ (Async.Alternative2 = Async.Alternative2 ->
      forall service',
        Async.contextToSubject Async.Alternative2 service'
          (Async.mkContext (mkRequest (Some (lit "Bearer " ++ fake_token_469863216813)))
             (VString (lit "469863216813")))
        = Normal
            (Async.mkContext (mkRequest (Some (lit "Bearer " ++ fake_token_469863216813)))
               (VString (lit "469863216813")))).
Proof.
  apply (resolution_reads_the_request_only Async.Alternative2 silent
           (Async.server_context
              (mkRequest (Some (lit "Bearer " ++ fake_token_469863216813))))).
  vm_compute. reflexivity.
Defined.

(** The first 7 characters of the Authorization value are dropped unread:
    whatever they are, what follows them is resolved as the token, in both
    variants. *)
Theorem scheme_is_never_read (mode : Async.token_mode) (service : Async.endpoint)
    (scheme tok : jsstring) :
  List.length scheme = 7%nat ->
  tok <> [] ->
  Async.contextToSubject mode service
    (Async.server_context (mkRequest (Some (scheme ++ tok))))
  = (s <- Async.tokToSubject mode service tok ;;
     Normal (Async.mkContext (mkRequest (Some (scheme ++ tok))) s))
  /\ Sync.reqToSubject (mkRequest (Some (scheme ++ tok))) = Sync.tokToSubject tok.
Proof.
  intros Hlen Hne.
  assert (Hheader : authorization_or_empty (mkRequest (Some (scheme ++ tok))) = scheme ++ tok).
  { apply authorization_present. reflexivity. }
  assert (Hlong : (7 < List.length (scheme ++ tok))%nat).
  { rewrite length_app, Hlen. destruct tok; [congruence | simpl; lia]. }
  assert (Hskip : skipn 7 (scheme ++ tok) = tok).
  { rewrite <- Hlen, skipn_app, skipn_all, Nat.sub_diag. reflexivity. }
  split.
  - rewrite contextToSubject_long.
    + cbn [Async.server_context Async.ctx_request]. rewrite Hheader, Hskip. reflexivity.
    + cbn [Async.server_context Async.ctx_request]. rewrite Hheader. exact Hlong.
  - unfold Sync.reqToSubject. rewrite Hheader.
    apply Nat.ltb_lt in Hlong. rewrite Hlong.
    change 7%Z with (Z.of_nat 7). rewrite substring_from_skipn, Hskip. reflexivity.
Qed.

Lemma scheme_is_never_read_witness :
  Async.contextToSubject Async.Alternative2 silent
    (Async.server_context (mkRequest (Some (lit "Digest " ++ fake_token_469863216813))))
  = (s <- Async.tokToSubject Async.Alternative2 silent fake_token_469863216813 ;;
     Normal (Async.mkContext
               (mkRequest (Some (lit "Digest " ++ fake_token_469863216813))) s))
  /\ Sync.reqToSubject (mkRequest (Some (lit "Digest " ++ fake_token_469863216813)))
     = Sync.tokToSubject fake_token_469863216813.
Proof.
  apply (scheme_is_never_read Async.Alternative2 silent (lit "Digest ")
           fake_token_469863216813).
  - reflexivity.
  - discriminate.
Defined.

(** On an Authorization value of more than 7 characters the two variants
    resolve alike as long as the synchronous one returns: the asynchronous
    one, with fake tokens, puts the same subject in the context; where the
    synchronous one throws, the asynchronous one puts "Fake token failure". *)
Theorem variants_resolve_alike (service : Async.endpoint) (req : request) :
  (7 < List.length (authorization_or_empty req))%nat ->
  (forall v, Sync.reqToSubject req = Normal v ->
             Async.contextToSubject Async.Alternative2 service (Async.server_context req)
             = Normal (Async.mkContext req v))
  /\ (forall e, Sync.reqToSubject req = Throw e ->
                Async.contextToSubject Async.Alternative2 service (Async.server_context req)
                = Normal (Async.mkContext req (VString (lit "Fake token failure")))).
Proof.
  intros Hlong.
  rewrite (contextToSubject_long Async.Alternative2 service (Async.server_context req))
    by exact Hlong.
  cbn [Async.server_context Async.ctx_request Async.tokToSubject].
  unfold Sync.reqToSubject. apply Nat.ltb_lt in Hlong. rewrite Hlong.
  change 7%Z with (Z.of_nat 7). rewrite substring_from_skipn.
  unfold Sync.tokToSubject, Async.tokToSubjectFakeToks.
  set (c := ojedTok <- JSON.parse _ ;; Get ojedTok (lit "subject")).
  split.
  - intros v ->. reflexivity.
  - intros e ->. reflexivity.
Qed.

Lemma variants_resolve_alike_witness :
  Async.contextToSubject Async.Alternative2 silent
    (Async.server_context (mkRequest (Some (lit "Bearer bnVsbA=="))))
  = Normal (Async.mkContext (mkRequest (Some (lit "Bearer bnVsbA==")))
              (VString (lit "Fake token failure"))).
Proof.
  apply (variants_resolve_alike silent (mkRequest (Some (lit "Bearer bnVsbA=="))))
    with (e := TypeError).
  - simpl. lia.
  - vm_compute. reflexivity.
Defined.

(** ** The promise of the introspection call *)

Lemma response_listeners_data (chunks frags : list Buffer.buffer)
    (later : list Async.response_event) :
  Async.response_listeners chunks (List.map Async.on_data frags ++ later)
  = Async.response_listeners (chunks ++ frags) later.
Proof.
  revert chunks; induction frags as [|f frags IH]; intros chunks.
  - now rewrite app_nil_r.
  - cbn [List.map app Async.response_listeners]. rewrite IH, <- app_assoc. reflexivity.
Qed.

(** The promise of getPingFedPromise settles at the first end or error of
    the response and ignores every later event; it resolves to the text of
    the bytes of all fragments received until then, read as one buffer, so
    that the way the response is cut into fragments does not matter; it is
    rejected with the error of the response; and with fragments only, it
    stays pending. *)
Theorem promise_settles_once (service : Async.endpoint) (tok : jsstring)
    (frags : list Buffer.buffer) (later : list Async.response_event) :
  (service (introspection_body tok)
   = Async.response (List.map Async.on_data frags ++ Async.on_end :: later) ->
   Async.getPingFedPromise service tok = Normal (Buffer.toString (List.concat frags))
   /\ forall service' frags' later',
        service' (introspection_body tok)
        = Async.response (List.map Async.on_data frags' ++ Async.on_end :: later') ->
        List.concat frags' = List.concat frags ->
        Async.getPingFedPromise service' tok = Async.getPingFedPromise service tok)
  /\ (forall e,
        service (introspection_body tok)
        = Async.response (List.map Async.on_data frags ++ Async.on_error e :: later) ->
        Async.getPingFedPromise service tok = Throw e)
  /\ (service (introspection_body tok) = Async.response (List.map Async.on_data frags) ->
      Async.getPingFedPromise service tok = Pending).
Proof.
  assert (Hend : forall service0 frags0 later0,
             service0 (introspection_body tok)
             = Async.response (List.map Async.on_data frags0 ++ Async.on_end :: later0) ->
             Async.getPingFedPromise service0 tok
             = Normal (Buffer.toString (List.concat frags0))).
  { intros service0 frags0 later0 H. unfold Async.getPingFedPromise.
    change (lit "token=" ++ tok ++ lit "&client_id=" ++ lit "graphql_client")
      with (introspection_body tok).
    rewrite H, response_listeners_data. reflexivity. }
  split; [|split].
  - intros H. split; [exact (Hend _ _ _ H)|].
    intros service' frags' later' H' Hsame.
    rewrite (Hend _ _ _ H), (Hend _ _ _ H'), Hsame. reflexivity.
  - intros e H. unfold Async.getPingFedPromise.
    change (lit "token=" ++ tok ++ lit "&client_id=" ++ lit "graphql_client")
      with (introspection_body tok).
    rewrite H, response_listeners_data. reflexivity.
  - intros H. unfold Async.getPingFedPromise.
    change (lit "token=" ++ tok ++ lit "&client_id=" ++ lit "graphql_client")
      with (introspection_body tok).
    rewrite H. rewrite <- (app_nil_r (List.map Async.on_data frags)).
    rewrite response_listeners_data. reflexivity.
Qed.

(** A character cut in two by the fragmentation is read whole: the three
    bytes of the euro sign, the first in one fragment and the others in the
    next, are one character of the body, where each fragment read for itself
    would give replacement characters. *)
Example fragments_are_joined_before_reading :
  Async.getPingFedPromise
    (fun _ => Async.response
                [Async.on_data [226; 130]%N; Async.on_data [172]%N; Async.on_end;
                 Async.on_data [33]%N; Async.on_error (HttpError (lit "late"))])
    (lit "anything")
  = Normal [8364%N]
  /\ Buffer.toString [226; 130]%N ++ Buffer.toString [172]%N = [65533; 65533]%N.
Proof. split; vm_compute; reflexivity. Qed.

(** ** What the introspection strategy returns *)

Lemma first_occurrence (c : N) (u : jsstring) :
  In c u -> exists l r, u = l ++ c :: r /\ ~ In c l.
Proof.
  induction u as [|x u IH]; [intros []|].
  intros Hin. destruct (N.eq_dec x c) as [->|Hne].
  - exists [], u. split; [reflexivity | intros []].
  - destruct Hin as [E|Hin]; [contradiction|].
    destruct (IH Hin) as (l & r & -> & Hnot).
    exists (x :: l), r. split; [reflexivity|].
    intros [E|Hl]; [contradiction | exact (Hnot Hl)].
Qed.

Lemma local_part_cases (u : jsstring) :
  (~ In 64%N u /\ substring u 0 (indexOf u 64) = [])
  \/ (exists l r, u = l ++ 64%N :: r /\ ~ In 64%N l /\ substring u 0 (indexOf u 64) = l).
Proof.
  destruct (in_dec N.eq_dec 64%N u) as [Hin|Hnot].
  - right. destruct (first_occurrence _ _ Hin) as (l & r & -> & Hnot).
    exists l, r. split; [reflexivity|]. split; [exact Hnot|].
    pose proof (before_at_local_part l r Hnot) as H. unfold Async.before_at in H.
    now injection H.
  - left. split; [exact Hnot|].
    pose proof (before_at_without_at u Hnot) as H. unfold Async.before_at in H.
    now injection H.
Qed.

Lemma local_part_has_no_at (u : jsstring) : ~ In 64%N (substring u 0 (indexOf u 64)).
Proof.
  destruct (local_part_cases u) as [[_ ->]|(l & r & _ & Hnot & ->)]; [intros []|exact Hnot].
Qed.

Lemma introspection_gives_a_string (service : Async.endpoint) (tok : jsstring) :
  match Async.tokToSubjectIntrospection service tok with
  | Normal v => exists s, v = VString s /\ ~ In 64%N s
  | Throw _ => False
  | Pending => exists events, service (introspection_body tok) = Async.response events
  | Uncaught e => service (introspection_body tok) = Async.request_error e
  end.
Proof.
  assert (Hsentinel : forall s, s = lit "Introspection failed" \/ s = lit "not authenticated" ->
                                exists s', VString s = VString s' /\ ~ In 64%N s').
  { intros s Hs. exists s. split; [reflexivity|].
    destruct Hs as [-> | ->]; vm_compute; intuition discriminate. }
  rewrite tokToSubjectIntrospection_paths. unfold Async.getPingFedPromise.
  change (lit "token=" ++ tok ++ lit "&client_id=" ++ lit "graphql_client")
    with (introspection_body tok).
  destruct (service (introspection_body tok)) as [e|events]; [reflexivity|].
  destruct (Async.response_listeners [] events) as [body|e| |e] eqn:Hl.
  - destruct (JSON.parse body) as [v|e| |e]; try (apply Hsentinel; now left).
    destruct (Get v (lit "active")) as [a|e| |e]; try (apply Hsentinel; now left).
    destruct (ToBoolean a); [|apply Hsentinel; now right].
    destruct (Get v (lit "Username")) as [u|e| |e]; try (apply Hsentinel; now left).
    destruct u; try (apply Hsentinel; now left).
    eexists. split; [reflexivity | apply local_part_has_no_at].
  - apply Hsentinel; now left.
  - eauto.
  - exfalso. clear - Hl. generalize dependent (@nil Buffer.buffer).
    induction events as [|[f| |e'] events IH]; intros chunks Hl;
      cbn [Async.response_listeners] in Hl; try discriminate. eapply IH, Hl.
Qed.

(** The introspection strategy never throws, and what it returns is always
    a string without at sign (a sentinel or the part of Username before the
    first at sign); so with introspection selected the resolvers never throw:
    the conversion of the subject cannot fail. *)
Theorem introspection_subject_is_a_string (service : Async.endpoint) (tok : jsstring)
    (ctx : Async.Context) :
  (forall e, Async.tokToSubjectIntrospection service tok <> Throw e)
  /\ (forall v, Async.tokToSubjectIntrospection service tok = Normal v ->
                exists s, v = VString s /\ ~ In 64%N s)
  /\ (forall e, Async.accounts Async.Alternative1 service ctx <> Throw e)
  /\ (forall e, Async.transfers Async.Alternative1 service ctx <> Throw e).
Proof.
  assert (Hctx : match Async.contextToSubject Async.Alternative1 service ctx with
                 | Normal c => exists s, Async.subject c = VString s
                 | Throw _ => False
                 | _ => True
                 end).
  { unfold Async.contextToSubject.
    destruct (7 <? List.length (authorization_or_empty (Async.ctx_request ctx)))%nat.
    - cbn [Async.tokToSubject].
      pose proof (introspection_gives_a_string service
                    (substring_from (authorization_or_empty (Async.ctx_request ctx)) 7)) as H.
      destruct (Async.tokToSubjectIntrospection service _) as [v|e| |e]; cbn [bind];
        [|exact H|exact I|exact I].
      destruct H as (s & -> & _). cbn [Async.set_subject Async.subject]. eauto.
    - cbn [Async.set_subject Async.subject]. eauto. }
  split; [|split; [|split]].
  - intros e H. pose proof (introspection_gives_a_string service tok) as G.
    now rewrite H in G.
  - intros v H. pose proof (introspection_gives_a_string service tok) as G.
    now rewrite H in G.
  - intros e. unfold Async.accounts.
    destruct (Async.contextToSubject Async.Alternative1 service ctx) as [c|e'| |e'];
      cbn [bind]; try discriminate; try contradiction.
    destruct Hctx as [s Hs]. rewrite Hs. cbn [ToString bind].
    rewrite (accounts_loop_filter _ (VString s) s [] eq_refl). discriminate.
  - intros e. unfold Async.transfers.
    destruct (Async.contextToSubject Async.Alternative1 service ctx) as [c|e'| |e'];
      cbn [bind]; try discriminate; try contradiction.
    destruct Hctx as [s Hs]. rewrite Hs. cbn [ToString bind].
    rewrite (transfers_loop_filter _ (VString s) s [] eq_refl). discriminate.
Qed.

(** An answer with a truthy active member (true, a non-empty string, an
    array, an object, or a number other than zero that the rounding to a
    double leaves other than zero) and a Username that is a string without
    at sign gives the empty string as subject (indexOf is -1 and
    substring(0, -1) is empty); a Username that is missing or is no string
    gives "Introspection failed", through the handler. *)
Theorem introspection_username_edge_cases (service : Async.endpoint) (tok body : jsstring)
    (props : list (jsstring * value)) (active : value) :
  Async.getPingFedPromise service tok = Normal body ->
  JSON.parse body = Normal (VObject props) ->
  lookup (lit "active") props = Some active ->
  exact active = true ->
  ToBoolean active = true ->
  (forall u, lookup (lit "Username") props = Some (VString u) -> ~ In 64%N u ->
             Async.tokToSubjectIntrospection service tok = Normal (VString []))
  /\ (forall w, lookup (lit "Username") props = Some w -> (forall u, w <> VString u) ->
                Async.tokToSubjectIntrospection service tok
                = Normal (VString (lit "Introspection failed")))
  /\ (lookup (lit "Username") props = None ->
      Async.tokToSubjectIntrospection service tok
      = Normal (VString (lit "Introspection failed"))).
Proof.
  intros Hcall Hparse Hactive _ Htruthy.
  rewrite tokToSubjectIntrospection_paths, Hcall, Hparse.
  cbn [Get]. rewrite Hactive, Htruthy.
  split; [|split].
  - intros u -> Hnot. destruct (local_part_cases u) as [[_ ->]|(l & r & -> & _)].
    + reflexivity.
    + exfalso. apply Hnot, in_elt.
  - intros w -> Hw. destruct w; try reflexivity. exfalso. now apply (Hw s).
  - intros ->. reflexivity.
Qed.

Lemma introspection_username_edge_cases_witness :
  Async.tokToSubjectIntrospection
    (answering (lit "{" ++ quoted (lit "active") ++ lit ": true, "
                  ++ quoted (lit "Username") ++ lit ": " ++ quoted (lit "abc") ++ lit "}"))
    (lit "anything")
  = Normal (VString [])
  /\ Async.tokToSubjectIntrospection
       (answering (lit "{" ++ quoted (lit "active") ++ lit ": 1, "
                     ++ quoted (lit "Username") ++ lit ": 7}"))
       (lit "anything")
     = Normal (VString (lit "Introspection failed")).
Proof.
  split.
  - apply (introspection_username_edge_cases
             (answering (lit "{" ++ quoted (lit "active") ++ lit ": true, "
                           ++ quoted (lit "Username") ++ lit ": " ++ quoted (lit "abc")
                           ++ lit "}"))
             (lit "anything")
             (lit "{" ++ quoted (lit "active") ++ lit ": true, "
                ++ quoted (lit "Username") ++ lit ": " ++ quoted (lit "abc") ++ lit "}")
             [(lit "active", VBool true); (lit "Username", VString (lit "abc"))]
             (VBool true))
      with (u := lit "abc");
      try (vm_compute; reflexivity).
    vm_compute. intuition discriminate.
  - apply (introspection_username_edge_cases
             (answering (lit "{" ++ quoted (lit "active") ++ lit ": 1, "
                           ++ quoted (lit "Username") ++ lit ": 7}"))
             (lit "anything")
             (lit "{" ++ quoted (lit "active") ++ lit ": 1, "
                ++ quoted (lit "Username") ++ lit ": 7}")
             [(lit "active", VNumber (mkNumber false [1%N] 1));
              (lit "Username", VNumber (mkNumber false [7%N] 1))]
             (VNumber (mkNumber false [1%N] 1)))
      with (w := VNumber (mkNumber false [7%N] 1));
      try (vm_compute; reflexivity).
    discriminate.
Defined.

(** An answer that is the JSON text null gives "Introspection failed" (the
    read of its active member throws); any other answer without a truthy
    active member gives "not authenticated": a number, a string, a boolean,
    an array, an object without active member or with one that is false, 0,
    the empty string or null. *)
Theorem introspection_answer_without_active (service : Async.endpoint)
    (tok body : jsstring) (v : value) :
  Async.getPingFedPromise service tok = Normal body ->
  JSON.parse body = Normal v ->
  (v = VNull ->
     Async.tokToSubjectIntrospection service tok
     = Normal (VString (lit "Introspection failed")))
  /\ (v <> VNull -> v <> VUndefined ->
      (forall props active, v = VObject props ->
                            lookup (lit "active") props = Some active ->
                            ToBoolean active = false) ->
      Async.tokToSubjectIntrospection service tok
      = Normal (VString (lit "not authenticated"))).
Proof.
  intros Hcall Hparse.
  rewrite tokToSubjectIntrospection_paths, Hcall, Hparse.
  split.
  - intros ->. reflexivity.
  - intros Hnull Hundef Hfalsy.
    destruct v as [| |b|n|s|elems|props]; try congruence; try reflexivity.
    cbn [Get]. destruct (lookup (lit "active") props) as [a|] eqn:E; [|reflexivity].
    now rewrite (Hfalsy props a eq_refl E).
Qed.

Lemma introspection_answer_without_active_witness :
  Async.tokToSubjectIntrospection (answering (lit "null")) (lit "anything")
  = Normal (VString (lit "Introspection failed"))
  /\ Async.tokToSubjectIntrospection (answering (lit "[true]")) (lit "anything")
     = Normal (VString (lit "not authenticated")).
Proof.
  split.
  - apply (introspection_answer_without_active (answering (lit "null")) (lit "anything")
             (lit "null") VNull); reflexivity.
  - apply (introspection_answer_without_active (answering (lit "[true]")) (lit "anything")
             (lit "[true]") (VArray [VBool true]));
      try (vm_compute; reflexivity); discriminate.
Defined.

(** ** Outcomes of the resolvers with fake tokens *)

Lemma join_with_throws (elem : value -> completion jsstring) (l : list value) (e0 : error) :
  Forall (fun x => forall e, elem x = Throw e -> e = e0) l ->
  forall e, join_with elem l = Throw e -> e = e0.
Proof.
  induction 1 as [|x rest Hx _ IH]; [discriminate|].
  cbn [join_with]. destruct rest as [|y rest']; [exact Hx|].
  intros e. destruct (elem x) as [s|e1| |e1] eqn:Ex; cbn [bind]; try discriminate.
  - destruct (join_with elem (y :: rest')) as [r|e2| |e2]; cbn [bind]; try discriminate.
    intros H. apply IH. exact H.
  - intros H. apply Hx. exact H.
Qed.

(** The only exception of ToString is the TypeError. *)
Lemma ToString_throws_TypeError (v : value) (e : error) :
  ToString v = Throw e -> e = TypeError.
Proof.
  revert v e. fix IH 1. intros [| |[|]|n|s|elems|props] e; try discriminate.
  - cbn [ToString]. apply join_with_throws.
    induction elems as [|x rest IHl]; constructor; [|exact IHl].
    pose proof (IH x) as Hx. destruct x; try discriminate; exact Hx.
  - cbn [ToString]. destruct (lookup (lit "toString") props); [|discriminate].
    intros H. injection H as <-. reflexivity.
Qed.

(** With fake tokens selected, every call of a resolver comes back, whatever
    the request holds: subject resolution returns a subject, and then either
    the subject converts to a string and both resolvers return records of
    the store with the resolved context, or its conversion throws a
    TypeError and both resolvers throw it; nothing else is thrown and nothing
    stays pending.  When the conversion is exact and gives a string of ASCII
    digits and letters, the records returned are those owned by that string,
    in store order. *)
Theorem fake_token_resolvers_outcome (service : Async.endpoint) (ctx : Async.Context) :
  exists s,
    Async.contextToSubject Async.Alternative2 service ctx
    = Normal (Async.set_subject ctx s)
    /\ ((exists That output output2,
           ToString s = Normal That
           /\ Async.accounts Async.Alternative2 service ctx
              = Normal (Async.set_subject ctx s, output)
           /\ Async.transfers Async.Alternative2 service ctx
              = Normal (Async.set_subject ctx s, output2)
           /\ (forall a, In a output -> In a data.accounts)
           /\ (forall t, In t output2 -> In t data.transfers)
           /\ (exact s = true -> alphanumeric That = true ->
               output = filter (fun a => owned_by That (Account.owner a)) data.accounts
               /\ output2
                  = filter (fun t => owned_by That (Account.owner (Transfer.creditor t)))
                      data.transfers))
        \/ (ToString s = Throw TypeError
            /\ Async.accounts Async.Alternative2 service ctx = Throw TypeError
            /\ Async.transfers Async.Alternative2 service ctx = Throw TypeError)).
Proof.
  destruct (contextToSubject_fake_returns service ctx) as [ctx' H].
  destruct (contextToSubject_shape _ _ _ _ H) as [s ->].
  exists s. split; [exact H|].
  unfold Async.accounts, Async.transfers. rewrite H. cbn [bind Async.set_subject Async.subject].
  pose proof (ToString_comes_back s) as Hback.
  destruct (ToString s) as [That|e| |e] eqn:HT; try contradiction.
  - left. exists That. cbn [bind].
    rewrite (accounts_loop_filter _ _ _ _ HT), (transfers_loop_filter _ _ _ _ HT).
    cbn [bind app]. do 2 eexists.
    split; [reflexivity|]. split; [reflexivity|]. split; [reflexivity|].
    split; [intros a Ha; apply filter_In in Ha; tauto|].
    split; [intros t Ht; apply filter_In in Ht; tauto|].
    intros _ _. split; reflexivity.
  - right. rewrite (ToString_throws_TypeError s e HT). repeat split.
Qed.

(** ** The sample store *)

Lemma transfers_within_one_owner :
  Forall (fun t => In (Transfer.creditor t) data.accounts
                   /\ In (Transfer.debitor t) data.accounts
                   /\ Account.owner (Transfer.debitor t)
                      = Account.owner (Transfer.creditor t))
    data.transfers.
Proof.
  repeat constructor; cbn [data.accounts In Transfer.creditor Transfer.debitor
                             data.transfer_feb21 data.transfer_feb20]; tauto.
Qed.

(** Over the sample data, when the two resolvers, each with its own call of
    the token service, return for the same request with the same subject,
    every transfer returned has both of its legs among the accounts
    returned: a requester sees no transfer that involves an account the
    accounts query keeps from them, although the debitor leg is never
    tested.  With fake tokens the two subjects are always the same. *)
Theorem returned_transfers_stay_within_returned_accounts (mode : Async.token_mode)
    (service1 service2 : Async.endpoint) (ctx c1 c2 : Async.Context)
    (output : list Account.t) (output2 : list Transfer.t) :
  Async.accounts mode service1 ctx = Normal (c1, output) ->
  Async.transfers mode service2 ctx = Normal (c2, output2) ->
  (mode = Async.Alternative2 -> c1 = c2)
  /\ (Async.subject c1 = Async.subject c2 ->
      forall t, In t output2 ->
                In (Transfer.creditor t) output /\ In (Transfer.debitor t) output).
Proof.
  unfold Async.accounts, Async.transfers.
  destruct (Async.contextToSubject mode service1 ctx) as [k1| | |] eqn:Hk1;
    cbn [bind]; try discriminate.
  destruct (Async.contextToSubject mode service2 ctx) as [k2| | |] eqn:Hk2;
    cbn [bind]; try discriminate.
  destruct (ToString (Async.subject k1)) as [That1| | |] eqn:HT1; cbn [bind]; try discriminate.
  destruct (ToString (Async.subject k2)) as [That2| | |] eqn:HT2; cbn [bind]; try discriminate.
  rewrite (accounts_loop_filter _ _ _ _ HT1), (transfers_loop_filter _ _ _ _ HT2).
  set (sel := filter _ data.accounts). set (sel2 := filter _ data.transfers).
  cbn [bind app]. intros H1 H2.
  assert (E1 : k1 = c1) by congruence. assert (E2 : k2 = c2) by congruence.
  assert (Eo : sel = output) by congruence. assert (Eo2 : sel2 = output2) by congruence.
  subst c1 c2 output output2 sel sel2. split.
  - intros ->. unfold Async.contextToSubject in Hk1, Hk2.
    cbn [Async.tokToSubject] in Hk1, Hk2. congruence.
  - intros Hsubject t Ht.
    assert (E : That1 = That2) by (rewrite Hsubject in HT1; congruence). subst That2.
    apply filter_In in Ht. destruct Ht as [Hin Hown].
    pose proof transfers_within_one_owner as Hdata.
    rewrite Forall_forall in Hdata. destruct (Hdata t Hin) as (Hc & Hd & Hsame).
    rewrite !filter_In, Hsame. tauto.
Qed.

Lemma returned_transfers_stay_within_returned_accounts_witness :
  (Async.Alternative1 = Async.Alternative2 ->
   Async.mkContext (mkRequest (Some (lit "Bearer 0123456789abcdef")))
     (VString (lit "469863216813"))
   = Async.mkContext (mkRequest (Some (lit "Bearer 0123456789abcdef")))
       (VString (lit "469863216813")))
  /\ (Async.subject
        (Async.mkContext (mkRequest (Some (lit "Bearer 0123456789abcdef")))
           (VString (lit "469863216813")))
      = Async.subject
          (Async.mkContext (mkRequest (Some (lit "Bearer 0123456789abcdef")))
             (VString (lit "469863216813"))) ->
      forall t, In t [data.transfer_feb21] ->
                In (Transfer.creditor t) [data.checking_577; data.savings_582; data.card_631]
                /\ In (Transfer.debitor t)
                     [data.checking_577; data.savings_582; data.card_631]).
Proof.
  apply (returned_transfers_stay_within_returned_accounts Async.Alternative1
           (answering response_active_owner)
           (fun _ => Async.response
                       [Async.on_data (firstn 20 response_active_owner);
                        Async.on_data (skipn 20 response_active_owner); Async.on_end])
           (Async.server_context (mkRequest (Some (lit "Bearer 0123456789abcdef")))));
    vm_compute; reflexivity.
Defined.

(** ** The length announced for the introspection request *)

Lemma ascii_is_written_as_it_is (s : jsstring) : beyond_ascii s = [] -> utf8_encode s = s.
Proof.
  unfold beyond_ascii. induction s as [|c s IH]; [reflexivity|].
  cbn [filter]. destruct (N.leb_spec 128 c) as [Hc|Hc]; [discriminate|].
  intros H. cbn [utf8_encode]. unfold is_high_surrogate, is_low_surrogate, utf8_of_code_point.
  repeat decide_test. cbn [andb app]. now rewrite IH.
Qed.

Lemma utf8_of_code_point_length (cp : N) :
  ((if (cp <? 128)%N then 1 else 2) <= List.length (utf8_of_code_point cp))%nat
  /\ ((65536 <= cp)%N -> List.length (utf8_of_code_point cp) = 4%nat).
Proof.
  unfold utf8_of_code_point.
  destruct (N.ltb_spec cp 128); [split; [cbn; lia | lia]|].
  destruct (N.ltb_spec cp 2048); [split; [cbn; lia | lia]|].
  destruct (N.ltb_spec cp 65536); split; cbn; lia.
Qed.

Lemma utf8_encode_length (s : jsstring) :
  (List.length s + List.length (beyond_ascii s) <= List.length (utf8_encode s))%nat.
Proof.
  assert (H : forall n s, (List.length s <= n)%nat ->
              (List.length s + List.length (beyond_ascii s)
               <= List.length (utf8_encode s))%nat).
  { unfold beyond_ascii.
    induction n as [|n IH]; intros [|c rest] Hlen; cbn [List.length] in Hlen;
      try (cbn; lia).
    apply le_S_n in Hlen. cbn [utf8_encode filter].
    destruct (is_high_surrogate c) eqn:Hh.
    - unfold is_high_surrogate in Hh. apply andb_true_iff in Hh.
      destruct Hh as [Hh1 Hh2]. apply N.leb_le in Hh1, Hh2.
      destruct (N.leb_spec 128 c) as [_|Hc]; [|lia].
      destruct rest as [|d rest']; [cbn; lia|].
      destruct (is_low_surrogate d) eqn:Hl.
      + unfold is_low_surrogate in Hl. apply andb_true_iff in Hl.
        destruct Hl as [Hl1 Hl2]. apply N.leb_le in Hl1, Hl2.
        cbn [filter]. destruct (N.leb_spec 128 d) as [_|Hd]; [|lia].
        rewrite length_app.
        rewrite (proj2 (utf8_of_code_point_length _)) by lia.
        cbn [List.length] in *. specialize (IH rest'). lia.
      + rewrite length_app. specialize (IH (d :: rest') Hlen).
        cbn [List.length filter] in *. lia.
    - destruct (is_low_surrogate c) eqn:Hl.
      + unfold is_low_surrogate in Hl. apply andb_true_iff in Hl.
        destruct Hl as [Hl1 Hl2]. apply N.leb_le in Hl1, Hl2.
        destruct (N.leb_spec 128 c) as [_|Hc]; [|lia].
        rewrite length_app. specialize (IH rest Hlen). cbn [List.length] in *. lia.
      + rewrite length_app. specialize (IH rest Hlen).
        pose proof (proj1 (utf8_of_code_point_length c)) as Hcp.
        destruct (N.leb_spec 128 c) as [Hc|Hc].
        * destruct (N.ltb_spec c 128); [lia|]. cbn [List.length] in *. lia.
        * destruct (N.ltb_spec c 128); [|lia]. cbn [List.length] in *. lia. }
  now apply (H (List.length s)).
Qed.

Lemma beyond_ascii_body (tok : jsstring) :
  beyond_ascii (introspection_body tok) = beyond_ascii tok.
Proof.
  unfold introspection_body, beyond_ascii. rewrite !filter_app.
  change (filter (fun c => (128 <=? c)%N) (lit "token=")) with (@nil N).
  change (filter (fun c => (128 <=? c)%N) (lit "&client_id=")) with (@nil N).
  change (filter (fun c => (128 <=? c)%N) (lit "graphql_client")) with (@nil N).
  cbn [app]. apply app_nil_r.
Qed.

(** The Content-Length header of the introspection request is the length of
    the body in code units, the body is written in UTF-8: for a token of
    ASCII characters the bytes written are the code units and the header
    announces their number; for any other token the header announces fewer
    bytes than are written, at least one fewer for each code unit that is
    not ASCII. *)
Theorem content_length_counts_code_units (tok : jsstring) :
  (beyond_ascii tok = [] ->
     written_bytes tok = introspection_body tok
     /\ content_length tok = List.length (written_bytes tok))
  /\ (content_length tok + List.length (beyond_ascii tok)
      <= List.length (written_bytes tok))%nat
  /\ (beyond_ascii tok <> [] ->
      (content_length tok < List.length (written_bytes tok))%nat).
Proof.
  unfold content_length, written_bytes.
  pose proof (utf8_encode_length (introspection_body tok)) as Hlen.
  rewrite beyond_ascii_body in Hlen.
  split; [|split].
  - intros Hascii.
    assert (E : utf8_encode (introspection_body tok) = introspection_body tok).
    { apply ascii_is_written_as_it_is. now rewrite beyond_ascii_body. }
    now rewrite E.
  - exact Hlen.
  - intros Hne. destruct (beyond_ascii tok); [congruence|]. cbn [List.length] in Hlen. lia.
Qed.

(** For a token that holds an e with acute accent, the header announces 32
    bytes and 33 are written. *)
Example content_length_short_by_one :
  content_length [233%N] = 32%nat /\ List.length (written_bytes [233%N]) = 33%nat.
Proof. split; vm_compute; reflexivity. Qed.

(** ** What the decoding of a token overlooks *)

Lemma sextets_stop_at_padding (tok junk : jsstring) :
  ~ In 61%N tok -> Buffer.sextets (tok ++ 61%N :: junk) = Buffer.sextets tok.
Proof.
  induction tok as [|c tok IH]; intros Hnot.
  - reflexivity.
  - cbn [app Buffer.sextets]. cbv zeta.
    destruct (c mod 256 =? 61)%N; [reflexivity|].
    rewrite IH by (intros Hin; apply Hnot; now right). reflexivity.
Qed.

(** The text of a token is read up to its first equals sign: whatever
    follows it changes nothing to the subject, in either variant, and a token
    stripped of its padding resolves like the padded one. *)
Theorem token_is_read_up_to_padding (tok junk : jsstring) :
  ~ In 61%N tok ->
  Async.tokToSubjectFakeToks (tok ++ 61%N :: junk) = Async.tokToSubjectFakeToks tok
  /\ Sync.tokToSubject (tok ++ 61%N :: junk) = Sync.tokToSubject tok.
Proof.
  intros Hnot. unfold Async.tokToSubjectFakeToks, Sync.tokToSubject, Buffer.from_base64.
  rewrite (sextets_stop_at_padding tok junk Hnot). split; reflexivity.
Qed.

Lemma token_is_read_up_to_padding_witness :
  Async.tokToSubjectFakeToks
    (lit "eyJzdWJqZWN0IjoiNDY5ODYzMjE2ODEzIiwic2NvcGVzIjoibmFtZXMifQ" ++ 61%N :: lit "=")
  = Async.tokToSubjectFakeToks
      (lit "eyJzdWJqZWN0IjoiNDY5ODYzMjE2ODEzIiwic2NvcGVzIjoibmFtZXMifQ")
  /\ Sync.tokToSubject
       (lit "eyJzdWJqZWN0IjoiNDY5ODYzMjE2ODEzIiwic2NvcGVzIjoibmFtZXMifQ" ++ 61%N :: lit "=")
     = Sync.tokToSubject
         (lit "eyJzdWJqZWN0IjoiNDY5ODYzMjE2ODEzIiwic2NvcGVzIjoibmFtZXMifQ").
Proof.
  apply (token_is_read_up_to_padding
           (lit "eyJzdWJqZWN0IjoiNDY5ODYzMjE2ODEzIiwic2NvcGVzIjoibmFtZXMifQ") (lit "=")).
  vm_compute. intuition discriminate.
Defined.

(** ** The synchronous variant, end to end *)

(** In the synchronous variant a request without Authorization header, or
    with a value of at most 7 characters, gets the subject "anonymous" and,
    as no record is owned by it, every account and every transfer of the
    store. *)
Theorem sync_short_header_sees_everything (req : request) :
  (List.length (authorization_or_empty req) <= 7)%nat ->
  exists c,
    Sync.server_context req = Normal c
    /\ Sync.subject c = VString (lit "anonymous")
    /\ Sync.accounts c = Normal data.accounts
    /\ Sync.transfers c = Normal data.transfers.
Proof.
  intros Hshort. exists (Sync.mkContext (VString (lit "anonymous"))).
  unfold Sync.server_context, Sync.reqToSubject.
  apply Nat.ltb_ge in Hshort. rewrite Hshort.
  repeat split; vm_compute; reflexivity.
Qed.

Lemma sync_short_header_sees_everything_witness :
  exists c,
    Sync.server_context (mkRequest (Some (lit "Bearer "))) = Normal c
    /\ Sync.subject c = VString (lit "anonymous")
    /\ Sync.accounts c = Normal data.accounts
    /\ Sync.transfers c = Normal data.transfers.
Proof.
  apply (sync_short_header_sees_everything (mkRequest (Some (lit "Bearer ")))).
  simpl. lia.
Defined.

(** The two variants serve complements: on a request that the synchronous
    variant serves, the asynchronous variant with fake tokens returns too,
    and each record of the store is in the answer of exactly one of them,
    for accounts and for transfers. *)
Theorem variants_serve_complements (service : Async.endpoint) (req : request)
    (c : Sync.Context) (others : list Account.t) (others2 : list Transfer.t) :
  Sync.server_context req = Normal c ->
  Sync.accounts c = Normal others ->
  Sync.transfers c = Normal others2 ->
  exists c' mine mine2,
    Async.accounts Async.Alternative2 service (Async.server_context req) = Normal (c', mine)
    /\ Async.transfers Async.Alternative2 service (Async.server_context req)
       = Normal (c', mine2)
    /\ (forall a, In a data.accounts -> (In a mine <-> ~ In a others))
    /\ (forall t, In t data.transfers -> (In t mine2 <-> ~ In t others2)).
Proof.
  intros Hctx Hacc Htr.
  unfold Sync.server_context in Hctx.
  destruct (Sync.reqToSubject req) as [v| | |] eqn:Hreq; cbn [bind] in Hctx; try discriminate.
  injection Hctx as <-.
  unfold Sync.accounts in Hacc. unfold Sync.transfers in Htr. cbn [Sync.subject] in Hacc, Htr.
  destruct (ToString v) as [That| | |] eqn:HT; cbn [bind] in Hacc, Htr; try discriminate.
  rewrite (sync_accounts_loop_filter _ _ _ _ HT) in Hacc.
  rewrite (sync_transfers_loop_filter _ _ _ _ HT) in Htr.
  cbn [app] in Hacc, Htr.
  set (rest := filter (fun a => not_owned_by That (Account.owner a)) data.accounts) in Hacc.
  set (rest2 := filter (fun t => not_owned_by That (Account.owner (Transfer.creditor t)))
                  data.transfers) in Htr.
  assert (Eo : rest = others) by congruence. assert (Eo2 : rest2 = others2) by congruence.
  subst others others2 rest rest2. clear Hacc Htr.
  assert (Hsplit : forall (A : Type) (owner : A -> jsstring) (This : jsstring) (l : list A),
             (forall x, In x l -> owned_by This (owner x) = owned_by That (owner x)) ->
             forall x, In x l ->
               (In x (filter (fun y => owned_by This (owner y)) l)
                <-> ~ In x (filter (fun y => not_owned_by That (owner y)) l))).
  { intros A owner This l Hsame x Hx. rewrite !filter_In, (Hsame x Hx). unfold not_owned_by.
    destruct (owned_by That (owner x)); cbn [negb]; intuition discriminate. }
  unfold Async.accounts, Async.transfers, Async.contextToSubject.
  cbn [Async.server_context Async.ctx_request].
  unfold Sync.reqToSubject in Hreq.
  destruct (7 <? List.length (authorization_or_empty req))%nat.
  - cbn [Async.tokToSubject]. unfold Async.tokToSubjectFakeToks.
    unfold Sync.tokToSubject in Hreq. rewrite Hreq.
    cbn [try_catch bind Async.set_subject Async.subject Async.ctx_request].
    rewrite HT. cbn [bind].
    rewrite (accounts_loop_filter _ _ _ _ HT), (transfers_loop_filter _ _ _ _ HT).
    cbn [bind app]. do 3 eexists. split; [reflexivity|]. split; [reflexivity|].
    split.
    + apply (Hsplit _ Account.owner That). reflexivity.
    + apply (Hsplit _ (fun t => Account.owner (Transfer.creditor t)) That). reflexivity.
  - injection Hreq as <-. injection HT as <-.
    cbn [bind Async.set_subject Async.subject Async.ctx_request ToString].
    rewrite (accounts_loop_filter _ (VString (lit "no subject present"))
               (lit "no subject present") [] eq_refl).
    rewrite (transfers_loop_filter _ (VString (lit "no subject present"))
               (lit "no subject present") [] eq_refl).
    cbn [bind app]. do 3 eexists. split; [reflexivity|]. split; [reflexivity|].
    split.
    + apply (Hsplit _ Account.owner (lit "no subject present")).
      intros x Hx. cbn [data.accounts In] in Hx.
      repeat (destruct Hx as [<-|Hx]; [vm_compute; reflexivity|]). contradiction.
    + apply (Hsplit _ (fun t => Account.owner (Transfer.creditor t))
               (lit "no subject present")).
      intros x Hx. cbn [data.transfers In] in Hx.
      repeat (destruct Hx as [<-|Hx]; [vm_compute; reflexivity|]). contradiction.
Qed.

Lemma variants_serve_complements_witness :
  exists c' mine mine2,
    Async.accounts Async.Alternative2 silent
      (Async.server_context (mkRequest (Some (lit "Bearer " ++ fake_token_469863216813))))
    = Normal (c', mine)
    /\ Async.transfers Async.Alternative2 silent
         (Async.server_context (mkRequest (Some (lit "Bearer " ++ fake_token_469863216813))))
       = Normal (c', mine2)
    /\ (forall a, In a data.accounts ->
                  (In a mine <-> ~ In a [data.checking_325; data.savings_331; data.card_340]))
    /\ (forall t, In t data.transfers -> (In t mine2 <-> ~ In t [data.transfer_feb20])).
Proof.
  apply (variants_serve_complements silent
           (mkRequest (Some (lit "Bearer " ++ fake_token_469863216813)))
           (Sync.mkContext (VString (lit "469863216813"))));
    vm_compute; reflexivity.
Defined.

(** ** Faults of the synchronous resolution *)

(** The synchronous resolution of a token comes back, and it throws in two
    cases only: a SyntaxError when the decoded text is not JSON, a TypeError
    when it is the JSON text null, whose subject cannot be read. *)
Theorem sync_resolution_faults (tok : jsstring) :
  comes_back (Sync.tokToSubject tok)
  /\ forall e, Sync.tokToSubject tok = Throw e ->
       (e = SyntaxError
        /\ JSON.parse (Buffer.toString (Buffer.from_base64 tok)) = Throw SyntaxError)
       \/ (e = TypeError
           /\ JSON.parse (Buffer.toString (Buffer.from_base64 tok)) = Normal VNull).
Proof.
  unfold Sync.tokToSubject.
  pose proof (parse_comes_back (Buffer.toString (Buffer.from_base64 tok))) as Hback.
  pose proof (parse_never_undefined (Buffer.toString (Buffer.from_base64 tok))) as Hdef.
  pose proof (parse_throws_SyntaxError (Buffer.toString (Buffer.from_base64 tok))) as Hsyn.
  destruct (JSON.parse (Buffer.toString (Buffer.from_base64 tok))) as [v|e0| |e0];
    try contradiction; cbn [bind].
  - split; [apply Get_comes_back|].
    intros e. destruct v as [| |b|n|s|elems|props]; cbn [Get]; try discriminate.
    + congruence.
    + intros H. injection H as <-. right. split; reflexivity.
    + destruct (lookup (lit "subject") props); discriminate.
  - split; [exact I|]. intros e H. injection H as <-.
    rewrite (Hsyn e0 eq_refl). left. split; reflexivity.
Qed.
